(** * log_odds.py: scoring engine and log maintenance

    A shallow embedding of the core of [src/log_odds.py]: the barometric
    stability estimate, the score, and the load / prune / merge-or-append /
    save cycle on the JSON log.

    Conventions of the embedding.
    - A Python value read from the log is a [json] term; [None] is [JNull].
    - A Python call that may raise returns a [result]; [Raise e] is the
      exception propagating to the caller.
    - Python floats are idealised as exact rationals ([Q]).  The
      [OverflowError] the code raises when an integer beyond the range of
      a float is divided or meets a float has no counterpart: what is
      proved to return is proved for numbers of moderate size (see
      [moderate] below).
    - A [datetime] is a position on the proleptic Gregorian time line in
      microseconds, together with its UTC offset ([None] for a naive value).
    - Functions of the interpreter's library whose code is not in the
      repository ([datetime.fromisoformat], [datetime.isoformat],
      [json.load], [json.dump]) are section variables: every general theorem
      holds for whatever they compute.  Module [Concrete] supplies executable
      instances for the examples. *)

From Stdlib Require Import ZArith QArith Qround Qabs Lia Lqa String Ascii List.
From stdpp Require Import base option list gmap strings sorting.
Import ListNotations.

Open Scope string_scope.
Open Scope Z_scope.

(** ** Exceptions and results *)

Inductive exn : Type :=
| AttributeError
| KeyError
| TypeError
| ValueError
| OSError.

Inductive result (A : Type) : Type :=
| Ok (a : A)
| Raise (e : exn).

Arguments Ok {A} a.
Arguments Raise {A} e.

#[global] Instance result_ret : MRet result := fun _ a => Ok a.
#[global] Instance result_bind : MBind result := fun _ _ f r =>
  match r with
  | Ok a => f a
  | Raise e => Raise e
  end.

(** [try: body / except: handler] with a bare [except], which catches
    every exception. *)
Definition try_except {A} (body : result A) (handler : A) : A :=
  match body with
  | Ok a => a
  | Raise _ => handler
  end.

Definition returns {A} (r : result A) : Prop := ∃ a, r = Ok a.

(** ** Values read from the log *)

Set Warnings "-register-all".

Inductive json : Type :=
| JNull
| JBool (b : bool)
| JNum (q : Q)
| JStr (s : string)
| JArr (items : list json)
| JObj (members : list (string * json)).

Fixpoint lookup_key (kv : list (string * json)) (k : string) : option json :=
  match kv with
  | [] => None
  | (k', v) :: kv' => if String.eqb k' k then Some v else lookup_key kv' k
  end.

(** [e.get(k)]: only a dict has the method; a missing key gives [None]. *)
Definition dict_get (e : json) (k : string) : result json :=
  match e with
  | JObj kv => Ok (default JNull (lookup_key kv k))
  | _ => Raise AttributeError
  end.

(** [e[k]] with a string key. *)
Definition getitem (e : json) (k : string) : result json :=
  match e with
  | JObj kv =>
      match lookup_key kv k with
      | Some v => Ok v
      | None => Raise KeyError
      end
  | _ => Raise TypeError
  end.

(** [str.replace(old, new)] on the characters of [s]; [skip] counts the
    characters of a match still to be dropped. *)
Fixpoint replace_from (skip : nat) (old new s : string) : string :=
  match s with
  | EmptyString => EmptyString
  | String c s' =>
      match skip with
      | S k => replace_from k old new s'
      | O =>
          if String.prefix old s
          then new +:+ replace_from (Nat.pred (String.length old)) old new s'
          else String c (replace_from O old new s')
      end
  end.

Definition str_replace (old new s : string) : string :=
  replace_from O old new s.

(** [t.replace(old, new)] on an arbitrary value: only [str] has the method. *)
Definition replace_method (t : json) (old new : string) : result string :=
  match t with
  | JStr s => Ok (str_replace old new s)
  | _ => Raise AttributeError
  end.

(** ** Dates and times *)

Definition us_per_second : Z := 1000000.
Definition us_per_hour : Z := 3600 * us_per_second.
Definition us_per_day : Z := 24 * us_per_hour.

Record datetime : Type := mk_datetime {
  wall : Z;               (* microseconds on the local wall clock *)
  utcoffset : option Z    (* microseconds east of UTC; None: naive *)
}.

(** [dt.hour] and [dt.date()]: fields of the wall-clock reading, whatever
    the offset. *)
Definition hour (dt : datetime) : Z := (wall dt / us_per_hour) mod 24.
Definition date (dt : datetime) : Z := wall dt / us_per_day.

(** [dt - timedelta(hours=h)]. *)
Definition minus_hours (dt : datetime) (h : Z) : datetime :=
  mk_datetime (wall dt - h * us_per_hour) (utcoffset dt).

(** [dt.replace(microsecond=0)]. *)
Definition replace_microsecond_0 (dt : datetime) : datetime :=
  mk_datetime (wall dt - wall dt mod us_per_second) (utcoffset dt).

(** [datetime.datetime.now(datetime.timezone.utc)] when the clock reads [t]. *)
Definition now_utc (t : Z) : datetime := mk_datetime t (Some 0).

(** [a >= b]: two aware values compare as instants, two naive ones as wall
    readings, and a mixed pair raises. *)
Definition dt_ge (a b : datetime) : result bool :=
  match utcoffset a, utcoffset b with
  | Some oa, Some ob => Ok (wall b - ob <=? wall a - oa)
  | None, None => Ok (wall b <=? wall a)
  | _, _ => Raise TypeError
  end.

(** ** Configuration *)

Definition KEEP_HOURS : Z := 30 * 24.
Definition STABILITY_THRESHOLD : Q := 2.
Definition STABILITY_DAYS : nat := 4.

(** [[x for x in l if cond(x)]] where [cond] may raise. *)
Fixpoint comprehension {A} (cond : A → result bool) (l : list A)
  : result (list A) :=
  match l with
  | [] => Ok []
  | x :: l' =>
      b ← cond x;
      r ← comprehension cond l';
      Ok (if b : bool then x :: r else r)
  end.

(** [for x in l: s = body(s, x)] where the body may raise. *)
Fixpoint for_each {S A} (body : S → A → result S) (l : list A) (s : S)
  : result S :=
  match l with
  | [] => Ok s
  | x :: l' => s' ← body s x; for_each body l' s'
  end.

(** [sum(vals)]: starts from [0] and adds the items in order; adding
    anything but a number raises.  A [bool] is an [int]. *)
Definition as_number (v : json) : result Q :=
  match v with
  | JNum q => Ok q
  | JBool b => Ok (if b then 1%Q else 0%Q)
  | _ => Raise TypeError
  end.

Fixpoint sum_from (acc : Q) (vals : list json) : result Q :=
  match vals with
  | [] => Ok acc
  | v :: vs => x ← as_number v; sum_from (acc + x)%Q vs
  end.

Definition py_sum (vals : list json) : result Q := sum_from 0%Q vals.

(** [max(0, x)]: the first argument unless the second is greater. *)
Definition max0 (x : Q) : Q := if Qle_bool x 0 then 0%Q else x.

(** [round(x, 1)]: to the nearest tenth, ties to the even tenth. *)
Definition round_half_even (y : Q) : Z :=
  let f := Qfloor y in
  match (y - inject_Z f ?= 1 # 2)%Q with
  | Lt => f
  | Gt => f + 1
  | Eq => if Z.even f then f else f + 1
  end.

Definition round1 (x : Q) : Q := (inject_Z (round_half_even (x * 10)) / 10)%Q.

(** ** The score (lines 108-113) *)

Definition compute_score (p_now p_prev T_now L_now D : Q) : Q :=
  let P := max0 (1 - Qabs (p_now - p_prev) / 10)%Q in
  let L := max0 (1 - Qabs (L_now - 7) / 5)%Q in
  let T := max0 (1 - Qabs (T_now - 75) / 15)%Q in
  let S := (0.30 * D + 0.25 * P + 0.20 * L + 0.25 * T)%Q in
  round1 (S * 100)%Q.

(** ** The stability estimate (lines 83-106) *)

(** Lines 98-101, one date: [sum(vals)/len(vals) if vals else None], in
    exact arithmetic (see [moderate]). *)
Definition daily_mean (vals : option (list json)) : result (option Q) :=
  match vals with
  | Some (v :: vs) =>
      s ← py_sum (v :: vs);
      Ok (Some (s / inject_Z (Z.of_nat (length (v :: vs))))%Q)
  | _ => Ok None
  end.

(** Line 97; a date is its day number, so [d - timedelta(days=i)] is
    [d - i]. *)
Definition past_dates (today : Z) : list Z :=
  map (fun i => today - Z.of_nat i) (seq 1 STABILITY_DAYS).

(** Line 104, the test on [avgs[i]] and [avgs[i-1]]. *)
Definition is_stable (avgs : list (option Q)) (i : nat) : bool :=
  match avgs !! i, avgs !! (i - 1)%nat with
  | Some (Some a), Some (Some b) =>
      Qle_bool (Qabs (a - b)) STABILITY_THRESHOLD
  | _, _ => false
  end.

(** Lines 102-105. *)
Definition count_stable (avgs : list (option Q)) : nat :=
  fold_left (fun stable i => if is_stable avgs i then S stable else stable)
    (seq 1 (length avgs - 1)) O.

(** ** The file system *)

Record file : Type := mk_file {
  text : string;
  readable : bool
}.

Record filesystem : Type := mk_fs {
  files : gmap string file;
  dirs : gset string
}.

(** What the environment does to a [save_data] call: nothing, or the
    failure of one of its steps.  [FailMakedirs k] fails the making of the
    directory at place [k] of the chain, [FailWrite k] fails after [k]
    chunks were written (the write of the next one raises, or the encoder
    raises before it yields it). *)
Inductive fault : Type :=
| NoFault
| FailMakedirs (k : nat)
| FailOpen
| FailWrite (k : nat)
| FailClose
| FailReplace.

(** The states the file system went through, latest first. *)
Record world : Type := mk_world {
  fs_now : filesystem;
  fs_before : list filesystem
}.

Definition io (A : Type) : Type := world → result A * world.

#[global] Instance io_ret : MRet io := fun _ a w => (Ok a, w).
#[global] Instance io_bind : MBind io := fun _ _ f m w =>
  match m w with
  | (Ok a, w') => f a w'
  | (Raise e, w') => (Raise e, w')
  end.

Definition io_raise {A} (e : exn) : io A := fun w => (Raise e, w).

Definition io_update (f : filesystem → filesystem) : io () := fun w =>
  (Ok (), mk_world (f (fs_now w)) (fs_now w :: fs_before w)).

Definition io_read {A} (f : filesystem → A) : io A := fun w =>
  (Ok (f (fs_now w)), w).

Fixpoint io_for_each {A} (body : nat → A → io ()) (i : nat) (l : list A)
  : io () :=
  match l with
  | [] => mret ()
  | x :: l' => body i x;; io_for_each body (S i) l'
  end.

(** [os.path.dirname] of [posixpath]: the part before the last slash,
    without trailing slashes unless it is made of slashes only. *)
Definition slash : ascii := "/"%char.

Fixpoint drop_while_not_slash (r : list ascii) : list ascii :=
  match r with
  | [] => []
  | c :: r' => if Ascii.eqb c slash then r else drop_while_not_slash r'
  end.

Fixpoint drop_slashes (r : list ascii) : list ascii :=
  match r with
  | [] => []
  | c :: r' => if Ascii.eqb c slash then drop_slashes r' else r
  end.

Definition dirname (p : string) : string :=
  let head := drop_while_not_slash (rev (list_ascii_of_string p)) in
  match drop_slashes head with
  | [] => string_of_list_ascii (rev head)
  | stripped => string_of_list_ascii (rev stripped)
  end.

(** The directories [os.makedirs(name)] has to find or make, outermost
    first. *)
Fixpoint ancestors (fuel : nat) (name : string) : list string :=
  match fuel with
  | O => []
  | S fuel' =>
      let up := dirname name in
      if String.eqb up name then [name]
      else if String.eqb up EmptyString then [name]
      else ancestors fuel' up ++ [name]
  end.

Definition mkdir (flt : fault) (i : nat) (name : string) : io () :=
  match flt with
  | FailMakedirs k => if (k =? i)%nat then io_raise OSError else
      io_update (fun fs => mk_fs (files fs) ({[name]} ∪ dirs fs))
  | _ => io_update (fun fs => mk_fs (files fs) ({[name]} ∪ dirs fs))
  end.

(** [os.makedirs(name, exist_ok=True)]. *)
Definition os_makedirs (flt : fault) (name : string) : io () :=
  if String.eqb name EmptyString then io_raise OSError else
  io_for_each (fun i d =>
      is_file ← io_read (fun fs => bool_decide (is_Some (files fs !! d)));
      is_dir ← io_read (fun fs => bool_decide (d ∈ dirs fs));
      if is_file : bool then io_raise OSError
      else if is_dir : bool then mret ()
      else mkdir flt i d)
    O (ancestors (S (String.length name)) name).

(** [open(p, 'w')]: creates or truncates the file. *)
Definition open_w (flt : fault) (p : string) : io () :=
  match flt with
  | FailOpen => io_raise OSError
  | _ =>
      is_dir ← io_read (fun fs => bool_decide (p ∈ dirs fs));
      if is_dir : bool then io_raise OSError
      else io_update (fun fs =>
        let mode := default true (readable <$> files fs !! p) in
        mk_fs (<[p := mk_file EmptyString mode]> (files fs)) (dirs fs))
  end.

(** [f.write(chunk)] on the file opened at [p]. *)
Definition write_chunk (flt : fault) (p : string) (i : nat) (chunk : string)
  : io () :=
  match flt with
  | FailWrite k => if (k =? i)%nat then io_raise OSError else
      io_update (fun fs =>
        mk_fs (alter (fun f => mk_file (text f +:+ chunk) (readable f)) p
                 (files fs)) (dirs fs))
  | _ =>
      io_update (fun fs =>
        mk_fs (alter (fun f => mk_file (text f +:+ chunk) (readable f)) p
                 (files fs)) (dirs fs))
  end.

(** Leaving the [with] block. *)
Definition close_file (flt : fault) : io () :=
  match flt with
  | FailClose => io_raise OSError
  | _ => mret ()
  end.

(** [os.replace(src, dst)]: one step, in which [dst] becomes the file
    that was at [src]. *)
Definition os_replace (flt : fault) (src dst : string) : io () :=
  match flt with
  | FailReplace => io_raise OSError
  | _ =>
      found ← io_read (fun fs => files fs !! src);
      is_dir ← io_read (fun fs => bool_decide (dst ∈ dirs fs));
      match found with
      | None => io_raise OSError
      | Some f =>
          if is_dir : bool then io_raise OSError
          else io_update (fun fs =>
            mk_fs (<[dst := f]> (delete src (files fs))) (dirs fs))
      end
  end.

(** [os.path.exists]. *)
Definition path_exists (fs : filesystem) (p : string) : bool :=
  bool_decide (is_Some (files fs !! p)) || bool_decide (p ∈ dirs fs).

(** [open(p, 'r')] followed by reading the whole file. *)
Definition read_file (fs : filesystem) (p : string) : result string :=
  match files fs !! p with
  | Some f => if readable f then Ok (text f) else Raise OSError
  | None => Raise OSError
  end.

(** The readings of the clock, one for each call of [datetime.now]. *)
Record clock : Type := mk_clock {
  t_stability : Z;   (* line 96 *)
  t_entry : Z;       (* line 154 *)
  t_cutoff : Z;      (* line 156 *)
  t_merge : Z        (* line 158 *)
}.

Section Log.

(** [datetime.datetime.fromisoformat]; [None] is its [ValueError]. *)
Variable fromisoformat : string → option datetime.

(** [datetime.isoformat]. *)
Variable isoformat : datetime → string.

(** [json.load] on the text of a file; [None] is its [JSONDecodeError],
    a [ValueError]. *)
Variable json_loads : string → option json.

(** The chunks [json.dump(data, f, indent=2)] writes to [f], in order. *)
Variable iterencode : list json → list string.

Definition parse (s : string) : result datetime :=
  match fromisoformat s with
  | Some dt => Ok dt
  | None => Raise ValueError
  end.

(** The expression [datetime.datetime.fromisoformat(t.replace("Z","+00:00"))]
    of lines 91, 157 and 158, on the value [t] of the field. *)
Definition parse_time (t : json) : result datetime :=
  s ← replace_method t "Z" "+00:00";
  parse s.

(** Lines 88-95, the body of the loop.  The dictionary is keyed by the
    date itself: [date.isoformat] is one to one. *)
Definition collect (pressures_by_date : gmap Z (list json)) (e : json)
  : result (gmap Z (list json)) :=
  t ← dict_get e "time";
  p ← dict_get e "p_now";
  match parse_time t with
  | Raise _ => Ok pressures_by_date
  | Ok dt =>
      let date_str := date dt in
      let vals := default [] (pressures_by_date !! date_str) in
      Ok (<[date_str := (vals ++ [p])%list]> pressures_by_date)
  end.

(** Lines 98-101. *)
Definition averages (pressures_by_date : gmap Z (list json)) (today : Z)
  : result (list (option Q)) :=
  for_each (fun avgs d =>
      a ← daily_mean (pressures_by_date !! d);
      Ok (avgs ++ [a])%list)
    (rev (past_dates today)) [].

Definition compute_barometric_stability_local (t_now : Z) (entries : list json)
  : result Q :=
  match entries with
  | [] => Ok 0%Q
  | _ =>
      pressures_by_date ← for_each collect entries ∅;
      let now := date (now_utc t_now) in
      avgs ← averages pressures_by_date now;
      let stable := count_stable avgs in
      Ok (inject_Z (Z.of_nat stable) / inject_Z (Z.of_nat STABILITY_DAYS))%Q
  end.

(** ** Loading and saving (lines 115-130) *)

Definition json_load (s : string) : result json :=
  match json_loads s with
  | Some v => Ok v
  | None => Raise ValueError
  end.

(** The [try] block returns early with [Some] list, or falls through. *)
Definition load_existing_data (fs : filesystem) (path : string)
  : result (list json) :=
  let body : result (option (list json)) :=
    if path_exists fs path then
      s ← read_file fs path;
      data ← json_load s;
      Ok (Some (match data with JArr l => l | _ => [] end))
    else Ok None in
  match try_except body None with
  | Some l => Ok l
  | None => Ok []
  end.

Definition save_data (flt : fault) (path : string) (data : list json) : io () :=
  os_makedirs flt (dirname path);;
  let tmp := path +:+ ".tmp" in
  open_w flt tmp;;
  io_for_each (write_chunk flt tmp) O (iterencode data);;
  close_file flt;;
  os_replace flt tmp path.

(** ** The log update (lines 151-162) *)

Definition record_time (e : json) : result datetime :=
  t ← getitem e "time";
  parse_time t.

(** Line 154. *)
Definition timestamp (t : Z) : string :=
  str_replace "+00:00" "Z" (isoformat (replace_microsecond_0 (now_utc t))).

(** Line 155. *)
Definition make_entry (now : string) (p_now T_now L_now pct : Q) : json :=
  JObj [("time", JStr now); ("p_now", JNum p_now); ("T_now", JNum T_now);
        ("L_now", JNum L_now); ("score", JNum pct)].

(** Line 156. *)
Definition cutoff_at (t : Z) : datetime := minus_hours (now_utc t) KEEP_HOURS.

(** Line 157. *)
Definition prune (cutoff : datetime) (data : list json) : result (list json) :=
  comprehension (fun e => dt ← record_time e; dt_ge dt cutoff) data.

(** Lines 158-161.  The right operand of [and] is evaluated only for a
    non-empty list. *)
Definition merge_or_append (t : Z) (entry : json) (data : list json)
  : result (list json) :=
  same_hour ←
    match last data with
    | None => Ok false
    | Some e => dt ← record_time e; Ok (hour dt =? hour (now_utc t))
    end;
  Ok (if same_hour : bool
      then <[(length data - 1)%nat := entry]> data
      else (data ++ [entry])%list).

(** Lines 152-161: from the loaded history to the list handed to
    [save_data]. *)
Definition update_log (clk : clock) (p_now p_prev T_now L_now : Q)
    (data : list json) : result (list json) :=
  D ← compute_barometric_stability_local (t_stability clk) data;
  let pct := compute_score p_now p_prev T_now L_now D in
  let now := timestamp (t_entry clk) in
  let entry := make_entry now p_now T_now L_now pct in
  let cutoff := cutoff_at (t_cutoff clk) in
  data ← prune cutoff data;
  merge_or_append (t_merge clk) entry data.

(** Lines 151-162. *)
Definition log_management (clk : clock) (flt : fault) (path : string)
    (p_now p_prev T_now L_now : Q) : io () := fun w =>
  match (data ← load_existing_data (fs_now w) path;
         update_log clk p_now p_prev T_now L_now data) with
  | Ok data => save_data flt path data w
  | Raise e => (Raise e, w)
  end.

End Log.

(** ** The readings (lines 35-81) and the run (lines 132-163) *)

(** Exceptions of the fetching code that the log code never raises. *)
Inductive error : Type :=
| Builtin (e : exn)
| IndexError
| RuntimeError
| RequestException.

Inductive attempt (A : Type) : Type :=
| Done (a : A)
| Failed (e : error).

Arguments Done {A} a.
Arguments Failed {A} e.

#[global] Instance attempt_ret : MRet attempt := fun _ a => Done a.
#[global] Instance attempt_bind : MBind attempt := fun _ _ f r =>
  match r with
  | Done a => f a
  | Failed e => Failed e
  end.

Definition lift {A} (r : result A) : attempt A :=
  match r with
  | Ok a => Done a
  | Raise e => Failed (Builtin e)
  end.

(** A request as [requests.get] receives it. *)
Record request : Type := mk_request {
  url : string;
  headers : option (list (string * string));
  params : option (list (string * json));
  timeout : Z
}.

(** A computation that sends requests: it is given the number of requests
    sent so far and returns the number sent after it. *)
Definition net (A : Type) : Type := nat → attempt A * nat.

#[global] Instance net_ret : MRet net := fun _ a n => (Done a, n).
#[global] Instance net_bind : MBind net := fun _ _ f m n =>
  match m n with
  | (Done a, n') => f a n'
  | (Failed e, n') => (Failed e, n')
  end.

(** A step that sends nothing. *)
Definition local {A} (r : attempt A) : net A := fun n => (r, n).

(** [v[k]] with a string key and [v[i]] with an integer index. *)
Definition subscript (v : json) (k : string) : attempt json :=
  lift (getitem v k).

Definition getitem_index (v : json) (i : nat) : attempt json :=
  match v with
  | JArr l =>
      match l !! i with
      | Some x => Done x
      | None => Failed IndexError
      end
  | JStr s =>
      match String.get i s with
      | Some c => Done (JStr (String c EmptyString))
      | None => Failed IndexError
      end
  | JObj _ => Failed (Builtin KeyError)
  | _ => Failed (Builtin TypeError)
  end.

(** [v] as an operand of [/] and [*] with a number, in exact arithmetic
    (see [moderate]). *)
Definition operand (v : json) : attempt Q := lift (as_number v).

(** [bool(v)], as [if not data] tests it. *)
Definition truthy (v : json) : bool :=
  match v with
  | JNull => false
  | JBool b => b
  | JNum q => negb (Qeq_bool q 0)
  | JStr s => negb (String.eqb s EmptyString)
  | JArr l => match l with [] => false | _ => true end
  | JObj kv => match kv with [] => false | _ => true end
  end.

(** One line of output of [main]: the two error lines of standard error
    and the confirmation line. *)
Inductive line : Type :=
| GeocodeFailed (e : error)
| FetchFailed (e : error)
| Logged (now : string) (pct : Q).

(** What a call of [main] leaves: the lines printed, the exception that
    ended it if one did, the file system and the number of requests
    sent. *)
Record outcome : Type := mk_outcome {
  printed : list line;
  raised : option exn;
  after : world;
  sent : nat
}.

(** Line 29. *)
Definition USGS_URL : string :=
  "https://waterservices.usgs.gov/nwis/iv/"
  +:+ "?format=json&sites=01473730&parameterCd=00065".

Section Weather.

(** The network: the answer to the request sent as number [n], which is
    the value [resp.json()] returns or the exception that [requests.get],
    [raise_for_status] or [resp.json] raises. *)
Variable http_get : nat → request → attempt json.

(** [float] on a string; [None] is its [ValueError]. *)
Variable float_of_string : string → option Q.

(** [str] on a float and on a value that is not a string, as an f-string
    formats them. *)
Variable str_of_float : Q → string.
Variable py_str : json → string.

(** The configuration read from the environment (lines 24-26). *)
Variable LOG_FILE_PATH : string.
Variable ZIP_CODE : string.
Variable USER_AGENT : string.

Variable fromisoformat : string → option datetime.
Variable isoformat : datetime → string.
Variable json_loads : string → option json.
Variable iterencode : list json → list string.

(** [requests.get(...)], [resp.raise_for_status()] and [resp.json()]. *)
Definition get_json (req : request) : net json := fun n =>
  (http_get n req, S n).

(** [float(v)], in exact arithmetic (see [moderate]). *)
Definition py_float (v : json) : attempt Q :=
  match v with
  | JNum q => Done q
  | JBool b => Done (if b then 1%Q else 0%Q)
  | JStr s =>
      match float_of_string s with
      | Some q => Done q
      | None => Failed (Builtin ValueError)
      end
  | _ => Failed (Builtin TypeError)
  end.

(** A value inside an f-string, and a value given as a URL. *)
Definition format_value (v : json) : string :=
  match v with
  | JStr s => s
  | _ => py_str v
  end.

(** Lines 35-45. *)
Definition geocode_zip (zip_code : string) : net (Q * Q) :=
  let url := "https://nominatim.openstreetmap.org/search" in
  let params := [("postalcode", JStr zip_code); ("country", JStr "USA");
                 ("format", JStr "json"); ("limit", JNum 1)] in
  let headers := [("User-Agent", USER_AGENT)] in
  data ← get_json (mk_request url (Some headers) (Some params) 10);
  if negb (truthy data) then local (Failed RuntimeError)
  else local (
    lat ← (first ← getitem_index data 0;
           v ← subscript first "lat"; py_float v);
    lon ← (first ← getitem_index data 0;
           v ← subscript first "lon"; py_float v);
    mret (lat, lon)).

(** Lines 47-50. *)
Definition fetch_json (url : string) (headers : option (list (string * string)))
    (params : option (list (string * json))) : net json :=
  get_json (mk_request url headers params 15).

(** Lines 52-59. *)
Definition get_weather_station (lat lon : Q) : net json :=
  let headers := [("User-Agent", USER_AGENT)] in
  let pts_url := "https://api.weather.gov/points/" +:+ str_of_float lat
                 +:+ "," +:+ str_of_float lon in
  data ← fetch_json pts_url (Some headers) None;
  stations_url ← local (props ← subscript data "properties";
                        subscript props "observationStations");
  stations_data ← fetch_json (format_value stations_url) (Some headers) None;
  local (features ← subscript stations_data "features";
         first ← getitem_index features 0;
         props ← subscript first "properties";
         subscript props "stationIdentifier").

(** Lines 61-68. *)
Definition fetch_latest_obs (station_id : json) : net (Q * Q) :=
  let headers := [("User-Agent", USER_AGENT)] in
  let url := "https://api.weather.gov/stations/" +:+ format_value station_id
             +:+ "/observations/latest" in
  data ← fetch_json url (Some headers) None;
  local (
    props ← subscript data "properties";
    pressure ← subscript props "barometricPressure";
    value ← subscript pressure "value";
    x ← operand value;
    let p_now := (x / 100)%Q in
    temperature ← subscript props "temperature";
    value ← subscript temperature "value";
    c ← operand value;
    let T_now := (c * 9 / 5 + 32)%Q in
    mret (p_now, T_now)).

(** Lines 70-75. *)
Definition fetch_prev_pressure (station_id : json) : net Q :=
  let headers := [("User-Agent", USER_AGENT)] in
  let url := "https://api.weather.gov/stations/" +:+ format_value station_id
             +:+ "/observations" in
  data ← fetch_json url (Some headers) (Some [("limit", JNum 48)]);
  local (
    features ← subscript data "features";
    second ← getitem_index features 1;
    props ← subscript second "properties";
    pressure ← subscript props "barometricPressure";
    value ← subscript pressure "value";
    x ← operand value;
    mret (x / 100)%Q).

(** Lines 77-81. *)
Definition fetch_gauge : net Q :=
  data ← fetch_json USGS_URL None None;
  local (
    value ← subscript data "value";
    series ← subscript value "timeSeries";
    first ← getitem_index series 0;
    values ← subscript first "values";
    first ← getitem_index values 0;
    value ← subscript first "value";
    first ← getitem_index value 0;
    val ← subscript first "value";
    py_float val).

(** Lines 140-145, the body of the second [try]. *)
Definition fetch_readings (lat lon : Q) : net (Q * Q * Q * Q) :=
  station ← get_weather_station lat lon;
  '(p_now, T_now) ← fetch_latest_obs station;
  p_prev ← fetch_prev_pressure station;
  L_now ← fetch_gauge;
  mret (p_now, T_now, p_prev, L_now).

(** Lines 151-161 with what line 163 prints. *)
Definition log_step (clk : clock) (p_now p_prev T_now L_now : Q)
    (fs : filesystem) : result (list json * string * Q) :=
  data ← load_existing_data json_loads fs LOG_FILE_PATH;
  D ← compute_barometric_stability_local fromisoformat (t_stability clk) data;
  let pct := compute_score p_now p_prev T_now L_now D in
  let now := timestamp isoformat (t_entry clk) in
  let entry := make_entry now p_now T_now L_now pct in
  let cutoff := cutoff_at (t_cutoff clk) in
  data ← prune fromisoformat cutoff data;
  data ← merge_or_append fromisoformat (t_merge clk) entry data;
  Ok (data, now, pct).

(** Lines 132-163.  An exception of the two [try] blocks is printed and
    ends the call; one of the log management goes up to the caller. *)
Definition main (clk : clock) (flt : fault) (w : world) : outcome :=
  match geocode_zip ZIP_CODE O with
  | (Failed e, n) => mk_outcome [GeocodeFailed e] None w n
  | (Done (lat, lon), n) =>
      match fetch_readings lat lon n with
      | (Failed e, n) => mk_outcome [FetchFailed e] None w n
      | (Done (p_now, T_now, p_prev, L_now), n) =>
          match log_step clk p_now p_prev T_now L_now (fs_now w) with
          | Raise e => mk_outcome [] (Some e) w n
          | Ok (data, now, pct) =>
              match save_data iterencode flt LOG_FILE_PATH data w with
              | (Ok _, w') => mk_outcome [Logged now pct] None w' n
              | (Raise e, w') => mk_outcome [] (Some e) w' n
              end
          end
      end
  end.

End Weather.

(** ** Notions used to state the properties *)

(** The instant a datetime denotes, in microseconds of UTC (of the wall
    clock for a naive one). *)
Definition instant (dt : datetime) : Z := wall dt - default 0 (utcoffset dt).

(** The calendar hour of an instant: date and hour of day together. *)
Definition calendar_hour (dt : datetime) : Z := instant dt / us_per_hour.

Definition is_dict (e : json) : Prop := ∃ kv, e = JObj kv.

(** The character [c] does not occur in [s]. *)
Fixpoint free_of (c : ascii) (s : string) : Prop :=
  match s with
  | EmptyString => True
  | String x s' => x ≠ c ∧ free_of c s'
  end.

(** The states of the file system a reader may have seen. *)
Definition observed (w : world) : list filesystem := fs_now w :: fs_before w.

(** The file at [path] has been [old] in every state seen so far. *)
Definition untouched (path : string) (old : option file) (w : world) : Prop :=
  ∀ σ, σ ∈ observed w → files σ !! path = old.

(** An action that leaves the file at [path] as it finds it, whether it
    returns or raises. *)
Definition preserves {A} (path : string) (m : io A) : Prop :=
  ∀ w old, untouched path old w → untouched path old (m w).2.

(** The chunks joined in the order they are written. *)
Definition whole_text (chunks : list string) : string :=
  fold_right String.append EmptyString chunks.

(** *** Numbers of moderate size

    The definitions compute with exact rationals where the code computes
    with binary floats, and the code raises [OverflowError] when an integer
    beyond the range of a float is divided or meets a float (lines 66, 67,
    74 and 101).  A property that concludes a return, or a value that a
    comparison of means decides, is stated for numbers of magnitude at most
    [2^50]: these are far inside the range of a float, and a sum of them
    loses less to rounding than the threshold of line 104 allows. *)
Definition MODERATE : Q := inject_Z (2 ^ 50).

Definition moderate (q : Q) : Prop := (Qabs q <= MODERATE)%Q.

(** The magnitudes of the numbers of a list, added up. *)
Fixpoint magnitude (vals : list json) : Q :=
  match vals with
  | [] => 0%Q
  | v :: vs =>
      (match as_number v with
       | Ok x => Qabs x
       | Raise _ => 0
       end + magnitude vs)%Q
  end.

(** The numbers of a list are moderate as a whole, and so is every sum of
    some of them. *)
Definition moderate_sum (vals : list json) : Prop :=
  (magnitude vals <= MODERATE)%Q.

Section Notions.

Variable fromisoformat : string → option datetime.

(** A record whose [time] reads as an aware datetime. *)
Definition timed (e : json) : Prop :=
  ∃ dt off, record_time fromisoformat e = Ok dt ∧ utcoffset dt = Some off.

(** A record whose [time] reads as a UTC datetime, as line 154 writes it. *)
Definition timed_utc (e : json) : Prop :=
  ∃ dt, record_time fromisoformat e = Ok dt ∧ utcoffset dt = Some 0.

(** The record is not older than [cutoff]. *)
Definition recent (cutoff : datetime) (e : json) : bool :=
  match record_time fromisoformat e with
  | Ok dt => instant cutoff <=? instant dt
  | Raise _ => false
  end.

(** The [p_now] values of the records dated [d], in the order of the log. *)
Definition reading_on (d : Z) (e : json) : option json :=
  match e with
  | JObj kv =>
      match parse_time fromisoformat (default JNull (lookup_key kv "time")) with
      | Ok dt =>
          if date dt =? d then Some (default JNull (lookup_key kv "p_now"))
          else None
      | Raise _ => None
      end
  | _ => None
  end.

Definition readings_on (d : Z) (entries : list json) : list json :=
  omap (reading_on d) entries.

(** The readings of each of the four dates before the day of [t] are
    moderate as a whole. *)
Definition moderate_log (t : Z) (entries : list json) : Prop :=
  ∀ d, d ∈ past_dates (date (now_utc t)) →
       moderate_sum (readings_on d entries).

(** A record that is a dict and, when its [time] is readable, carries a
    number as [p_now]. *)
Definition well_formed (e : json) : Prop :=
  is_dict e ∧ ∀ d p, reading_on d e = Some p → returns (as_number p).

(** The mean of the readings of date [d] is [m]. *)
Definition mean_on (d : Z) (entries : list json) (m : Q) : Prop :=
  ∃ s, readings_on d entries ≠ []
       ∧ py_sum (readings_on d entries) = Ok s
       ∧ (s / inject_Z (Z.of_nat (length (readings_on d entries))) == m)%Q.

(** The instants of the records of a log. *)
Definition times_of (data : list json) : list Z :=
  omap (fun e =>
    match record_time fromisoformat e with
    | Ok dt => Some (instant dt)
    | Raise _ => None
    end) data.

(** The calendar hours of the records of a log. *)
Definition hours_of (data : list json) : list Z :=
  omap (fun e =>
    match record_time fromisoformat e with
    | Ok dt => Some (calendar_hour dt)
    | Raise _ => None
    end) data.

End Notions.

(** ** Executable instances of the library functions

    [iso_parse] and [iso_format] follow [datetime.fromisoformat] and
    [datetime.isoformat] on the layout the program itself writes;
    [mini_loads] and [mini_iterencode] follow [json.load] and [json.dump]
    on JSON text without exponents.  They are used at concrete inputs
    only. *)

Module Concrete.


(** *** ISO 8601 text of a datetime, for [YYYY-MM-DDTHH:MM:SS] with an
    optional fraction of six digits and an optional [+HH:MM] offset. *)

Definition digit_of (c : ascii) : option Z :=
  let n := Z.of_N (N_of_ascii c) in
  if (48 <=? n) && (n <=? 57) then Some (n - 48) else None.

(** Reads exactly [n] decimal digits. *)
Fixpoint read_digits (n : nat) (acc : Z) (s : string) : option (Z * string) :=
  match n with
  | O => Some (acc, s)
  | S n' =>
      match s with
      | String c s' =>
          d ← digit_of c; read_digits n' (10 * acc + d) s'
      | EmptyString => None
      end
  end.

Definition expect (c : ascii) (s : string) : option string :=
  match s with
  | String c' s' => if Ascii.eqb c c' then Some s' else None
  | EmptyString => None
  end.

Definition is_leap (y : Z) : bool :=
  (y mod 4 =? 0) && (negb (y mod 100 =? 0) || (y mod 400 =? 0)).

Definition days_in_month (y m : Z) : Z :=
  if m =? 2 then (if is_leap y then 29 else 28)
  else if (m =? 4) || (m =? 6) || (m =? 9) || (m =? 11) then 30
  else 31.

Definition days_before_year (y : Z) : Z :=
  let p := y - 1 in p * 365 + p / 4 - p / 100 + p / 400.

Definition days_before_month (y m : Z) : Z :=
  fold_left (fun acc k => acc + days_in_month y (Z.of_nat k))
    (seq 1 (Z.to_nat (m - 1))) 0.

(** [date.toordinal]. *)
Definition ymd2ord (y m d : Z) : Z :=
  days_before_year y + days_before_month y m + d.

Definition wall_of (ord h mi s us : Z) : Z :=
  (((ord * 24 + h) * 60 + mi) * 60 + s) * us_per_second + us.

Definition read_offset (s : string) : option (option Z) :=
  match s with
  | EmptyString => Some None
  | String c s1 =>
      sign ← (if Ascii.eqb c "+" then Some 1
              else if Ascii.eqb c "-" then Some (-1) else None);
      '(h, s2) ← read_digits 2 0 s1;
      s3 ← expect ":" s2;
      '(mi, s4) ← read_digits 2 0 s3;
      match s4 with
      | EmptyString =>
          if (h <? 24) && (mi <? 60)
          then Some (Some (sign * (h * 60 + mi) * 60 * us_per_second))
          else None
      | _ => None
      end
  end.

Definition read_fraction (s : string) : option (Z * string) :=
  match s with
  | String "." s' => read_digits 6 0 s'
  | _ => Some (0, s)
  end.

Definition iso_parse (s : string) : option datetime :=
  '(y, s) ← read_digits 4 0 s;
  s ← expect "-" s;
  '(m, s) ← read_digits 2 0 s;
  s ← expect "-" s;
  '(d, s) ← read_digits 2 0 s;
  s ← expect "T" s;
  '(h, s) ← read_digits 2 0 s;
  s ← expect ":" s;
  '(mi, s) ← read_digits 2 0 s;
  s ← expect ":" s;
  '(sec, s) ← read_digits 2 0 s;
  '(us, s) ← read_fraction s;
  off ← read_offset s;
  if (1 <=? y) && (1 <=? m) && (m <=? 12) && (1 <=? d)
     && (d <=? days_in_month y m) && (h <? 24) && (mi <? 60) && (sec <? 60)
  then Some (mk_datetime (wall_of (ymd2ord y m d) h mi sec us) off)
  else None.

(** [_ord2ymd] of the library. *)
Definition ord2ymd (ord : Z) : Z * Z * Z :=
  let n := ord - 1 in
  let n400 := n / 146097 in let n := n mod 146097 in
  let n100 := n / 36524 in let n := n mod 36524 in
  let n4 := n / 1461 in let n := n mod 1461 in
  let n1 := n / 365 in let n := n mod 365 in
  let year := n400 * 400 + n100 * 100 + n4 * 4 + n1 + 1 in
  if (n1 =? 4) || (n100 =? 4) then (year - 1, 12, 31)
  else
    let month := (n + 50) / 32 in
    let preceding := days_before_month year month in
    if n <? preceding
    then (year, month - 1,
          n - (preceding - days_in_month year (month - 1)) + 1)
    else (year, month, n - preceding + 1).

Definition digit_char (d : Z) : ascii := ascii_of_N (Z.to_N (48 + d)).

(** The last [n] decimal digits of [z], zero padded. *)
Fixpoint pad (n : nat) (z : Z) (tail : string) : string :=
  match n with
  | O => tail
  | S n' => pad n' (z / 10) (String (digit_char (z mod 10)) tail)
  end.

Definition format_offset (off : option Z) : string :=
  match off with
  | None => EmptyString
  | Some o =>
      let minutes := Z.abs o / (60 * us_per_second) in
      (if o <? 0 then "-" else "+")
        +:+ pad 2 (minutes / 60) (":" +:+ pad 2 (minutes mod 60) EmptyString)
  end.

Definition iso_format (dt : datetime) : string :=
  let ord := wall dt / us_per_day in
  let rest := wall dt mod us_per_day in
  let '(y, m, d) := ord2ymd ord in
  let us := rest mod us_per_second in
  let secs := rest / us_per_second in
  pad 4 y ("-" +:+ pad 2 m ("-" +:+ pad 2 d ("T" +:+
    pad 2 (secs / 3600) (":" +:+ pad 2 (secs / 60 mod 60) (":" +:+
    pad 2 (secs mod 60)
      ((if us =? 0 then EmptyString else "." +:+ pad 6 us EmptyString)
        +:+ format_offset (utcoffset dt))))))).

(** *** JSON text, without exponents and with the escapes of the quote,
    the backslash and the newline only. *)

Definition quote : ascii := ascii_of_N 34.
Definition backslash : ascii := ascii_of_N 92.
Definition newline : ascii := ascii_of_N 10.

Definition is_space (c : ascii) : bool :=
  let n := N_of_ascii c in
  (n =? 32)%N || (n =? 10)%N || (n =? 13)%N || (n =? 9)%N.

Fixpoint skip_space (s : string) : string :=
  match s with
  | String c s' => if is_space c then skip_space s' else s
  | EmptyString => s
  end.

(** The characters up to the closing quote. *)
Fixpoint read_string (s : string) : option (string * string) :=
  match s with
  | EmptyString => None
  | String c s' =>
      if Ascii.eqb c quote then Some (EmptyString, s')
      else if Ascii.eqb c backslash then
        match s' with
        | String e s'' =>
            ch ← (if Ascii.eqb e quote then Some quote
                  else if Ascii.eqb e backslash then Some backslash
                  else if Ascii.eqb e "n" then Some newline
                  else None);
            '(r, rest) ← read_string s'';
            Some (String ch r, rest)
        | EmptyString => None
        end
      else
        '(r, rest) ← read_string s';
        Some (String c r, rest)
  end.

(** A run of digits: its value, its length and what follows. *)
Fixpoint read_run (acc : Z) (n : nat) (s : string) : Z * nat * string :=
  match s with
  | String c s' =>
      match digit_of c with
      | Some d => read_run (10 * acc + d) (S n) s'
      | None => (acc, n, s)
      end
  | EmptyString => (acc, n, s)
  end.

Definition read_number (s : string) : option (Q * string) :=
  let '(sign, s) :=
    match s with
    | String "-" s' => (-1, s')
    | _ => (1, s)
    end in
  let '(whole, n, s) := read_run 0 O s in
  if (n =? 0)%nat then None else
  match s with
  | String "." s' =>
      let '(part, k, s'') := read_run 0 O s' in
      if (k =? 0)%nat then None else
      let scale := 10 ^ Z.of_nat k in
      Some (sign * (whole * scale + part) # Z.to_pos scale, s'')
  | _ => Some (inject_Z (sign * whole), s)
  end.

Definition read_word (w : string) (v : json) (s : string)
  : option (json * string) :=
  if String.prefix w s
  then Some (v, String.substring (String.length w)
                  (String.length s - String.length w) s)
  else None.

(** The items of an array after its bracket, and the members of an object
    after its brace; [value] reads one value. *)
Fixpoint read_items (value : string → option (json * string)) (fuel : nat)
    (s : string) : option (list json * string) :=
  match fuel with
  | O => None
  | S fuel' =>
      '(v, s) ← value s;
      match skip_space s with
      | String "," s' =>
          '(vs, rest) ← read_items value fuel' s'; Some (v :: vs, rest)
      | String "]" s' => Some ([v], s')
      | _ => None
      end
  end.

Fixpoint read_members (value : string → option (json * string)) (fuel : nat)
    (s : string) : option (list (string * json) * string) :=
  match fuel with
  | O => None
  | S fuel' =>
      match skip_space s with
      | String c s1 =>
          if Ascii.eqb c quote then
            '(k, s2) ← read_string s1;
            match skip_space s2 with
            | String ":" s3 =>
                '(v, s4) ← value s3;
                match skip_space s4 with
                | String "," s' =>
                    '(kvs, rest) ← read_members value fuel' s';
                    Some ((k, v) :: kvs, rest)
                | String "}" s' => Some ([(k, v)], s')
                | _ => None
                end
            | _ => None
            end
          else None
      | EmptyString => None
      end
  end.

Fixpoint read_value (fuel : nat) (s : string) : option (json * string) :=
  match fuel with
  | O => None
  | S fuel' =>
      match skip_space s with
      | EmptyString => None
      | String c s' as t =>
          if Ascii.eqb c "[" then
            match skip_space s' with
            | String "]" rest => Some (JArr [], rest)
            | _ =>
                '(vs, rest) ← read_items (read_value fuel') fuel' s';
                Some (JArr vs, rest)
            end
          else if Ascii.eqb c "{" then
            match skip_space s' with
            | String "}" rest => Some (JObj [], rest)
            | _ =>
                '(kvs, rest) ← read_members (read_value fuel') fuel' s';
                Some (JObj kvs, rest)
            end
          else if Ascii.eqb c quote then
            '(r, rest) ← read_string s'; Some (JStr r, rest)
          else if Ascii.eqb c "n" then read_word "null" JNull t
          else if Ascii.eqb c "t" then read_word "true" (JBool true) t
          else if Ascii.eqb c "f" then read_word "false" (JBool false) t
          else '(q, rest) ← read_number t; Some (JNum q, rest)
      end
  end.

Definition mini_loads (s : string) : option json :=
  '(v, rest) ← read_value (S (String.length s)) s;
  match skip_space rest with
  | EmptyString => Some v
  | _ => None
  end.

(** Writing, in the layout of [indent=2]. *)

Fixpoint digits_of (fuel : nat) (z : Z) (tail : string) : string :=
  match fuel with
  | O => tail
  | S fuel' =>
      let tail' := String (digit_char (z mod 10)) tail in
      if z <? 10 then tail' else digits_of fuel' (z / 10) tail'
  end.

Definition write_nat (z : Z) : string :=
  digits_of (S (Z.to_nat (Z.log2 z))) z EmptyString.

(** Up to [fuel] digits of the fraction [r / d]. *)
Fixpoint write_fraction (fuel : nat) (r d : Z) : string :=
  match fuel with
  | O => EmptyString
  | S fuel' =>
      if r =? 0 then EmptyString
      else String (digit_char (10 * r / d))
             (write_fraction fuel' (10 * r mod d) d)
  end.

Definition write_number (q : Q) : string :=
  let n := Z.abs (Qnum q) in
  let d := Z.pos (Qden q) in
  (if Qnum q <? 0 then "-" else EmptyString)
    +:+ write_nat (n / d)
    +:+ (if n mod d =? 0 then EmptyString
         else "." +:+ write_fraction 17 (n mod d) d).

Fixpoint write_string (s : string) : string :=
  match s with
  | EmptyString => EmptyString
  | String c s' =>
      if Ascii.eqb c quote then String backslash (String quote (write_string s'))
      else if Ascii.eqb c backslash
      then String backslash (String backslash (write_string s'))
      else if Ascii.eqb c newline
      then String backslash (String "n" (write_string s'))
      else String c (write_string s')
  end.

Definition quoted (s : string) : string :=
  String quote (write_string s +:+ String quote EmptyString).

Fixpoint spaces (n : nat) : string :=
  match n with
  | O => EmptyString
  | S n' => String " " (spaces n')
  end.

Definition newline_indent (level : nat) : string :=
  String newline (spaces (2 * level)).

Fixpoint write_value (level : nat) (v : json) : list string :=
  match v with
  | JNull => ["null"]
  | JBool b => [if b then "true" else "false"]
  | JNum q => [write_number q]
  | JStr s => [quoted s]
  | JArr [] => ["[]"]
  | JArr (x :: xs) =>
      ["["; newline_indent (S level)] ++ write_value (S level) x
      ++ (fix rest (l : list json) : list string :=
            match l with
            | [] => []
            | y :: l' =>
                ("," +:+ newline_indent (S level))
                  :: write_value (S level) y ++ rest l'
            end) xs
      ++ [newline_indent level; "]"]
  | JObj [] => ["{}"]
  | JObj ((k, x) :: kvs) =>
      ["{"; newline_indent (S level); quoted k; ": "]
      ++ write_value (S level) x
      ++ (fix rest (l : list (string * json)) : list string :=
            match l with
            | [] => []
            | (k', y) :: l' =>
                ("," +:+ newline_indent (S level)) :: quoted k' :: ": "
                  :: write_value (S level) y ++ rest l'
            end) kvs
      ++ [newline_indent level; "}"]
  end.

Definition mini_iterencode (data : list json) : list string :=
  write_value O (JArr data).

End Concrete.

(** ** Sample logs and clocks *)

Module Sample.

Import Concrete.

Definition observation (time : string) (p : Q) : json :=
  JObj [("time", JStr time); ("p_now", JNum p); ("T_now", JNum 70);
        ("L_now", JNum 7); ("score", JNum 50)].

(** The clock reading at the UTC time written [s]. *)
Definition reading (s : string) : Z :=
  match iso_parse s with
  | Some dt => instant dt
  | None => 0
  end.

(** A clock that does not move during the run. *)
Definition steady (s : string) : clock :=
  mk_clock (reading s) (reading s) (reading s) (reading s).

(** A clock that passes eleven o'clock between lines 156 and 158. *)
Definition ticking : clock :=
  mk_clock (reading "2024-03-10T10:59:59.200000+00:00")
           (reading "2024-03-10T10:59:59.500000+00:00")
           (reading "2024-03-10T10:59:59.900000+00:00")
           (reading "2024-03-10T11:00:00.100000+00:00").

(** Noon of 10 March 2024, and a log with readings on each of the four
    days before, every daily mean being 1012. *)
Definition noon : Z := reading "2024-03-10T12:00:00+00:00".

Definition even_days : list json :=
  [observation "2024-03-06T08:00:00Z" 1010;
   observation "2024-03-06T20:00:00Z" 1014;
   observation "2024-03-07T12:00:00Z" 1012;
   observation "2024-03-08T12:00:00Z" 1012;
   observation "2024-03-09T06:00:00Z" 1011;
   observation "2024-03-09T18:00:00Z" 1013].

(** A record without [p_now]. *)
Definition no_pressure (time : string) : json :=
  JObj [("time", JStr time); ("T_now", JNum 70)].

Definition log_path : string := "data/odds_log.json".

(** A file system holding the log with the given text. *)
Definition disk (body : string) : filesystem :=
  mk_fs {[ log_path := mk_file body true ]} {[ "data" ]}.

End Sample.

(** ** Sample answers of the services *)

Module Service.

Import Concrete.

(** [float] on decimal text. *)
Definition float_of_text (s : string) : option Q :=
  match read_number s with
  | Some (q, EmptyString) => Some q
  | _ => None
  end.

Definition text_of_value (v : json) : string := whole_text (write_value 0 v).

Definition agent : string := "CatfishOddsLogger/1.0".

Definition place : json :=
  JArr [JObj [("lat", JStr "39.96"); ("lon", JStr "-75.17")]].

Definition points : json :=
  JObj [("properties",
         JObj [("observationStations",
                JStr "https://api.weather.gov/gridpoints/PHI/49,76/stations")])].

Definition stations (features : list json) : json :=
  JObj [("features", JArr features)].

Definition station (name : string) : json :=
  JObj [("properties", JObj [("stationIdentifier", JStr name)])].

(** An observation with the pressure in pascal and the temperature in
    degrees Celsius. *)
Definition properties_of (pa c : json) : json :=
  JObj [("barometricPressure", JObj [("unitCode", JStr "wmoUnit:Pa");
                                     ("value", pa)]);
        ("temperature", JObj [("unitCode", JStr "wmoUnit:degC");
                              ("value", c)])].

Definition observation_of (pa c : json) : json :=
  JObj [("properties", properties_of pa c)].

Definition history (features : list json) : json :=
  JObj [("features", JArr features)].

(** The answer of the gauge service with the given time series, and a
    series with one value. *)
Definition gauge (series : list json) : json :=
  JObj [("value", JObj [("timeSeries", JArr series)])].

Definition level (v : json) : json :=
  JObj [("values", JArr [JObj [("value", JArr [JObj [("value", v)]])]])].

(** A network that gives the answers of a list to the requests in their
    order, and no answer after the last. *)
Definition answers (l : list (attempt json)) (n : nat) (_ : request)
  : attempt json :=
  match l !! n with
  | Some a => a
  | None => Failed RequestException
  end.

(** The answers of a run in which every service has data. *)
Definition fair_day : list (attempt json) :=
  [Done place; Done points; Done (stations [station "KPHL"]);
   Done (observation_of (JNum 101300) (JNum 20));
   Done (history [observation_of (JNum 101300) (JNum 20);
                  observation_of (JNum 101200) (JNum 19)]);
   Done (gauge [level (JStr "6.5")])].

End Service.

(** * Properties *)

Import Concrete Sample Service.

Open Scope list_scope.

(** ** Pruning (line 157) *)

Section Pruning.

Variable fromisoformat : string → option datetime.

Lemma cutoff_instant (t : Z) :
  instant (cutoff_at t) = t - KEEP_HOURS * us_per_hour.
Proof. unfold instant, cutoff_at, minus_hours, now_utc; simpl. lia. Qed.

Lemma keep_test_timed (cutoff : datetime) (e : json) (c : Z) :
  utcoffset cutoff = Some c →
  timed fromisoformat e →
  (dt ← record_time fromisoformat e; dt_ge dt cutoff)
  = Ok (recent fromisoformat cutoff e).
Proof.
  intros Hc (dt & off & Ht & Hoff).
  unfold recent. rewrite Ht. cbn.
  unfold dt_ge, instant. rewrite Hoff, Hc. reflexivity.
Qed.

Lemma prune_filter (cutoff : datetime) (data : list json) (c : Z) :
  utcoffset cutoff = Some c →
  Forall (timed fromisoformat) data →
  prune fromisoformat cutoff data
  = Ok (List.filter (recent fromisoformat cutoff) data).
Proof.
  intros Hc Hall. unfold prune.
  induction Hall as [|e data He _ IH]; [reflexivity|].
  cbn [comprehension List.filter].
  rewrite (keep_test_timed cutoff e c Hc He). cbn.
  rewrite IH. cbn. reflexivity.
Qed.

Lemma filter_sublist {A} (f : A → bool) (l : list A) :
  sublist (List.filter f l) l.
Proof.
  induction l as [|x l IH]; cbn; [constructor|].
  destruct (f x); by constructor.
Qed.

(** C3: on a log whose records carry readable timestamps, pruning at the
    cutoff [now - 720h] returns the records that are not older than the
    cutoff, in their order: a record is kept exactly when its time is at or
    after the cutoff, so one dated exactly at the cutoff stays. *)
Theorem prune_keeps_exactly_recent (t : Z) (data : list json) :
  Forall (timed fromisoformat) data →
  ∃ kept,
    prune fromisoformat (cutoff_at t) data = Ok kept
    ∧ kept = List.filter (recent fromisoformat (cutoff_at t)) data
    ∧ sublist kept data
    ∧ (∀ e dt, e ∈ data → record_time fromisoformat e = Ok dt →
         (e ∈ kept ↔ t - KEEP_HOURS * us_per_hour ≤ instant dt))
    ∧ (∀ e dt, e ∈ data → record_time fromisoformat e = Ok dt →
         instant dt = t - KEEP_HOURS * us_per_hour → e ∈ kept).
Proof.
  intros Hall.
  exists (List.filter (recent fromisoformat (cutoff_at t)) data).
  assert (Hmem : ∀ e dt, e ∈ data → record_time fromisoformat e = Ok dt →
    (e ∈ List.filter (recent fromisoformat (cutoff_at t)) data
     ↔ t - KEEP_HOURS * us_per_hour ≤ instant dt)).
  { intros e dt Hin Ht.
    rewrite list_elem_of_In, filter_In, <- list_elem_of_In.
    unfold recent. rewrite Ht, cutoff_instant, Z.leb_le. tauto. }
  split; [by apply (prune_filter _ _ 0)|].
  split; [reflexivity|].
  split; [apply filter_sublist|].
  split; [exact Hmem|].
  intros e dt Hin Ht Heq. apply (Hmem e dt Hin Ht). lia.
Qed.

End Pruning.

(** ** The score *)

Section Score.

Open Scope Q_scope.

Lemma max0_unit (x : Q) : x <= 1 → 0 <= max0 x <= 1.
Proof.
  intros Hx. unfold max0.
  destruct (Qle_bool x 0) eqn:E.
  - lra.
  - assert (¬ x <= 0) by (rewrite <- Qle_bool_iff, E; discriminate). lra.
Qed.

Lemma sub_score_unit (x ideal scale : Q) :
  0 < scale → 0 <= max0 (1 - Qabs (x - ideal) / scale) <= 1.
Proof.
  intros Hs. apply max0_unit.
  assert (0 <= Qabs (x - ideal) / scale).
  { apply Qle_shift_div_l; [exact Hs|]. pose proof (Qabs_nonneg (x - ideal)). lra. }
  lra.
Qed.

Lemma round_half_even_floor (y : Q) :
  round_half_even y = Qfloor y
  ∨ (round_half_even y = (Qfloor y + 1)%Z ∧ inject_Z (Qfloor y) < y).
Proof.
  unfold round_half_even.
  destruct (y - inject_Z (Qfloor y) ?= 1 # 2) eqn:E.
  - apply Qeq_alt in E. destruct (Z.even (Qfloor y)); [by left|right].
    split; [reflexivity|lra].
  - by left.
  - apply Qgt_alt in E. right. split; [reflexivity|lra].
Qed.

Lemma round_half_even_between (a b : Z) (y : Q) :
  inject_Z a <= y <= inject_Z b → (a ≤ round_half_even y ≤ b)%Z.
Proof.
  intros [Ha Hb].
  assert (a ≤ Qfloor y)%Z.
  { rewrite <- (Qfloor_Z a). by apply Qfloor_resp_le. }
  destruct (round_half_even_floor y) as [->|[-> Hlt]].
  - split; [done|]. rewrite <- (Qfloor_Z b). by apply Qfloor_resp_le.
  - split; [lia|].
    assert (inject_Z (Qfloor y) < inject_Z b) as Hfb by lra.
    rewrite <- Zlt_Qlt in Hfb. lia.
Qed.

Lemma round1_tenths (x : Q) : round1 x == round_half_even (x * 10) # 10.
Proof.
  unfold round1. generalize (round_half_even (x * 10)). intros n.
  unfold Qeq, Qdiv, Qmult, Qinv, inject_Z; cbn. lia.
Qed.

Lemma round1_between (x : Q) : 0 <= x <= 100 → 0 <= round1 x <= 100.
Proof.
  intros Hx.
  destruct (round_half_even_between 0 1000 (x * 10)) as [Hlo Hhi].
  { change (inject_Z 0) with 0. change (inject_Z 1000) with 1000. lra. }
  rewrite round1_tenths.
  unfold Qle; cbn. lia.
Qed.

(** C2 (as amended): for every stability fraction [D] between 0 and 1 and
    all readings, the score lies between 0 and 100 and is a whole number of
    tenths. *)
Theorem compute_score_range (p_now p_prev T_now L_now D : Q) :
  0 <= D <= 1 →
  0 <= compute_score p_now p_prev T_now L_now D <= 100
  ∧ ∃ n : Z, compute_score p_now p_prev T_now L_now D == n # 10.
Proof.
  intros HD. unfold compute_score.
  split; [|eexists; apply round1_tenths].
  apply round1_between.
  pose proof (sub_score_unit p_now p_prev 10 ltac:(lra)).
  pose proof (sub_score_unit L_now 7 5 ltac:(lra)).
  pose proof (sub_score_unit T_now 75 15 ltac:(lra)).
  cbv zeta. lra.
Qed.

End Score.

(** C2 at sample readings with a stability fraction of 0.75. *)
Lemma compute_score_range_witness :
  (0 <= compute_score 1013.2 1009.8 68 6.4 0.75 <= 100)%Q
  ∧ ∃ n : Z, (compute_score 1013.2 1009.8 68 6.4 0.75 == n # 10)%Q.
Proof.
  apply (compute_score_range 1013.2 1009.8 68 6.4 0.75).
  split; unfold Qle; simpl; lia.
Defined.

(** C2 (as stated) fails: with a stability fraction of 2 the score of ideal
    readings is 130, and with one of -1 the score of poor readings is -30. *)
Lemma compute_score_out_of_range :
  (compute_score 1013 1013 75 7 2 == 130)%Q
  ∧ ¬ (compute_score 1013 1013 75 7 2 <= 100)%Q
  ∧ (compute_score 1023 1013 60 2 (-1) == -30)%Q
  ∧ ¬ (0 <= compute_score 1023 1013 60 2 (-1))%Q.
Proof.
  repeat split; try (vm_compute; reflexivity);
    intros H; vm_compute in H; apply H; reflexivity.
Qed.

(** ** Loading (lines 115-123) *)

Section Loading.

Variable json_loads : string → option json.

Lemma load_existing_data_eq (fs : filesystem) (path : string) :
  load_existing_data json_loads fs path
  = Ok match files fs !! path with
       | Some f =>
           if readable f then
             match json_loads (text f) with
             | Some (JArr l) => l
             | _ => []
             end
           else []
       | None => []
       end.
Proof.
  unfold load_existing_data, path_exists, read_file, json_load.
  destruct (files fs !! path) as [f|] eqn:Hf.
  - rewrite bool_decide_eq_true_2 by eauto. cbn.
    destruct (readable f); [|reflexivity].
    unfold mbind, result_bind.
    destruct (json_loads (text f)) as [v|]; [|reflexivity].
    by destruct v.
  - rewrite bool_decide_eq_false_2 by (intros [? ?]; discriminate).
    by destruct (bool_decide (path ∈ dirs fs)).
Qed.

(** C5 (as amended): loading never raises.  It gives the empty list when
    no file stands at the path, when the file cannot be read, when its text
    is not JSON and when the JSON value is not an array; an array is
    returned as it is, whatever its items are. *)
Theorem load_existing_data_cases (fs : filesystem) (path : string) :
  returns (load_existing_data json_loads fs path)
  ∧ (files fs !! path = None →
       load_existing_data json_loads fs path = Ok [])
  ∧ (∀ f, files fs !! path = Some f → readable f = false →
       load_existing_data json_loads fs path = Ok [])
  ∧ (∀ f, files fs !! path = Some f → readable f = true →
       json_loads (text f) = None →
       load_existing_data json_loads fs path = Ok [])
  ∧ (∀ f v, files fs !! path = Some f → readable f = true →
       json_loads (text f) = Some v → (∀ l, v ≠ JArr l) →
       load_existing_data json_loads fs path = Ok [])
  ∧ (∀ f l, files fs !! path = Some f → readable f = true →
       json_loads (text f) = Some (JArr l) →
       load_existing_data json_loads fs path = Ok l).
Proof.
  rewrite load_existing_data_eq.
  split; [by eexists|].
  split; [by intros ->|].
  split; [by intros f -> ->|].
  split; [by intros f -> -> ->|].
  split.
  - intros f v -> -> -> Hv. destruct v; try done. by destruct (Hv items).
  - by intros f l -> -> ->.
Qed.

End Loading.

(** C5 at a log file that holds an array of two numbers. *)
Lemma load_existing_data_cases_witness :
  load_existing_data mini_loads (disk "[1, 2]") log_path = Ok [JNum 1; JNum 2].
Proof.
  destruct (load_existing_data_cases mini_loads (disk "[1, 2]") log_path)
    as (_ & _ & _ & _ & _ & Harray).
  apply (Harray (mk_file "[1, 2]" true)); vm_compute; reflexivity.
Defined.

(** C5 (as stated) fails: the text [[1]] is valid JSON and an array, its
    item is no record, and loading returns the array and not the empty
    list. *)
Lemma load_returns_array_of_non_records :
  mini_loads "[1]" = Some (JArr [JNum 1])
  ∧ ¬ is_dict (JNum 1)
  ∧ load_existing_data mini_loads (disk "[1]") log_path = Ok [JNum 1]
  ∧ load_existing_data mini_loads (disk "[1]") log_path ≠ Ok [].
Proof.
  split; [vm_compute; reflexivity|].
  split; [intros [kv H]; discriminate|].
  split; [vm_compute; reflexivity|].
  vm_compute. discriminate.
Qed.

(** ** The stability estimate *)

Section Stability.

Variable fromisoformat : string → option datetime.


(** The loop body on a dict: it files the pressure under the date of the
    record, or leaves the dictionary alone. *)
Lemma collect_lookup (m : gmap Z (list json)) (e : json) (d : Z) :
  is_dict e →
  ∃ m', collect fromisoformat m e = Ok m'
        ∧ m' !! d = match reading_on fromisoformat d e with
                    | Some p => Some (default [] (m !! d) ++ [p])
                    | None => m !! d
                    end.
Proof.
  intros [kv ->]. unfold collect, reading_on. cbn.
  destruct (parse_time fromisoformat (default JNull (lookup_key kv "time")))
    as [dt|err]; [|by eexists].
  eexists. split; [reflexivity|].
  destruct (Z.eqb_spec (date dt) d) as [->|Hne].
  - by rewrite lookup_insert_eq.
  - by rewrite lookup_insert_ne.
Qed.

Lemma readings_on_cons (d : Z) (e : json) (entries : list json) :
  readings_on fromisoformat d (e :: entries)
  = match reading_on fromisoformat d e with
    | Some p => p :: readings_on fromisoformat d entries
    | None => readings_on fromisoformat d entries
    end.
Proof. reflexivity. Qed.

Lemma grouping (entries : list json) (m : gmap Z (list json)) :
  Forall is_dict entries →
  ∃ m', for_each (collect fromisoformat) entries m = Ok m'
        ∧ ∀ d, m' !! d = match readings_on fromisoformat d entries with
                         | [] => m !! d
                         | rs => Some (default [] (m !! d) ++ rs)
                         end.
Proof.
  intros Hall. revert m.
  induction Hall as [|e entries He _ IH]; intros m.
  { exists m. by split. }
  assert (∃ m1, collect fromisoformat m e = Ok m1
    ∧ ∀ d, m1 !! d = match reading_on fromisoformat d e with
                     | Some p => Some (default [] (m !! d) ++ [p])
                     | None => m !! d
                     end) as (m1 & Hm1 & Hlook).
  { destruct (collect_lookup m e 0 He) as (m1 & Hm1 & _).
    exists m1. split; [done|]. intros d.
    destruct (collect_lookup m e d He) as (m2 & Hm2 & Hd). congruence. }
  destruct (IH m1) as (m' & Hm' & Hgroup).
  exists m'. split.
  { cbn [for_each]. rewrite Hm1. exact Hm'. }
  intros d. rewrite Hgroup, Hlook, readings_on_cons.
  destruct (reading_on fromisoformat d e) as [p|]; [|done].
  destruct (readings_on fromisoformat d entries) as [|r rs]; [done|].
  cbn. by rewrite <- app_assoc.
Qed.

Lemma grouping_empty (entries : list json) :
  Forall is_dict entries →
  ∃ m, for_each (collect fromisoformat) entries ∅ = Ok m
       ∧ ∀ d, m !! d = match readings_on fromisoformat d entries with
                       | [] => None
                       | rs => Some rs
                       end.
Proof.
  intros Hall. destruct (grouping entries ∅ Hall) as (m & Hm & Hgroup).
  exists m. split; [done|]. intros d. rewrite Hgroup, lookup_empty.
  by destruct (readings_on fromisoformat d entries).
Qed.

Lemma past_dates_elem (today d : Z) :
  d ∈ past_dates today
  ↔ d = today - 1 ∨ d = today - 2 ∨ d = today - 3 ∨ d = today - 4.
Proof.
  unfold past_dates, STABILITY_DAYS. cbn [seq map].
  rewrite !elem_of_cons, elem_of_nil. lia.
Qed.

(** The four means, oldest date first. *)
Lemma averages_unfold (m : gmap Z (list json)) (today : Z) :
  averages m today
  = (a1 ← daily_mean (m !! (today - 4));
     a2 ← daily_mean (m !! (today - 3));
     a3 ← daily_mean (m !! (today - 2));
     a4 ← daily_mean (m !! (today - 1));
     Ok [a1; a2; a3; a4]).
Proof.
  unfold averages, past_dates, STABILITY_DAYS.
  cbn [seq map rev app for_each].
  change (Z.of_nat 4) with 4. change (Z.of_nat 3) with 3.
  change (Z.of_nat 2) with 2. change (Z.of_nat 1) with 1.
  unfold mbind, result_bind.
  destruct (daily_mean (m !! (today - 4))); [|reflexivity].
  destruct (daily_mean (m !! (today - 3))); [|reflexivity].
  destruct (daily_mean (m !! (today - 2))); [|reflexivity].
  destruct (daily_mean (m !! (today - 1))); reflexivity.
Qed.

Lemma count_stable_bound (avgs : list (option Q)) :
  (count_stable avgs ≤ length avgs - 1)%nat.
Proof.
  unfold count_stable.
  assert (∀ (l : list nat) (n : nat),
    (fold_left (λ stable i, if is_stable avgs i then S stable else stable) l n
     ≤ n + length l)%nat) as Hfold.
  { induction l as [|i l IH]; intros n; cbn; [lia|].
    specialize (IH (if is_stable avgs i then S n else n)).
    destruct (is_stable avgs i); lia. }
  specialize (Hfold (seq 1 (length avgs - 1)) O).
  rewrite length_seq in Hfold. lia.
Qed.

Lemma sum_from_error (vals : list json) (acc : Q) (e : exn) :
  sum_from acc vals = Raise e → e = TypeError.
Proof.
  revert acc. induction vals as [|v vals IH]; intros acc; cbn; [done|].
  destruct (as_number v) as [x|e'] eqn:Hv; cbn.
  - apply IH.
  - destruct v; cbn in Hv; congruence.
Qed.

Lemma sum_from_numbers (vals : list json) (acc : Q) :
  Forall (λ v, returns (as_number v)) vals → returns (sum_from acc vals).
Proof.
  intros Hall. revert acc.
  induction Hall as [|v vals [x Hx] _ IH]; intros acc; cbn; [by eexists|].
  rewrite Hx. cbn. apply IH.
Qed.

Lemma sum_from_not_a_number (vals : list json) (acc : Q) (v : json) :
  v ∈ vals → as_number v = Raise TypeError →
  sum_from acc vals = Raise TypeError.
Proof.
  intros Hin Hv. revert acc.
  induction Hin as [v vals|v w vals _ IH]; intros acc; cbn.
  - by rewrite Hv.
  - destruct (as_number w) as [x|e'] eqn:Hw; cbn; [apply IH, Hv|].
    destruct w; cbn in Hw; congruence.
Qed.

Lemma daily_mean_error (vals : option (list json)) (e : exn) :
  daily_mean vals = Raise e → e = TypeError.
Proof.
  destruct vals as [[|v vs]|]; cbn [daily_mean]; try done.
  unfold py_sum. destruct (sum_from 0 (v :: vs)) as [s|e'] eqn:Hs; cbn; [done|].
  intros [= <-]. by apply sum_from_error in Hs.
Qed.

Lemma daily_mean_grouped (m : gmap Z (list json)) (d : Z) (rs : list json) :
  m !! d = match rs with [] => None | r :: rs' => Some (r :: rs') end →
  daily_mean (m !! d)
  = match rs with
    | [] => Ok None
    | _ => s ← py_sum rs;
           Ok (Some (s / inject_Z (Z.of_nat (length rs)))%Q)
    end.
Proof. intros ->. by destruct rs. Qed.

Lemma readings_numeric (d : Z) (entries : list json) :
  Forall (well_formed fromisoformat) entries →
  Forall (λ v, returns (as_number v)) (readings_on fromisoformat d entries).
Proof.
  induction 1 as [|e entries [_ He] _ IH]; [constructor|].
  rewrite readings_on_cons.
  destruct (reading_on fromisoformat d e) as [p|] eqn:Hp; [|done].
  constructor; [by apply (He d)|done].
Qed.

Lemma magnitude_nonneg (vals : list json) : (0 <= magnitude vals)%Q.
Proof.
  induction vals as [|v vals IH]; cbn [magnitude]; [apply Qle_refl|].
  destruct (as_number v) as [x|]; [pose proof (Qabs_nonneg x)|]; lra.
Qed.

(** A sum of line 101 is bounded by the magnitudes it adds. *)
Lemma sum_from_bound (vals : list json) (acc s : Q) :
  sum_from acc vals = Ok s → (Qabs s <= Qabs acc + magnitude vals)%Q.
Proof.
  revert acc. induction vals as [|v vals IH]; intros acc; cbn.
  - intros [= <-]. lra.
  - destruct (as_number v) as [x|]; [|done]. cbn. intros Hs.
    apply IH in Hs. pose proof (Qabs_triangle acc x). lra.
Qed.

Lemma mean_bound (s : Q) (n : nat) :
  (0 < n)%nat → (Qabs (s / inject_Z (Z.of_nat n)) <= Qabs s)%Q.
Proof.
  intros Hn.
  assert (1 <= inject_Z (Z.of_nat n))%Q as H1.
  { rewrite <- (Zle_Qle 1). lia. }
  unfold Qdiv. rewrite Qabs_Qmult.
  rewrite (Qabs_pos (/ _)) by (apply Qlt_le_weak, Qinv_lt_0_compat; lra).
  pose proof (Qabs_nonneg s) as Hs.
  apply Qle_shift_div_r; [lra|]. nra.
Qed.

(** Line 101 on the readings of a date that are numbers of moderate size:
    the sum and the mean are of moderate size too, and the mean is
    returned. *)
Lemma daily_mean_returns (m : gmap Z (list json)) (d : Z) (entries : list json) :
  Forall (well_formed fromisoformat) entries →
  moderate_sum (readings_on fromisoformat d entries) →
  m !! d = match readings_on fromisoformat d entries with
           | [] => None
           | rs => Some rs
           end →
  ∃ a, daily_mean (m !! d) = Ok a ∧ ∀ x, a = Some x → moderate x.
Proof.
  intros Hwf Hmod Hm. rewrite (daily_mean_grouped m d _ Hm).
  destruct (readings_on fromisoformat d entries) as [|r rs] eqn:Hrs.
  { eexists. split; [reflexivity|]. by intros x [=]. }
  destruct (sum_from_numbers (r :: rs) 0%Q) as [s Hs].
  { rewrite <- Hrs. by apply readings_numeric. }
  unfold py_sum. rewrite Hs. eexists. split; [reflexivity|].
  intros x [= <-]. unfold moderate.
  apply sum_from_bound in Hs. change (Qabs 0) with 0%Q in Hs.
  pose proof (mean_bound s (length (r :: rs)) ltac:(cbn; lia)) as Hmean.
  unfold moderate_sum in Hmod.
  eapply Qle_trans; [exact Hmean|]. lra.
Qed.

(** The estimate is returned for every log of well-formed records whose
    readings of the four dates are of moderate size. *)
Lemma stability_returns (t : Z) (entries : list json) :
  Forall (well_formed fromisoformat) entries →
  moderate_log fromisoformat t entries →
  returns (compute_barometric_stability_local fromisoformat t entries).
Proof.
  intros Hwf Hmod. unfold compute_barometric_stability_local.
  destruct entries as [|e entries]; [by eexists|].
  assert (∀ k : Z, 1 ≤ k ≤ 4 →
    moderate_sum (readings_on fromisoformat (date (now_utc t) - k)
                    (e :: entries))) as Hday.
  { intros k Hk. apply Hmod, past_dates_elem. lia. }
  destruct (grouping_empty (e :: entries)) as (m & -> & Hm).
  { eapply Forall_impl; [exact Hwf|]. by intros ? [? _]. }
  cbn [mbind result_bind]. rewrite averages_unfold.
  destruct (daily_mean_returns m (date (now_utc t) - 4) _ Hwf
              (Hday 4 ltac:(lia)) (Hm _)) as (a1 & -> & _).
  destruct (daily_mean_returns m (date (now_utc t) - 3) _ Hwf
              (Hday 3 ltac:(lia)) (Hm _)) as (a2 & -> & _).
  destruct (daily_mean_returns m (date (now_utc t) - 2) _ Hwf
              (Hday 2 ltac:(lia)) (Hm _)) as (a3 & -> & _).
  destruct (daily_mean_returns m (date (now_utc t) - 1) _ Hwf
              (Hday 1 ltac:(lia)) (Hm _)) as (a4 & -> & _).
  by eexists.
Qed.

(** C9: whenever the estimate is returned it is 0, 1/4, 1/2 or 3/4, so it
    is at most 3/4 and never 1; and it is returned for every log of
    well-formed records whose readings of the four dates before today are
    of moderate size. *)
Theorem stability_values (t : Z) (entries : list json) :
  (Forall (well_formed fromisoformat) entries →
   moderate_log fromisoformat t entries →
     returns (compute_barometric_stability_local fromisoformat t entries))
  ∧ ∀ r, compute_barometric_stability_local fromisoformat t entries = Ok r →
      (r == 0 ∨ r == 1 # 4 ∨ r == 1 # 2 ∨ r == 3 # 4)%Q
      ∧ (r <= 3 # 4)%Q ∧ ¬ (r == 1)%Q.
Proof.
  split; [apply stability_returns|].
  intros r. unfold compute_barometric_stability_local.
  destruct entries as [|e entries].
  { intros [= <-]. repeat split; try (by left); by vm_compute. }
  destruct (for_each _ _ _) as [m|]; [|by cbn].
  cbn [mbind result_bind]. rewrite averages_unfold.
  unfold mbind, result_bind.
  destruct (daily_mean (m !! _)) as [a1|]; [|done].
  destruct (daily_mean (m !! _)) as [a2|]; [|done].
  destruct (daily_mean (m !! _)) as [a3|]; [|done].
  destruct (daily_mean (m !! _)) as [a4|]; [|done].
  intros [= <-].
  pose proof (count_stable_bound [a1; a2; a3; a4]) as Hc.
  change (length [a1; a2; a3; a4] - 1)%nat with 3%nat in Hc.
  destruct (count_stable [a1; a2; a3; a4]) as [|[|[|[|c]]]]; [| | | |lia].
  all: repeat split; try (by vm_compute);
    first [ by left | by (right; left) | by (right; right; left)
          | by (right; right; right) ].
Qed.

Lemma daily_mean_of_mean (m : gmap Z (list json)) (d : Z)
    (entries : list json) (mu : Q) :
  m !! d = match readings_on fromisoformat d entries with
           | [] => None
           | rs => Some rs
           end →
  mean_on fromisoformat d entries mu →
  ∃ a, daily_mean (m !! d) = Ok (Some a) ∧ (a == mu)%Q.
Proof.
  intros Hm (s & Hne & Hs & Hmu).
  rewrite (daily_mean_grouped m d _ Hm).
  destruct (readings_on fromisoformat d entries) as [|r rs]; [done|].
  rewrite Hs. eexists. split; [reflexivity|exact Hmu].
Qed.

Lemma is_stable_equal_means (avgs : list (option Q)) (i : nat) (a b mu : Q) :
  avgs !! i = Some (Some a) → avgs !! (i - 1)%nat = Some (Some b) →
  (a == mu)%Q → (b == mu)%Q → is_stable avgs i = true.
Proof.
  intros Ha Hb Hamu Hbmu. unfold is_stable. rewrite Ha, Hb.
  apply Qle_bool_iff, Qabs_Qle_condition.
  unfold STABILITY_THRESHOLD. lra.
Qed.

(** C8: when each of the four dates before today has readings, of moderate
    size, and the same mean pressure, the estimate is 3/4: the three
    adjacent pairs are stable and the count is divided by
    [STABILITY_DAYS]. *)
Theorem stability_of_four_even_days (t : Z) (entries : list json) (mu : Q) :
  Forall is_dict entries →
  moderate_log fromisoformat t entries →
  (∀ d, d ∈ past_dates (date (now_utc t)) →
        mean_on fromisoformat d entries mu) →
  ∃ r, compute_barometric_stability_local fromisoformat t entries = Ok r
       ∧ (r == 3 # 4)%Q.
Proof.
  intros Hdict _ Hmean.
  assert (∀ k : Z, 1 ≤ k ≤ 4 →
    mean_on fromisoformat (date (now_utc t) - k) entries mu) as Hday.
  { intros k Hk. apply Hmean, past_dates_elem. lia. }
  unfold compute_barometric_stability_local.
  destruct entries as [|e entries].
  { destruct (Hday 1 ltac:(lia)) as (s & Hne & _). by destruct Hne. }
  destruct (grouping_empty (e :: entries) Hdict) as (m & -> & Hm).
  cbn [mbind result_bind]. rewrite averages_unfold.
  destruct (daily_mean_of_mean m _ _ mu (Hm _) (Hday 4 ltac:(lia)))
    as (a1 & -> & H1).
  destruct (daily_mean_of_mean m _ _ mu (Hm _) (Hday 3 ltac:(lia)))
    as (a2 & -> & H2).
  destruct (daily_mean_of_mean m _ _ mu (Hm _) (Hday 2 ltac:(lia)))
    as (a3 & -> & H3).
  destruct (daily_mean_of_mean m _ _ mu (Hm _) (Hday 1 ltac:(lia)))
    as (a4 & -> & H4).
  cbn [mbind result_bind]. eexists. split; [reflexivity|].
  unfold count_stable. cbn [length Nat.sub seq fold_left].
  rewrite (is_stable_equal_means _ 1 a2 a1 mu) by done.
  rewrite (is_stable_equal_means _ 2 a3 a2 mu) by done.
  rewrite (is_stable_equal_means _ 3 a4 a3 mu) by done.
  by vm_compute.
Qed.

Lemma reading_in_readings (d : Z) (e p : json) (entries : list json) :
  e ∈ entries → reading_on fromisoformat d e = Some p →
  p ∈ readings_on fromisoformat d entries.
Proof.
  intros Hin Hp. unfold readings_on. apply list_elem_of_omap. eauto.
Qed.

(** A record of one of the four dates whose [p_now] is missing or null
    makes the estimate raise, where a record whose [time] cannot be read
    is passed over. *)
Lemma stability_fails_without_pressure (t : Z) (entries : list json)
    (e : json) (dt : datetime) :
  Forall is_dict entries →
  e ∈ entries →
  (tv ← dict_get e "time"; parse_time fromisoformat tv) = Ok dt →
  date dt ∈ past_dates (date (now_utc t)) →
  dict_get e "p_now" = Ok JNull →
  compute_barometric_stability_local fromisoformat t entries
  = Raise TypeError.
Proof.
  intros Hdict Hin Htime Hdate Hp.
  assert (reading_on fromisoformat (date dt) e = Some JNull) as Hread.
  { destruct e; try discriminate. cbn in Htime, Hp. unfold reading_on.
    rewrite Htime, Z.eqb_refl. congruence. }
  pose proof (reading_in_readings _ _ _ _ Hin Hread) as Hnull.
  unfold compute_barometric_stability_local.
  destruct entries as [|e0 entries]; [by apply elem_of_nil in Hin|].
  destruct (grouping_empty (e0 :: entries) Hdict) as (m & -> & Hm).
  cbn [mbind result_bind]. rewrite averages_unfold.
  assert (daily_mean (m !! date dt) = Raise TypeError) as Hfail.
  { rewrite (daily_mean_grouped m _ _ (Hm _)).
    destruct (readings_on fromisoformat (date dt) (e0 :: entries))
      as [|r rs]; [by apply elem_of_nil in Hnull|].
    unfold py_sum. by rewrite (sum_from_not_a_number _ _ JNull Hnull). }
  apply past_dates_elem in Hdate.
  unfold mbind, result_bind.
  destruct (daily_mean (m !! (date (now_utc t) - 4))) as [a1|e1] eqn:E1;
    [|by rewrite (daily_mean_error _ _ E1)].
  destruct (daily_mean (m !! (date (now_utc t) - 3))) as [a2|e2] eqn:E2;
    [|by rewrite (daily_mean_error _ _ E2)].
  destruct (daily_mean (m !! (date (now_utc t) - 2))) as [a3|e3] eqn:E3;
    [|by rewrite (daily_mean_error _ _ E3)].
  destruct (daily_mean (m !! (date (now_utc t) - 1))) as [a4|e4] eqn:E4;
    [|by rewrite (daily_mean_error _ _ E4)].
  exfalso.
  destruct Hdate as [Hd|[Hd|[Hd|Hd]]]; rewrite Hd in Hfail; congruence.
Qed.

End Stability.

(** The sample records are well formed. *)
Lemma observation_well_formed (time : string) (p : Q) :
  well_formed iso_parse (observation time p).
Proof.
  split; [by eexists|].
  intros d q. unfold reading_on, observation.
  change (lookup_key _ "time") with (Some (JStr time)).
  change (lookup_key _ "p_now") with (Some (JNum p)).
  change (default JNull (Some ?v)) with v.
  destruct (parse_time iso_parse (JStr time)) as [dt|]; [|done].
  destruct (date dt =? d); [|done].
  intros [= <-]. by eexists.
Qed.

Lemma even_days_mean (d : Z) :
  d ∈ past_dates (date (now_utc noon)) → mean_on iso_parse d even_days 1012.
Proof.
  intros Hd. apply past_dates_elem in Hd.
  destruct Hd as [-> | [-> | [-> | ->]]].
  - exists 2024%Q. split; [by vm_compute|]. split; by vm_compute.
  - exists 1012%Q. split; [by vm_compute|]. split; by vm_compute.
  - exists 1012%Q. split; [by vm_compute|]. split; by vm_compute.
  - exists 2024%Q. split; [by vm_compute|]. split; by vm_compute.
Qed.

Lemma even_days_moderate : moderate_log iso_parse noon even_days.
Proof.
  intros d Hd. apply past_dates_elem in Hd.
  destruct Hd as [-> | [-> | [-> | ->]]]; by vm_compute.
Qed.

(** C8 at the sample log [even_days], read at noon of 10 March 2024. *)
Lemma stability_of_four_even_days_witness :
  ∃ r, compute_barometric_stability_local iso_parse noon even_days = Ok r
       ∧ (r == 3 # 4)%Q.
Proof.
  apply (stability_of_four_even_days iso_parse noon even_days 1012).
  - repeat constructor; by eexists.
  - exact even_days_moderate.
  - exact even_days_mean.
Defined.

(** C9 at the sample log [even_days]. *)
Lemma stability_values_witness :
  returns (compute_barometric_stability_local iso_parse noon even_days)
  ∧ (3 # 4 == 0 ∨ 3 # 4 == 1 # 4 ∨ 3 # 4 == 1 # 2 ∨ 3 # 4 == 3 # 4)%Q
  ∧ (3 # 4 <= 3 # 4)%Q ∧ ¬ (3 # 4 == 1)%Q.
Proof.
  destruct (stability_values iso_parse noon even_days) as [Hret Hval].
  split.
  - apply Hret; [|exact even_days_moderate].
    repeat constructor; apply observation_well_formed.
  - apply (Hval (3 # 4)%Q). by vm_compute.
Defined.

(** C10: a record dated yesterday whose [p_now] is missing has a readable
    timestamp, and the estimate raises [TypeError] on the log that holds
    it; with an unreadable timestamp the same record is passed over and
    the estimate is returned. *)
Theorem stability_raises_on_missing_pressure :
  ∃ e entries,
    e ∈ entries
    ∧ returns (tv ← dict_get e "time"; parse_time iso_parse tv)
    ∧ dict_get e "p_now" = Ok JNull
    ∧ compute_barometric_stability_local iso_parse noon entries
      = Raise TypeError
    ∧ compute_barometric_stability_local iso_parse noon
        [no_pressure "yesterday"] = Ok (0 # 4)%Q.
Proof.
  exists (no_pressure "2024-03-09T06:00:00Z").
  exists (observation "2024-03-08T12:00:00Z" 1012
          :: [no_pressure "2024-03-09T06:00:00Z"]).
  split; [apply list_elem_of_further, list_elem_of_here|].
  split; [by eexists; vm_compute|].
  split; [reflexivity|].
  split; [|by vm_compute].
  eapply (stability_fails_without_pressure iso_parse noon _
            (no_pressure "2024-03-09T06:00:00Z")).
  - repeat constructor; by eexists.
  - apply list_elem_of_further, list_elem_of_here.
  - by vm_compute.
  - apply past_dates_elem. left. by vm_compute.
  - reflexivity.
Qed.

(** ** Saving (lines 125-130) *)

Lemma append_assoc (a b c : string) : (a +:+ b) +:+ c = a +:+ (b +:+ c).
Proof.
  induction a as [|x a IH]; [reflexivity|].
  change (String x ((a +:+ b) +:+ c) = String x (a +:+ (b +:+ c))).
  by rewrite IH.
Qed.

Lemma append_empty_r (a : string) : a +:+ EmptyString = a.
Proof.
  induction a as [|x a IH]; [reflexivity|].
  change (String x (a +:+ EmptyString) = String x a). by rewrite IH.
Qed.

Lemma length_append (a b : string) :
  String.length (a +:+ b) = (String.length a + String.length b)%nat.
Proof.
  induction a as [|x a IH]; [reflexivity|].
  change (S (String.length (a +:+ b))
          = S (String.length a + String.length b)).
  by rewrite IH.
Qed.

(** The temporary file is never the log itself. *)
Lemma tmp_is_another_path (path : string) : path +:+ ".tmp" ≠ path.
Proof.
  intros H. apply (f_equal String.length) in H.
  rewrite length_append in H. cbn in H. lia.
Qed.

Section Frame.

Variable path : string.

Lemma preserves_ret {A} (a : A) : preserves path (mret a : io A).
Proof. by intros w old H. Qed.

Lemma preserves_raise {A} (e : exn) : preserves path (io_raise e : io A).
Proof. by intros w old H. Qed.

Lemma preserves_read {A} (f : filesystem → A) : preserves path (io_read f).
Proof. by intros w old H. Qed.

Lemma preserves_bind {A B} (m : io A) (f : A → io B) :
  preserves path m → (∀ a, preserves path (f a)) → preserves path (m ≫= f).
Proof.
  intros Hm Hf w old H. unfold mbind, io_bind.
  specialize (Hm w old H).
  destruct (m w) as [[a|e] w']; [by apply Hf|done].
Qed.

Lemma preserves_update (f : filesystem → filesystem) :
  (∀ fs, files (f fs) !! path = files fs !! path) →
  preserves path (io_update f).
Proof.
  intros Hf w old H σ. unfold io_update, observed. cbn.
  rewrite elem_of_cons. intros [->|Hσ]; [|by apply H].
  rewrite Hf. apply H, list_elem_of_here.
Qed.

Lemma preserves_for_each {A} (body : nat → A → io ()) (l : list A) (i : nat) :
  (∀ i x, preserves path (body i x)) →
  preserves path (io_for_each body i l).
Proof.
  intros Hbody. revert i.
  induction l as [|x l IH]; intros i; cbn [io_for_each].
  - apply preserves_ret.
  - apply preserves_bind; [apply Hbody|]. intros _. apply IH.
Qed.

Lemma preserves_mkdir (flt : fault) (i : nat) (name : string) :
  preserves path (mkdir flt i name).
Proof.
  unfold mkdir.
  destruct flt; try (by apply preserves_update).
  destruct (k =? i)%nat; [apply preserves_raise|by apply preserves_update].
Qed.

Lemma preserves_makedirs (flt : fault) (name : string) :
  preserves path (os_makedirs flt name).
Proof.
  unfold os_makedirs.
  destruct (String.eqb name EmptyString); [apply preserves_raise|].
  apply preserves_for_each. intros i d.
  apply preserves_bind; [apply preserves_read|]. intros is_file.
  apply preserves_bind; [apply preserves_read|]. intros is_dir.
  destruct is_file; [apply preserves_raise|].
  destruct is_dir; [apply preserves_ret|apply preserves_mkdir].
Qed.

Lemma preserves_open_w (flt : fault) (p : string) :
  p ≠ path → preserves path (open_w flt p).
Proof.
  intros Hp.
  assert (preserves path
    (is_dir ← io_read (λ fs, bool_decide (p ∈ dirs fs));
     if is_dir : bool then io_raise OSError
     else io_update (λ fs,
       let mode := default true (readable <$> files fs !! p) in
       mk_fs (<[p := mk_file EmptyString mode]> (files fs)) (dirs fs)))).
  { apply preserves_bind; [apply preserves_read|]. intros is_dir.
    destruct is_dir; [apply preserves_raise|].
    apply preserves_update. intros fs. cbn. by rewrite lookup_insert_ne. }
  unfold open_w. destruct flt; try done. apply preserves_raise.
Qed.

Lemma preserves_write_chunk (flt : fault) (p : string) (i : nat) (c : string) :
  p ≠ path → preserves path (write_chunk flt p i c).
Proof.
  intros Hp.
  assert (preserves path (io_update (λ fs,
    mk_fs (alter (λ f, mk_file (text f +:+ c) (readable f)) p (files fs))
          (dirs fs)))).
  { apply preserves_update. intros fs. cbn. by rewrite lookup_alter_ne. }
  unfold write_chunk. destruct flt; try done.
  destruct (k =? i)%nat; [apply preserves_raise|done].
Qed.

Lemma preserves_close (flt : fault) : preserves path (close_file flt).
Proof. destruct flt; first [apply preserves_ret|apply preserves_raise]. Qed.

End Frame.

Section Saving.

Variable iterencode : list json → list string.

Lemma io_bind_run {A B} (m : io A) (f : A → io B) (w : world) :
  (m ≫= f) w
  = match m w with
    | (Ok a, w1) => f a w1
    | (Raise e, w1) => (Raise e, w1)
    end.
Proof. reflexivity. Qed.

Lemma open_w_creates (flt : fault) (p : string) (w w' : world) :
  open_w flt p w = (Ok (), w') →
  ∃ mode, files (fs_now w') !! p = Some (mk_file EmptyString mode).
Proof.
  assert ((is_dir ← io_read (λ fs, bool_decide (p ∈ dirs fs));
           if is_dir : bool then io_raise OSError
           else io_update (λ fs,
             let mode := default true (readable <$> files fs !! p) in
             mk_fs (<[p := mk_file EmptyString mode]> (files fs)) (dirs fs)))
          w = (Ok (), w') →
          ∃ mode, files (fs_now w') !! p = Some (mk_file EmptyString mode))
    as Hbody.
  { unfold mbind, io_bind, io_read, io_update, io_raise.
    destruct (bool_decide (p ∈ dirs (fs_now w))); [done|].
    intros [= <-]. cbn. eexists. apply lookup_insert_eq. }
  unfold open_w. destruct flt; try exact Hbody. done.
Qed.

Lemma write_chunk_appends (flt : fault) (p : string) (i : nat) (c : string)
    (w w' : world) (f : file) :
  files (fs_now w) !! p = Some f →
  write_chunk flt p i c w = (Ok (), w') →
  files (fs_now w') !! p = Some (mk_file (text f +:+ c) (readable f)).
Proof.
  intros Hf.
  assert (io_update (λ fs,
            mk_fs (alter (λ f, mk_file (text f +:+ c) (readable f)) p
                     (files fs)) (dirs fs)) w = (Ok (), w') →
          files (fs_now w') !! p = Some (mk_file (text f +:+ c) (readable f)))
    as Hbody.
  { unfold io_update. intros [= <-]. cbn.
    by rewrite lookup_alter_eq, Hf. }
  unfold write_chunk. destruct flt; try exact Hbody.
  destruct (k =? i)%nat; [done|exact Hbody].
Qed.

Lemma write_loop_appends (flt : fault) (p : string) (chunks : list string)
    (i : nat) (w w' : world) (f : file) :
  files (fs_now w) !! p = Some f →
  io_for_each (write_chunk flt p) i chunks w = (Ok (), w') →
  files (fs_now w') !! p
  = Some (mk_file (text f +:+ whole_text chunks) (readable f)).
Proof.
  revert i w f. induction chunks as [|c chunks IH]; intros i w f Hf.
  - intros [= <-]. cbn. rewrite append_empty_r. by destruct f.
  - cbn [io_for_each]. unfold mbind at 1, io_bind at 1.
    destruct (write_chunk flt p i c w) as [[[]|e] w1] eqn:Hw; [|done].
    intros Hrest.
    pose proof (write_chunk_appends _ _ _ _ _ _ _ Hf Hw) as Hf1.
    rewrite (IH _ _ _ Hf1 Hrest). cbn. by rewrite append_assoc.
Qed.

Lemma close_file_keeps (flt : fault) (w w' : world) (r : result ()) :
  close_file flt w = (r, w') → w' = w.
Proof. destruct flt; cbn; by intros [= _ <-]. Qed.

Lemma os_replace_effect (flt : fault) (src dst : string) (w w' : world)
    (r : result ()) :
  os_replace flt src dst w = (r, w') →
  (∃ e, r = Raise e ∧ w' = w)
  ∨ (∃ f, r = Ok () ∧ files (fs_now w) !! src = Some f
          ∧ w' = mk_world
                   (mk_fs (<[dst := f]> (delete src (files (fs_now w))))
                          (dirs (fs_now w)))
                   (observed w)).
Proof.
  assert ((found ← io_read (λ fs, files fs !! src);
           is_dir ← io_read (λ fs, bool_decide (dst ∈ dirs fs));
           match found with
           | None => io_raise OSError
           | Some f =>
               if is_dir : bool then io_raise OSError
               else io_update (λ fs,
                 mk_fs (<[dst := f]> (delete src (files fs))) (dirs fs))
           end) w = (r, w') →
    (∃ e, r = Raise e ∧ w' = w)
    ∨ (∃ f, r = Ok () ∧ files (fs_now w) !! src = Some f
            ∧ w' = mk_world
                     (mk_fs (<[dst := f]> (delete src (files (fs_now w))))
                            (dirs (fs_now w)))
                     (observed w))) as Hbody.
  { unfold mbind, io_bind, io_read, io_update, io_raise.
    destruct (files (fs_now w) !! src) as [f|] eqn:Hsrc;
      [|intros [= <- <-]; left; eauto].
    destruct (bool_decide (dst ∈ dirs (fs_now w)));
      intros [= <- <-]; [left|right]; eauto. }
  unfold os_replace. destruct flt; try exact Hbody.
  intros [= <- <-]. left. eauto.
Qed.

(** C4: on every run of [save_data], with or without a failure of one of
    its system calls, every state of the file system holds at the log's
    path either the file that was there before or, after the replace of a
    run that succeeds, the complete text; a run that raises leaves the
    previous file as it was. *)
Theorem save_data_atomic (flt : fault) (path : string) (data : list json)
    (fs : filesystem) (r : result ()) (w' : world) :
  save_data iterencode flt path data (mk_world fs []) = (r, w') →
  (∀ σ, σ ∈ observed w' →
     files σ !! path = files fs !! path
     ∨ (r = Ok () ∧ σ = fs_now w'
        ∧ text <$> files σ !! path = Some (whole_text (iterencode data))))
  ∧ (∀ e, r = Raise e → files (fs_now w') !! path = files fs !! path)
  ∧ (r = Ok () →
     text <$> files (fs_now w') !! path
     = Some (whole_text (iterencode data))).
Proof.
  set (old := files fs !! path). set (tmp := path +:+ ".tmp").
  assert (tmp ≠ path) as Htmp by apply tmp_is_another_path.
  assert (∀ (e : exn) (w : world), untouched path old w →
    (∀ σ, σ ∈ observed w →
       files σ !! path = old
       ∨ ((Raise e : result ()) = Ok () ∧ σ = fs_now w
          ∧ text <$> files σ !! path = Some (whole_text (iterencode data))))
    ∧ (∀ e', (Raise e : result ()) = Raise e' →
         files (fs_now w) !! path = old)
    ∧ ((Raise e : result ()) = Ok () →
       text <$> files (fs_now w) !! path
       = Some (whole_text (iterencode data)))) as Hraised.
  { intros e w Hw. split; [by left; apply Hw|].
    split; [|done]. intros _ _. apply Hw, list_elem_of_here. }
  assert (untouched path old (mk_world fs [])) as H0.
  { intros σ Hσ. apply list_elem_of_singleton in Hσ. by subst. }
  unfold save_data. fold tmp. rewrite io_bind_run.
  pose proof (preserves_makedirs path flt (dirname path) _ _ H0) as H1.
  destruct (os_makedirs flt (dirname path) (mk_world fs [])) as [[[]|e] w1];
    [|intros [= <- <-]; by apply Hraised].
  cbn [snd] in H1. rewrite io_bind_run.
  pose proof (preserves_open_w path flt tmp Htmp _ _ H1) as H2.
  destruct (open_w flt tmp w1) as [[[]|e] w2] eqn:Hopen;
    [|intros [= <- <-]; by apply Hraised].
  cbn [snd] in H2. destruct (open_w_creates _ _ _ _ Hopen) as [mode Hfile].
  rewrite io_bind_run.
  pose proof (preserves_for_each path (write_chunk flt tmp) (iterencode data) O
                (λ i c, preserves_write_chunk path flt tmp i c Htmp) _ _ H2)
    as H3.
  destruct (io_for_each (write_chunk flt tmp) 0 (iterencode data) w2)
    as [[[]|e] w3] eqn:Hloop;
    [|intros [= <- <-]; by apply Hraised].
  cbn [snd] in H3.
  pose proof (write_loop_appends _ _ _ _ _ _ _ Hfile Hloop) as Hwhole.
  cbn [text readable] in Hwhole.
  rewrite io_bind_run.
  destruct (close_file flt w3) as [[[]|e] w4] eqn:Hclose;
    pose proof (close_file_keeps _ _ _ _ Hclose) as ->;
    [|intros [= <- <-]; by apply Hraised].
  intros Hreplace.
  destruct (os_replace_effect _ _ _ _ _ _ Hreplace)
    as [(e & -> & ->)|(f & -> & Hf & ->)]; [by apply Hraised|].
  rewrite Hwhole in Hf. injection Hf as <-.
  assert (text <$> files (mk_fs (<[path := mk_file
            (EmptyString +:+ whole_text (iterencode data)) mode]>
            (delete tmp (files (fs_now w3)))) (dirs (fs_now w3))) !! path
          = Some (whole_text (iterencode data))) as Hnew.
  { cbn. by rewrite lookup_insert_eq. }
  split; [|split; [done|by intros _]].
  intros σ. unfold observed at 1. cbn [fs_now fs_before].
  rewrite elem_of_cons. intros [->|Hσ]; [by right|left; by apply H3].
Qed.

End Saving.

(** C4 at a run whose third write fails: the log on disk keeps the text
    it had. *)
Lemma save_data_atomic_witness :
  (∀ σ, σ ∈ observed (save_data mini_iterencode (FailWrite 2) log_path
                        [JNum 1] (mk_world (disk "[]") [])).2 →
     files σ !! log_path = files (disk "[]") !! log_path
     ∨ ((Raise OSError : result ()) = Ok ()
        ∧ σ = fs_now (save_data mini_iterencode (FailWrite 2) log_path
                        [JNum 1] (mk_world (disk "[]") [])).2
        ∧ text <$> files σ !! log_path
          = Some (whole_text (mini_iterencode [JNum 1]))))
  ∧ (∀ e, (Raise OSError : result ()) = Raise e →
       files (fs_now (save_data mini_iterencode (FailWrite 2) log_path
                        [JNum 1] (mk_world (disk "[]") [])).2) !! log_path
       = files (disk "[]") !! log_path)
  ∧ ((Raise OSError : result ()) = Ok () →
       text <$> files (fs_now (save_data mini_iterencode (FailWrite 2)
                        log_path [JNum 1] (mk_world (disk "[]") [])).2)
                !! log_path
       = Some (whole_text (mini_iterencode [JNum 1]))).
Proof.
  apply (save_data_atomic mini_iterencode (FailWrite 2) log_path [JNum 1]
           (disk "[]")).
  by vm_compute.
Defined.

(** ** The log update (lines 151-162) *)

Section Update.

Variable fromisoformat : string → option datetime.

(** Line 157 raises what the first unreadable record raises. *)
Lemma prune_raises (cutoff : datetime) (good rest : list json) (bad : json)
    (c : Z) (err : exn) :
  utcoffset cutoff = Some c →
  Forall (timed fromisoformat) good →
  record_time fromisoformat bad = Raise err →
  prune fromisoformat cutoff (good ++ bad :: rest) = Raise err.
Proof.
  intros Hc Hgood Hbad. unfold prune.
  induction Hgood as [|e good He _ IH]; cbn [app comprehension].
  - by rewrite Hbad.
  - rewrite (keep_test_timed fromisoformat cutoff e c Hc He).
    cbn [mbind result_bind]. by rewrite IH.
Qed.

(** Lines 158-161 on an empty list. *)
Lemma merge_or_append_nil (t : Z) (entry : json) :
  merge_or_append fromisoformat t entry [] = Ok [entry].
Proof. reflexivity. Qed.

(** Lines 158-161 on a list that ends with a readable record: the last
    record is replaced when its hour of day is the hour of day of the
    clock, whatever the dates. *)
Lemma merge_or_append_snoc (t : Z) (entry last : json) (init : list json)
    (dt : datetime) :
  record_time fromisoformat last = Ok dt →
  merge_or_append fromisoformat t entry (init ++ [last])
  = Ok (if hour dt =? hour (now_utc t)
        then init ++ [entry]
        else init ++ [last; entry]).
Proof.
  intros Hlast. unfold merge_or_append.
  rewrite last_snoc, Hlast. cbn [mbind result_bind].
  destruct (hour dt =? hour (now_utc t)).
  - f_equal. rewrite length_app. cbn [length].
    replace (length init + 1 - 1)%nat with (length init + 0)%nat by lia.
    by rewrite insert_app_r.
  - by rewrite <- app_assoc.
Qed.

End Update.

(** C3 at a sample log: of three records dated before, at and after the
    cutoff of 10 March 2024 12:00, the last two stay. *)
Lemma prune_keeps_exactly_recent_witness :
  ∃ kept,
    prune iso_parse (cutoff_at noon)
      [observation "2024-02-09T11:59:59Z" 1010;
       observation "2024-02-09T12:00:00Z" 1011;
       observation "2024-03-01T00:00:00Z" 1012] = Ok kept
    ∧ kept = [observation "2024-02-09T12:00:00Z" 1011;
              observation "2024-03-01T00:00:00Z" 1012].
Proof.
  destruct (prune_keeps_exactly_recent iso_parse noon
    [observation "2024-02-09T11:59:59Z" 1010;
     observation "2024-02-09T12:00:00Z" 1011;
     observation "2024-03-01T00:00:00Z" 1012])
    as (kept & Hrun & Hkept & _).
  { repeat constructor; eexists _, _; by vm_compute. }
  exists kept. split; [exact Hrun|]. rewrite Hkept. by vm_compute.
Defined.

(** C1 at a failing input: the log ends with a record of 9 March 10:05 and
    the run takes place on 10 March at 10:30.  The two times are in
    different calendar hours and share the hour of day; the record of the
    day before is replaced by the new entry instead of being followed by
    it. *)
Theorem merge_replaces_record_of_previous_day :
  ∃ dt,
    record_time iso_parse (observation "2024-03-09T10:05:00Z" 1010) = Ok dt
    ∧ calendar_hour dt
      ≠ calendar_hour (now_utc (reading "2024-03-10T10:30:00+00:00"))
    ∧ date dt ≠ date (now_utc (reading "2024-03-10T10:30:00+00:00"))
    ∧ hour dt = hour (now_utc (reading "2024-03-10T10:30:00+00:00"))
    ∧ update_log iso_parse iso_format (steady "2024-03-10T10:30:00+00:00")
        1013 1013 75 7 [observation "2024-03-09T10:05:00Z" 1010]
      = Ok [make_entry "2024-03-10T10:30:00Z" 1013 75 7
              (compute_score 1013 1013 75 7 0)].
Proof.
  eexists. split; [by vm_compute|].
  split; [by vm_compute|]. split; [by vm_compute|].
  split; by vm_compute.
Qed.

(** C6 at a failing input: a log whose only record has a [time] that is
    not a timestamp.  The stability estimate passes the record over and
    returns 0; line 157 raises [ValueError] on it, so the update raises
    and the run ends with the exception, nothing being saved. *)
Theorem unreadable_time_fails_the_run :
  mini_loads (whole_text (mini_iterencode [observation "half past ten" 1010]))
  = Some (JArr [observation "half past ten" 1010])
  ∧ compute_barometric_stability_local iso_parse noon
      [observation "half past ten" 1010] = Ok (0 # 4)%Q
  ∧ prune iso_parse (cutoff_at noon) [observation "half past ten" 1010]
    = Raise ValueError
  ∧ update_log iso_parse iso_format (steady "2024-03-10T12:00:00+00:00")
      1013 1013 75 7 [observation "half past ten" 1010]
    = Raise ValueError
  ∧ log_management iso_parse iso_format mini_loads mini_iterencode
      (steady "2024-03-10T12:00:00+00:00") NoFault log_path 1013 1013 75 7
      (mk_world
         (disk (whole_text
                  (mini_iterencode [observation "half past ten" 1010]))) [])
    = (Raise ValueError,
       mk_world
         (disk (whole_text
                  (mini_iterencode [observation "half past ten" 1010]))) []).
Proof.
  split; [by vm_compute|]. split; [by vm_compute|].
  split; [by apply (prune_raises iso_parse _ [] [] _ 0)|].
  split; by vm_compute.
Qed.

(** C7 at a failing input: the log holds one record, of 10:05, and the
    clock passes eleven between line 154 and line 158.  The log is sorted
    and has one record in its hour, the new entry of 10:59:59 is not
    earlier than the record, and after the update two records share the
    calendar hour. *)
Theorem hour_tick_leaves_two_records_in_one_hour :
  NoDup (hours_of iso_parse [observation "2024-03-10T10:05:00Z" 1010])
  ∧ reading "2024-03-10T10:05:00+00:00" ≤ t_entry ticking
  ∧ t_entry ticking ≤ t_merge ticking
  ∧ update_log iso_parse iso_format ticking 1013 1013 75 7
      [observation "2024-03-10T10:05:00Z" 1010]
    = Ok [observation "2024-03-10T10:05:00Z" 1010;
          make_entry "2024-03-10T10:59:59Z" 1013 75 7
            (compute_score 1013 1013 75 7 0)]
  ∧ hours_of iso_parse
      [observation "2024-03-10T10:05:00Z" 1010;
       make_entry "2024-03-10T10:59:59Z" 1013 75 7
         (compute_score 1013 1013 75 7 0)]
    = [calendar_hour (now_utc (reading "2024-03-10T10:00:00+00:00"));
       calendar_hour (now_utc (reading "2024-03-10T10:00:00+00:00"))]
  ∧ ¬ NoDup (hours_of iso_parse
      [observation "2024-03-10T10:05:00Z" 1010;
       make_entry "2024-03-10T10:59:59Z" 1013 75 7
         (compute_score 1013 1013 75 7 0)]).
Proof.
  split; [vm_compute; repeat constructor; set_solver|].
  split; [by vm_compute|]. split; [by vm_compute|].
  split; [by vm_compute|]. split; [by vm_compute|].
  vm_compute. intros H. apply NoDup_cons in H as [H _].
  apply H, list_elem_of_here.
Qed.

(** ** One record per calendar hour *)

Lemma sublist_Forall {A} (P : A → Prop) (l1 l2 : list A) :
  sublist l1 l2 → Forall P l2 → Forall P l1.
Proof.
  induction 1 as [|x l1 l2 _ IH|x l1 l2 _ IH]; intros Hall; [done| |].
  - apply Forall_cons in Hall as [Hx Hall]. constructor; auto.
  - apply Forall_cons in Hall as [_ Hall]. auto.
Qed.

Lemma sublist_omap {A B} (f : A → option B) (l1 l2 : list A) :
  sublist l1 l2 → sublist (omap f l1) (omap f l2).
Proof.
  induction 1 as [|x l1 l2 _ IH|x l1 l2 _ IH]; cbn; [constructor| |].
  - destruct (f x); [by constructor|done].
  - destruct (f x); [by constructor|done].
Qed.

Lemma sublist_StronglySorted {A} (R : relation A) (l1 l2 : list A) :
  sublist l1 l2 → StronglySorted R l2 → StronglySorted R l1.
Proof.
  induction 1 as [|x l1 l2 Hsub IH|x l1 l2 _ IH]; intros Hs; [done| |].
  - apply StronglySorted_inv in Hs as [Hs Hx].
    constructor; [auto|]. by apply (sublist_Forall _ _ _ Hsub).
  - apply StronglySorted_inv in Hs as [Hs _]. auto.
Qed.

Section Hours.

Variable fromisoformat : string → option datetime.
Variable isoformat : datetime → string.

Lemma hours_of_times (data : list json) :
  hours_of fromisoformat data
  = (λ x, x / us_per_hour) <$> times_of fromisoformat data.
Proof.
  unfold hours_of, times_of. rewrite list_fmap_omap.
  induction data as [|e data IH]; [done|]. cbn. rewrite IH.
  by destruct (record_time fromisoformat e).
Qed.

Lemma times_of_snoc (init : list json) (e : json) (dt : datetime) :
  record_time fromisoformat e = Ok dt →
  times_of fromisoformat (init ++ [e])
  = times_of fromisoformat init ++ [instant dt].
Proof.
  intros He. unfold times_of. rewrite omap_app. cbn. by rewrite He.
Qed.

Lemma hour_of_utc (dt : datetime) :
  utcoffset dt = Some 0 → hour dt = calendar_hour dt mod 24.
Proof.
  intros H. unfold hour, calendar_hour, instant. rewrite H. cbn.
  by rewrite Z.sub_0_r.
Qed.

Lemma timed_utc_timed (e : json) :
  timed_utc fromisoformat e → timed fromisoformat e.
Proof. intros (dt & H1 & H2). by exists dt, 0. Qed.

(** Adding an instant that is not earlier than the last one, in a later
    hour or in place of the last. *)
Lemma hours_after_replace (ts : list Z) (tl te : Z) :
  StronglySorted Z.le (ts ++ [tl]) →
  NoDup ((λ x, x / us_per_hour) <$> ts ++ [tl]) →
  tl ≤ te →
  StronglySorted Z.le (ts ++ [te])
  ∧ NoDup ((λ x, x / us_per_hour) <$> ts ++ [te]).
Proof.
  intros Hs Hn Hle.
  apply StronglySorted_app in Hs as (Hcross & Hts & _).
  rewrite fmap_app in Hn. apply NoDup_app in Hn as (Hnts & Hfresh & _).
  assert (0 < us_per_hour) as HH by done.
  split.
  - apply StronglySorted_app_2; [|done|repeat constructor].
    intros x1 x2 H1 H2. apply list_elem_of_singleton in H2 as ->.
    specialize (Hcross x1 tl H1 (list_elem_of_here _ _)). lia.
  - rewrite fmap_app. apply NoDup_app. split; [done|].
    split; [|cbn; apply NoDup_singleton].
    intros h Hh Hin. cbn in Hin. apply list_elem_of_singleton in Hin as ->.
    apply list_elem_of_fmap in Hh as (x & Hx & Hin).
    specialize (Hcross x tl Hin (list_elem_of_here _ _)).
    apply (Hfresh (x / us_per_hour)).
    { apply list_elem_of_fmap. eauto. }
    cbn. apply list_elem_of_singleton.
    pose proof (Z.div_le_mono x tl us_per_hour HH Hcross).
    pose proof (Z.div_le_mono tl te us_per_hour HH Hle). lia.
Qed.

Lemma hours_after_append (ts : list Z) (tl te : Z) :
  StronglySorted Z.le (ts ++ [tl]) →
  NoDup ((λ x, x / us_per_hour) <$> ts ++ [tl]) →
  tl ≤ te → tl / us_per_hour ≠ te / us_per_hour →
  StronglySorted Z.le ((ts ++ [tl]) ++ [te])
  ∧ NoDup ((λ x, x / us_per_hour) <$> (ts ++ [tl]) ++ [te]).
Proof.
  intros Hs Hn Hle Hne.
  assert (0 < us_per_hour) as HH by done.
  assert (∀ x, x ∈ ts ++ [tl] → x ≤ tl) as Hmax.
  { intros x Hx. apply elem_of_app in Hx as [Hx|Hx].
    - apply (StronglySorted_app_1_elem_of _ _ _ _ _ Hs Hx), list_elem_of_here.
    - apply list_elem_of_singleton in Hx as ->. lia. }
  split.
  - apply StronglySorted_app_2; [|done|repeat constructor].
    intros x1 x2 H1 H2. apply list_elem_of_singleton in H2 as ->.
    specialize (Hmax x1 H1). lia.
  - rewrite fmap_app. apply NoDup_app. split; [done|].
    split; [|cbn; apply NoDup_singleton].
    intros h Hh Hin. cbn in Hin. apply list_elem_of_singleton in Hin as ->.
    apply list_elem_of_fmap in Hh as (x & Hx & Hin).
    specialize (Hmax x Hin).
    pose proof (Z.div_le_mono x tl us_per_hour HH Hmax).
    pose proof (Z.div_le_mono tl te us_per_hour HH Hle). lia.
Qed.

(** A last record of the calendar hour the clock of line 158 reads is
    replaced by the entry. *)
Theorem merge_replaces_within_the_hour (t : Z) (entry last : json)
    (init : list json) (dt : datetime) :
  record_time fromisoformat last = Ok dt →
  utcoffset dt = Some 0 →
  calendar_hour dt = calendar_hour (now_utc t) →
  merge_or_append fromisoformat t entry (init ++ [last])
  = Ok (init ++ [entry]).
Proof.
  intros Hdt Hoff Hsame.
  rewrite (merge_or_append_snoc fromisoformat _ _ _ _ _ Hdt).
  rewrite (hour_of_utc dt Hoff), (hour_of_utc (now_utc t) eq_refl), Hsame.
  by rewrite Z.eqb_refl.
Qed.

Lemma entry_time (now : string) (p_now T_now L_now pct : Q) :
  record_time fromisoformat (make_entry now p_now T_now L_now pct)
  = parse fromisoformat (str_replace "Z" "+00:00" now).
Proof. reflexivity. Qed.

Lemma sorted_below_last (ts : list Z) (bound : Z) :
  StronglySorted Z.le ts →
  (∀ t, last ts = Some t → t ≤ bound) →
  ∀ t, t ∈ ts → t ≤ bound.
Proof.
  intros Hs Hlast t Hin.
  destruct ts as [|x l _] using rev_ind; [by apply elem_of_nil in Hin|].
  specialize (Hlast x (last_snoc _ _)).
  apply elem_of_app in Hin as [Hin|Hin].
  - pose proof (StronglySorted_app_1_elem_of _ _ _ _ _ Hs Hin
                  (list_elem_of_here _ _)). lia.
  - apply list_elem_of_singleton in Hin as ->. lia.
Qed.

(** When the clock of line 158 reads the calendar hour of the entry's
    timestamp, the update of a sorted log of UTC records with one record
    per calendar hour and readings of moderate size, by an entry that is
    not earlier than its last record, returns a log that is again sorted
    and has one record per calendar hour. *)
Theorem update_keeps_one_record_per_hour (clk : clock)
    (p_now p_prev T_now L_now : Q) (data : list json) :
  Forall (timed_utc fromisoformat) data →
  Forall (well_formed fromisoformat) data →
  moderate_log fromisoformat (t_stability clk) data →
  Sorted Z.le (times_of fromisoformat data) →
  NoDup (hours_of fromisoformat data) →
  fromisoformat (str_replace "Z" "+00:00" (timestamp isoformat (t_entry clk)))
  = Some (replace_microsecond_0 (now_utc (t_entry clk))) →
  (∀ t, last (times_of fromisoformat data) = Some t →
        t ≤ instant (replace_microsecond_0 (now_utc (t_entry clk)))) →
  calendar_hour (now_utc (t_merge clk))
  = calendar_hour (replace_microsecond_0 (now_utc (t_entry clk))) →
  ∃ data',
    update_log fromisoformat isoformat clk p_now p_prev T_now L_now data
    = Ok data'
    ∧ Forall (timed_utc fromisoformat) data'
    ∧ Sorted Z.le (times_of fromisoformat data')
    ∧ NoDup (hours_of fromisoformat data').
Proof.
  intros Hutc Hwf Hmod Hsorted Hnodup Hstamp Hlast Hhour.
  set (stamp := replace_microsecond_0 (now_utc (t_entry clk))) in *.
  apply (Sorted_StronglySorted _ _) in Hsorted.
  pose proof (sorted_below_last _ _ Hsorted Hlast) as Hbelow.
  destruct (stability_returns fromisoformat (t_stability clk) data Hwf Hmod)
    as [D HD].
  unfold update_log. rewrite HD. cbn [mbind result_bind].
  rewrite (prune_filter fromisoformat _ _ 0); [|done|].
  2: { eapply Forall_impl; [exact Hutc|]. apply timed_utc_timed. }
  cbn [mbind result_bind].
  set (entry := make_entry _ _ _ _ _).
  assert (record_time fromisoformat entry = Ok stamp) as Hentry.
  { unfold entry. rewrite entry_time. unfold parse. by rewrite Hstamp. }
  assert (timed_utc fromisoformat entry) as Hentry_utc by by exists stamp.
  pose proof (filter_sublist
    (recent fromisoformat (cutoff_at (t_cutoff clk))) data) as Hsub.
  revert Hsub. generalize (List.filter
    (recent fromisoformat (cutoff_at (t_cutoff clk))) data).
  intros kept Hsub.
  pose proof (sublist_Forall _ _ _ Hsub Hutc) as Hkutc.
  pose proof (sublist_StronglySorted _ _ _
    (sublist_omap _ _ _ Hsub) Hsorted) as Hksorted.
  pose proof (sublist_NoDup _ _ Hnodup (sublist_omap _ _ _ Hsub)) as Hknodup.
  assert (∀ t, t ∈ times_of fromisoformat kept → t ≤ instant stamp)
    as Hkbelow.
  { intros t Ht. apply Hbelow.
    apply (elem_of_sublist _ _ _ Ht), sublist_omap, Hsub. }
  fold (times_of fromisoformat kept) in Hksorted.
  fold (hours_of fromisoformat kept) in Hknodup.
  destruct kept as [|last init _] using rev_ind.
  { rewrite merge_or_append_nil. eexists. split; [reflexivity|].
    split; [by repeat constructor|].
    change [entry] with ([] ++ [entry]).
    rewrite hours_of_times, (times_of_snoc [] _ _ Hentry).
    split; [repeat constructor|apply NoDup_singleton]. }
  apply Forall_app in Hkutc as [Hinit Hl].
  apply Forall_singleton in Hl as (dt & Hdt & Hoff).
  rewrite (merge_or_append_snoc fromisoformat _ _ _ _ _ Hdt).
  rewrite hours_of_times in Hknodup.
  rewrite (times_of_snoc _ _ _ Hdt) in Hksorted, Hknodup, Hkbelow.
  assert (instant dt ≤ instant stamp) as Hle.
  { apply Hkbelow, elem_of_app. right. apply list_elem_of_here. }
  rewrite (hour_of_utc dt Hoff), (hour_of_utc (now_utc (t_merge clk)) eq_refl).
  rewrite Hhour. unfold calendar_hour at 1 2.
  eexists. split; [reflexivity|].
  destruct (Z.eqb_spec ((instant dt / us_per_hour) mod 24)
                       ((instant stamp / us_per_hour) mod 24)) as [_|Hne].
  - destruct (hours_after_replace _ _ _ Hksorted Hknodup Hle) as [Hs Hn].
    split; [apply Forall_app; split; [done|by constructor]|].
    rewrite hours_of_times, (times_of_snoc _ _ _ Hentry).
    split; [by apply StronglySorted_Sorted|done].
  - destruct (hours_after_append _ _ _ Hksorted Hknodup Hle) as [Hs Hn].
    { intros Heq. apply Hne. by rewrite Heq. }
    replace (init ++ [last; entry]) with ((init ++ [last]) ++ [entry])
      by by rewrite <- app_assoc.
    split.
    { apply Forall_app; split; [|by constructor].
      apply Forall_app; split; [done|]. constructor; [|done]. by exists dt. }
    rewrite hours_of_times, (times_of_snoc _ _ _ Hentry).
    rewrite (times_of_snoc _ _ _ Hdt).
    split; [by apply StronglySorted_Sorted|done].
Qed.

End Hours.

(** The update at a log of one record, half an hour old. *)
Lemma update_keeps_one_record_per_hour_witness :
  ∃ data',
    update_log iso_parse iso_format (steady "2024-03-10T10:30:00+00:00")
      1013 1013 75 7 [observation "2024-03-10T10:00:00Z" 1010]
    = Ok data'
    ∧ Forall (timed_utc iso_parse) data'
    ∧ Sorted Z.le (times_of iso_parse data')
    ∧ NoDup (hours_of iso_parse data').
Proof.
  apply (update_keeps_one_record_per_hour iso_parse iso_format
           (steady "2024-03-10T10:30:00+00:00") 1013 1013 75 7
           [observation "2024-03-10T10:00:00Z" 1010]).
  - repeat constructor. eexists. by vm_compute.
  - repeat constructor; apply observation_well_formed.
  - intros d Hd. apply past_dates_elem in Hd.
    destruct Hd as [-> | [-> | [-> | ->]]]; by vm_compute.
  - vm_compute. repeat constructor.
  - vm_compute. apply NoDup_singleton.
  - by vm_compute.
  - intros t Ht. vm_compute in Ht. injection Ht as <-. by vm_compute.
  - by vm_compute.
Defined.

(** The merge at a record written half an hour before. *)
Lemma merge_replaces_within_the_hour_witness :
  merge_or_append iso_parse (reading "2024-03-10T10:30:00+00:00")
    (observation "2024-03-10T10:30:00Z" 1013)
    ([] ++ [observation "2024-03-10T10:00:00Z" 1010])
  = Ok ([] ++ [observation "2024-03-10T10:30:00Z" 1013]).
Proof.
  apply (merge_replaces_within_the_hour iso_parse
           (reading "2024-03-10T10:30:00+00:00")
           (observation "2024-03-10T10:30:00Z" 1013)
           (observation "2024-03-10T10:00:00Z" 1010) []
           (now_utc (reading "2024-03-10T10:00:00+00:00")));
    vm_compute; reflexivity.
Defined.

(** ** More on the score *)

Section ScoreOrder.

Open Scope Q_scope.

Lemma round_half_even_comp (x y : Q) :
  x == y → round_half_even x = round_half_even y.
Proof.
  intros H. unfold round_half_even.
  rewrite (Qfloor_comp x y H).
  assert (x - inject_Z (Qfloor y) == y - inject_Z (Qfloor y)) as Hd
    by (rewrite H; reflexivity).
  by rewrite (Qcompare_comp _ _ Hd (1 # 2) (1 # 2) (Qeq_refl _)).
Qed.

Lemma round_half_even_mono (x y : Q) :
  x <= y → (round_half_even x ≤ round_half_even y)%Z.
Proof.
  intros Hxy.
  pose proof (Qfloor_resp_le x y Hxy) as Hf.
  pose proof (Qfloor_le x) as Hx1. pose proof (Qlt_floor x) as Hx2.
  pose proof (Qfloor_le y) as Hy1. pose proof (Qlt_floor y) as Hy2.
  destruct (Z.eq_dec (Qfloor x) (Qfloor y)) as [Heq|Hne].
  - unfold round_half_even. rewrite <- Heq. rewrite <- Heq in Hy1, Hy2.
    destruct (Qcompare_spec (x - inject_Z (Qfloor x)) (1 # 2));
      destruct (Qcompare_spec (y - inject_Z (Qfloor x)) (1 # 2));
      try (exfalso; lra); try destruct (Z.even (Qfloor x)); lia.
  - assert (Qfloor x + 1 ≤ Qfloor y)%Z by lia.
    destruct (round_half_even_floor x) as [->|[-> _]];
      destruct (round_half_even_floor y) as [->|[-> _]]; lia.
Qed.

Lemma round1_mono (x y : Q) : x <= y → round1 x <= round1 y.
Proof.
  intros Hxy. rewrite !round1_tenths.
  assert (round_half_even (x * 10) ≤ round_half_even (y * 10))%Z
    by (apply round_half_even_mono; lra).
  unfold Qle; cbn. lia.
Qed.

Lemma round1_comp (x y : Q) : x == y → round1 x == round1 y.
Proof.
  intros H. unfold round1.
  rewrite (round_half_even_comp (x * 10) (y * 10)); [reflexivity|].
  by rewrite H.
Qed.

Lemma max0_comp (x y : Q) : x == y → max0 x == max0 y.
Proof.
  intros H. unfold max0.
  destruct (Qle_bool x 0) eqn:Ex; destruct (Qle_bool y 0) eqn:Ey;
    try reflexivity; try exact H.
  - apply Qle_bool_iff in Ex.
    assert (¬ y <= 0) by (rewrite <- Qle_bool_iff, Ey; discriminate). lra.
  - apply Qle_bool_iff in Ey.
    assert (¬ x <= 0) by (rewrite <- Qle_bool_iff, Ex; discriminate). lra.
Qed.

Lemma max0_zero (x : Q) : x <= 0 → max0 x == 0.
Proof.
  intros H. unfold max0. apply Qle_bool_iff in H. by rewrite H.
Qed.

(** A larger stability fraction never lowers the score. *)
Theorem score_monotone_in_stability (p_now p_prev T_now L_now D1 D2 : Q) :
  D1 <= D2 →
  compute_score p_now p_prev T_now L_now D1
  <= compute_score p_now p_prev T_now L_now D2.
Proof.
  intros HD. unfold compute_score. apply round1_mono. cbv zeta. lra.
Qed.

(** The score depends on the two pressures through their distance only:
    swapping them leaves it as it is. *)
Theorem score_symmetric_in_pressures (p q T_now L_now D : Q) :
  compute_score p q T_now L_now D == compute_score q p T_now L_now D.
Proof.
  unfold compute_score. apply round1_comp. cbv zeta.
  assert (max0 (1 - Qabs (p - q) / 10) == max0 (1 - Qabs (q - p) / 10)) as ->.
  { apply max0_comp. rewrite (Qabs_Qminus p q). reflexivity. }
  reflexivity.
Qed.

(** Readings that are off by the whole scale or more count for nothing:
    at each of the values the stability estimate takes, the score is then
    the stability term alone, 30 times the estimate: 0, 7.5, 15 or
    22.5. *)
Theorem score_saturates (p_now p_prev T_now L_now D : Q) :
  10 <= Qabs (p_now - p_prev) → 5 <= Qabs (L_now - 7) →
  15 <= Qabs (T_now - 75) →
  D == 0 ∨ D == 1 # 4 ∨ D == 1 # 2 ∨ D == 3 # 4 →
  compute_score p_now p_prev T_now L_now D == 30 * D.
Proof.
  intros Hp HL HT HD.
  assert (max0 (1 - Qabs (p_now - p_prev) / 10) == 0) as HP0.
  { apply max0_zero.
    assert (1 <= Qabs (p_now - p_prev) / 10)
      by (apply Qle_shift_div_l; lra). lra. }
  assert (max0 (1 - Qabs (L_now - 7) / 5) == 0) as HL0.
  { apply max0_zero.
    assert (1 <= Qabs (L_now - 7) / 5) by (apply Qle_shift_div_l; lra).
    lra. }
  assert (max0 (1 - Qabs (T_now - 75) / 15) == 0) as HT0.
  { apply max0_zero.
    assert (1 <= Qabs (T_now - 75) / 15) by (apply Qle_shift_div_l; lra).
    lra. }
  unfold compute_score. cbv zeta.
  destruct HD as [HD|[HD|[HD|HD]]].
  - rewrite (round1_comp _ 0); [rewrite HD; by vm_compute|].
    rewrite HP0, HL0, HT0, HD. lra.
  - rewrite (round1_comp _ (75 # 10)); [rewrite HD; by vm_compute|].
    rewrite HP0, HL0, HT0, HD. lra.
  - rewrite (round1_comp _ 15); [rewrite HD; by vm_compute|].
    rewrite HP0, HL0, HT0, HD. lra.
  - rewrite (round1_comp _ (225 # 10)); [rewrite HD; by vm_compute|].
    rewrite HP0, HL0, HT0, HD. lra.
Qed.

(** With a stability fraction of at most 3/4 the score is at most 92.5. *)
Lemma score_below_925 (p_now p_prev T_now L_now D : Q) :
  0 <= D <= 3 # 4 →
  0 <= compute_score p_now p_prev T_now L_now D <= 925 # 10.
Proof.
  intros HD. unfold compute_score.
  pose proof (sub_score_unit p_now p_prev 10 ltac:(lra)).
  pose proof (sub_score_unit L_now 7 5 ltac:(lra)).
  pose proof (sub_score_unit T_now 75 15 ltac:(lra)).
  cbv zeta. rewrite round1_tenths.
  match goal with |- context [round_half_even ?y] =>
    assert (inject_Z 0 <= y <= inject_Z 925) as Hy
      by (change (inject_Z 0) with 0; change (inject_Z 925) with 925; lra);
    apply round_half_even_between in Hy; revert Hy;
    generalize (round_half_even y)
  end.
  intros n Hn. unfold Qle; cbn. lia.
Qed.

End ScoreOrder.

(** Two stability fractions at the same readings. *)
Lemma score_monotone_in_stability_witness :
  (compute_score 1013 1010 70 6 (1 # 4)
   <= compute_score 1013 1010 70 6 (3 # 4))%Q.
Proof.
  apply (score_monotone_in_stability 1013 1010 70 6 (1 # 4) (3 # 4)).
  by vm_compute.
Defined.

(** Readings far from the ideal ones. *)
Lemma score_saturates_witness :
  (compute_score 1030 1013 40 1 (1 # 2) == 30 * (1 # 2))%Q.
Proof.
  apply (score_saturates 1030 1013 40 1 (1 # 2)); try by vm_compute.
  right; right; left. reflexivity.
Defined.

(** ** More on the stability estimate *)

Section StabilityMore.

Variable fromisoformat : string → option datetime.

Lemma collect_non_dict (m : gmap Z (list json)) (e : json) :
  ¬ is_dict e → collect fromisoformat m e = Raise AttributeError.
Proof.
  intros He. destruct e; try reflexivity. destruct He. by eexists.
Qed.

(** An item of the log that is not a dict makes the estimate raise
    [AttributeError]: [e.get] is called before the [try]. *)
Theorem stability_raises_on_non_dict (t : Z) (good rest : list json)
    (bad : json) :
  Forall is_dict good → ¬ is_dict bad →
  compute_barometric_stability_local fromisoformat t (good ++ bad :: rest)
  = Raise AttributeError.
Proof.
  intros Hgood Hbad.
  assert (∀ m, for_each (collect fromisoformat) (good ++ bad :: rest) m
               = Raise AttributeError) as Hloop.
  { induction Hgood as [|e good He _ IH]; intros m; cbn [app for_each].
    - by rewrite (collect_non_dict m bad Hbad).
    - destruct (collect_lookup fromisoformat m e 0 He) as (m1 & -> & _).
      cbn [mbind result_bind]. apply IH. }
  unfold compute_barometric_stability_local.
  destruct (good ++ bad :: rest) as [|e l] eqn:E.
  { by destruct good. }
  by rewrite Hloop.
Qed.

(** The estimate reads the log through the readings of the four dates
    before today only: two logs of dicts with the same readings on these
    dates have the same estimate, so records of today, of later or of
    older dates change nothing. *)
Theorem stability_reads_the_window_only (t : Z) (l1 l2 : list json) :
  Forall is_dict l1 → Forall is_dict l2 → l1 ≠ [] → l2 ≠ [] →
  (∀ d, d ∈ past_dates (date (now_utc t)) →
        readings_on fromisoformat d l1 = readings_on fromisoformat d l2) →
  compute_barometric_stability_local fromisoformat t l1
  = compute_barometric_stability_local fromisoformat t l2.
Proof.
  intros H1 H2 Hn1 Hn2 Hsame.
  unfold compute_barometric_stability_local.
  destruct l1 as [|e1 l1]; [done|]. destruct l2 as [|e2 l2]; [done|].
  destruct (grouping_empty fromisoformat (e1 :: l1) H1) as (m1 & -> & Hm1).
  destruct (grouping_empty fromisoformat (e2 :: l2) H2) as (m2 & -> & Hm2).
  cbn [mbind result_bind]. rewrite !averages_unfold.
  assert (∀ k, 1 ≤ k ≤ 4 →
    m1 !! (date (now_utc t) - k) = m2 !! (date (now_utc t) - k)) as Hk.
  { intros k Hk. rewrite Hm1, Hm2, Hsame; [done|].
    apply past_dates_elem. lia. }
  by rewrite !Hk by lia.
Qed.

Lemma stability_bounds (t : Z) (entries : list json) (r : Q) :
  compute_barometric_stability_local fromisoformat t entries = Ok r →
  (0 <= r <= 3 # 4)%Q.
Proof.
  unfold compute_barometric_stability_local.
  destruct entries as [|e entries].
  { intros [= <-]. by vm_compute. }
  destruct (for_each _ _ _) as [m|]; [|by cbn].
  cbn [mbind result_bind]. rewrite averages_unfold.
  unfold mbind, result_bind.
  destruct (daily_mean (m !! _)) as [a1|]; [|done].
  destruct (daily_mean (m !! _)) as [a2|]; [|done].
  destruct (daily_mean (m !! _)) as [a3|]; [|done].
  destruct (daily_mean (m !! _)) as [a4|]; [|done].
  intros [= <-].
  pose proof (count_stable_bound [a1; a2; a3; a4]) as Hc.
  change (length [a1; a2; a3; a4] - 1)%nat with 3%nat in Hc.
  destruct (count_stable [a1; a2; a3; a4]) as [|[|[|[|c]]]]; [| | | |lia];
    by vm_compute.
Qed.

(** When at most one of the four dates has readings, and these are of
    moderate size, no pair of days can be compared and the estimate is
    0. *)
Theorem stability_of_a_single_day (t : Z) (entries : list json) (d0 : Z) :
  Forall (well_formed fromisoformat) entries →
  moderate_log fromisoformat t entries →
  (∀ d, d ∈ past_dates (date (now_utc t)) → d ≠ d0 →
        readings_on fromisoformat d entries = []) →
  ∃ r, compute_barometric_stability_local fromisoformat t entries = Ok r
       ∧ (r == 0)%Q.
Proof.
  intros Hwf Hmod Hempty.
  assert (∀ k : Z, 1 ≤ k ≤ 4 →
    moderate_sum (readings_on fromisoformat (date (now_utc t) - k) entries))
    as Hday.
  { intros k Hk. apply Hmod, past_dates_elem. lia. }
  unfold compute_barometric_stability_local.
  destruct entries as [|e entries]; [by eexists|].
  destruct (grouping_empty fromisoformat (e :: entries)) as (m & -> & Hm).
  { eapply Forall_impl; [exact Hwf|]. by intros ? [? _]. }
  cbn [mbind result_bind]. rewrite averages_unfold.
  assert (∀ k, 1 ≤ k ≤ 4 → date (now_utc t) - k ≠ d0 →
    daily_mean (m !! (date (now_utc t) - k)) = Ok None) as Hnone.
  { intros k Hk Hne. rewrite Hm, Hempty; [done| |done].
    apply past_dates_elem. lia. }
  destruct (daily_mean_returns fromisoformat m (date (now_utc t) - 4) _
              Hwf (Hday 4 ltac:(lia)) (Hm _)) as (a1 & H1 & _).
  destruct (daily_mean_returns fromisoformat m (date (now_utc t) - 3) _
              Hwf (Hday 3 ltac:(lia)) (Hm _)) as (a2 & H2 & _).
  destruct (daily_mean_returns fromisoformat m (date (now_utc t) - 2) _
              Hwf (Hday 2 ltac:(lia)) (Hm _)) as (a3 & H3 & _).
  destruct (daily_mean_returns fromisoformat m (date (now_utc t) - 1) _
              Hwf (Hday 1 ltac:(lia)) (Hm _)) as (a4 & H4 & _).
  destruct (Z.eq_dec (date (now_utc t) - 4) d0) as [E4|E4];
    [|rewrite (Hnone 4) in H1 by (lia || done); injection H1 as <-];
  (destruct (Z.eq_dec (date (now_utc t) - 3) d0) as [E3|E3];
    [|rewrite (Hnone 3) in H2 by (lia || done); injection H2 as <-]);
  (destruct (Z.eq_dec (date (now_utc t) - 2) d0) as [E2|E2];
    [|rewrite (Hnone 2) in H3 by (lia || done); injection H3 as <-]);
  (destruct (Z.eq_dec (date (now_utc t) - 1) d0) as [E1|E1];
    [|rewrite (Hnone 1) in H4 by (lia || done); injection H4 as <-]);
  try lia;
  rewrite ?H1, ?H2, ?H3, ?H4, ?(Hnone 4), ?(Hnone 3), ?(Hnone 2), ?(Hnone 1)
    by (lia || done);
  cbn [mbind result_bind]; (eexists; split; [reflexivity|]);
  unfold count_stable, is_stable; cbn;
  repeat match goal with |- context [match ?a with Some _ => _ | None => _ end] => destruct a end;
  by vm_compute.
Qed.

End StabilityMore.

(** The estimate on a log whose second item is a number. *)
Lemma stability_raises_on_non_dict_witness :
  compute_barometric_stability_local iso_parse noon
    ([observation "2024-03-09T06:00:00Z" 1011] ++ JNum 1 :: [])
  = Raise AttributeError.
Proof.
  apply (stability_raises_on_non_dict iso_parse noon
           [observation "2024-03-09T06:00:00Z" 1011] [] (JNum 1)).
  - repeat constructor. by eexists.
  - intros [kv H]. discriminate.
Defined.

(** The sample log with a record of today and one of last year added. *)
Lemma stability_reads_the_window_only_witness :
  compute_barometric_stability_local iso_parse noon
    (observation "2023-03-09T06:00:00Z" 950 :: even_days
     ++ [observation "2024-03-10T09:00:00Z" 990])
  = compute_barometric_stability_local iso_parse noon even_days.
Proof.
  apply (stability_reads_the_window_only iso_parse noon).
  - repeat constructor; by eexists.
  - repeat constructor; by eexists.
  - discriminate.
  - discriminate.
  - intros d Hd. apply past_dates_elem in Hd.
    destruct Hd as [-> | [-> | [-> | ->]]]; by vm_compute.
Defined.

(** A log that holds one record, of yesterday. *)
Lemma stability_of_a_single_day_witness :
  ∃ r, compute_barometric_stability_local iso_parse noon
         [observation "2024-03-09T06:00:00Z" 1011] = Ok r
       ∧ (r == 0)%Q.
Proof.
  apply (stability_of_a_single_day iso_parse noon
           [observation "2024-03-09T06:00:00Z" 1011]
           (date (now_utc noon) - 1)).
  - repeat constructor; apply observation_well_formed.
  - intros d Hd. apply past_dates_elem in Hd.
    destruct Hd as [-> | [-> | [-> | ->]]]; by vm_compute.
  - intros d Hd Hne. apply past_dates_elem in Hd.
    destruct Hd as [-> | [-> | [-> | ->]]]; [done|by vm_compute..].
Defined.

(** ** More on the log update *)

(** What a comprehension that returns has kept. *)
Lemma comprehension_kept {A} (cond : A → result bool) (l kept : list A) :
  comprehension cond l = Ok kept →
  sublist kept l
  ∧ Forall (λ x, cond x = Ok true) kept
  ∧ (∀ x, x ∈ l → x ∈ kept ∨ cond x = Ok false).
Proof.
  revert kept. induction l as [|x l IH]; intros kept; cbn [comprehension].
  - intros [= <-]. split; [constructor|]. split; [constructor|].
    intros x Hx. by apply elem_of_nil in Hx.
  - destruct (cond x) as [b|e] eqn:Hx; [|done]. cbn [mbind result_bind].
    destruct (comprehension cond l) as [r|e]; [|done].
    cbn [mbind result_bind]. intros [= <-].
    destruct (IH r eq_refl) as (Hsub & Hall & Hrest).
    destruct b.
    + split; [by constructor|]. split; [by constructor|].
      intros y Hy. apply elem_of_cons in Hy as [->|Hy];
        [left; apply list_elem_of_here|].
      destruct (Hrest y Hy); [left; by apply list_elem_of_further|by right].
    + split; [by constructor|]. split; [done|].
      intros y Hy. apply elem_of_cons in Hy as [->|Hy]; [by right|].
      by apply Hrest.
Qed.

Lemma comprehension_all_true {A} (cond : A → result bool) (l : list A) :
  Forall (λ x, cond x = Ok true) l → comprehension cond l = Ok l.
Proof.
  induction 1 as [|x l Hx _ IH]; [done|].
  cbn [comprehension]. rewrite Hx. cbn [mbind result_bind].
  by rewrite IH.
Qed.

Section UpdateMore.

Variable fromisoformat : string → option datetime.
Variable isoformat : datetime → string.

(** Pruning what pruning returned changes nothing. *)
Theorem prune_idempotent (cutoff : datetime) (data kept : list json) :
  prune fromisoformat cutoff data = Ok kept →
  prune fromisoformat cutoff kept = Ok kept.
Proof.
  unfold prune. intros H.
  apply comprehension_kept in H as (_ & Hall & _).
  by apply comprehension_all_true.
Qed.

Lemma kept_record_time (cutoff : datetime) (e : json) :
  (dt ← record_time fromisoformat e; dt_ge dt cutoff) = Ok true →
  ∃ dt, record_time fromisoformat e = Ok dt ∧ dt_ge dt cutoff = Ok true.
Proof.
  destruct (record_time fromisoformat e) as [dt|]; [|done]. eauto.
Qed.

Lemma merge_after_kept (cutoff : datetime) (t : Z) (entry : json)
    (data kept : list json) :
  prune fromisoformat cutoff data = Ok kept →
  ∃ merged,
    merge_or_append fromisoformat t entry kept = Ok merged
    ∧ last merged = Some entry
    ∧ (merged = kept ++ [entry]
       ∨ ∃ init x, kept = init ++ [x] ∧ merged = init ++ [entry]).
Proof.
  unfold prune. intros H.
  apply comprehension_kept in H as (_ & Hall & _).
  destruct kept as [|x init _] using rev_ind.
  { exists [entry]. split; [reflexivity|]. split; [reflexivity|by left]. }
  apply Forall_app in Hall as [_ Hx]. rewrite Forall_singleton in Hx.
  apply kept_record_time in Hx as (dt & Hdt & _).
  rewrite (merge_or_append_snoc fromisoformat _ _ _ _ _ Hdt).
  destruct (hour dt =? hour (now_utc t)); eexists; (split; [reflexivity|]).
  - split; [apply last_snoc|]. right. eauto.
  - split.
    + change [x; entry] with ([x] ++ [entry]).
      rewrite app_assoc. apply last_snoc.
    + left. by rewrite <- app_assoc.
Qed.

(** After a pruning that returns, the merge step returns too: the new
    entry ends the list, which is the pruned list with the entry added or
    with its last record replaced by the entry. *)
Theorem merge_after_prune (cutoff : datetime) (t : Z) (entry : json)
    (data kept : list json) :
  prune fromisoformat cutoff data = Ok kept →
  ∃ merged,
    merge_or_append fromisoformat t entry kept = Ok merged
    ∧ last merged = Some entry
    ∧ (merged = kept ++ [entry]
       ∨ ∃ init x, kept = init ++ [x] ∧ merged = init ++ [entry]).
Proof. apply merge_after_kept. Qed.

Lemma update_log_shape (clk : clock) (p_now p_prev T_now L_now : Q)
    (data data' : list json) :
  update_log fromisoformat isoformat clk p_now p_prev T_now L_now data
  = Ok data' →
  ∃ D body,
    compute_barometric_stability_local fromisoformat (t_stability clk) data
    = Ok D
    ∧ data' = body ++ [make_entry (timestamp isoformat (t_entry clk))
                         p_now T_now L_now
                         (compute_score p_now p_prev T_now L_now D)]
    ∧ sublist body data
    ∧ Forall (λ e, ∃ dt, record_time fromisoformat e = Ok dt
                         ∧ t_cutoff clk - KEEP_HOURS * us_per_hour
                           ≤ instant dt) body
    ∧ (length data' ≤ length data + 1)%nat.
Proof.
  unfold update_log.
  destruct (compute_barometric_stability_local _ _ _) as [D|]; [|done].
  cbn [mbind result_bind].
  destruct (prune fromisoformat (cutoff_at (t_cutoff clk)) data)
    as [kept|] eqn:Hprune; [|done].
  cbn [mbind result_bind]. intros Hmerge.
  destruct (merge_after_kept _ (t_merge clk)
    (make_entry (timestamp isoformat (t_entry clk)) p_now T_now L_now
       (compute_score p_now p_prev T_now L_now D)) _ _ Hprune)
    as (merged & Hm & _ & Hshape).
  rewrite Hm in Hmerge. injection Hmerge as <-.
  unfold prune in Hprune.
  apply comprehension_kept in Hprune as (Hsub & Hall & _).
  assert (Forall (λ e, ∃ dt, record_time fromisoformat e = Ok dt
            ∧ t_cutoff clk - KEEP_HOURS * us_per_hour ≤ instant dt) kept)
    as Hrecent.
  { eapply Forall_impl; [exact Hall|]. intros e He.
    apply kept_record_time in He as (dt & Hdt & Hge).
    exists dt. split; [done|]. rewrite <- cutoff_instant.
    unfold dt_ge, cutoff_at, minus_hours, now_utc in Hge. cbn in Hge.
    destruct (utcoffset dt) as [off|] eqn:Hoff; [|done].
    injection Hge as Hge. apply Z.leb_le in Hge.
    unfold instant, cutoff_at, minus_hours, now_utc. cbn. rewrite Hoff.
    cbn. lia. }
  pose proof (sublist_length _ _ Hsub) as Hlen.
  exists D.
  destruct Hshape as [->|(init & x & -> & ->)].
  - exists kept. repeat split; try done. rewrite length_app. cbn. lia.
  - exists init. split; [done|]. split; [done|].
    apply Forall_app in Hrecent as [Hinit _].
    split; [|split; [done|]].
    + etrans; [|exact Hsub]. by apply sublist_inserts_r.
    + rewrite !length_app in *. cbn in *. lia.
Qed.

(** What an update that returns has made of the log: the records it keeps
    come from the old log, in their order, each with a time at or after
    the cutoff, and the new entry follows them; nothing else is added. *)
Theorem update_log_result (clk : clock) (p_now p_prev T_now L_now : Q)
    (data data' : list json) :
  update_log fromisoformat isoformat clk p_now p_prev T_now L_now data
  = Ok data' →
  ∃ D body,
    compute_barometric_stability_local fromisoformat (t_stability clk) data
    = Ok D
    ∧ data' = body ++ [make_entry (timestamp isoformat (t_entry clk))
                         p_now T_now L_now
                         (compute_score p_now p_prev T_now L_now D)]
    ∧ sublist body data
    ∧ Forall (λ e, ∃ dt, record_time fromisoformat e = Ok dt
                         ∧ t_cutoff clk - KEEP_HOURS * us_per_hour
                           ≤ instant dt) body
    ∧ (length data' ≤ length data + 1)%nat.
Proof. apply update_log_shape. Qed.

Lemma update_log_total (clk : clock) (p_now p_prev T_now L_now : Q)
    (data : list json) :
  Forall (well_formed fromisoformat) data →
  moderate_log fromisoformat (t_stability clk) data →
  Forall (timed fromisoformat) data →
  returns (update_log fromisoformat isoformat clk p_now p_prev T_now L_now
             data).
Proof.
  intros Hwf Hmod Htimed. unfold update_log.
  destruct (stability_returns fromisoformat (t_stability clk) data Hwf Hmod)
    as [D ->].
  cbn [mbind result_bind].
  pose proof (prune_filter fromisoformat (cutoff_at (t_cutoff clk)) data 0
                eq_refl Htimed) as Hprune.
  rewrite Hprune. cbn [mbind result_bind].
  destruct (merge_after_kept _ (t_merge clk)
    (make_entry (timestamp isoformat (t_entry clk)) p_now T_now L_now
       (compute_score p_now p_prev T_now L_now D)) _ _ Hprune)
    as (merged & -> & _).
  by eexists.
Qed.

(** The update returns for every log of well-formed records with
    timezone-aware timestamps whose readings of the four dates before
    today are of moderate size. *)
Theorem update_log_returns (clk : clock) (p_now p_prev T_now L_now : Q)
    (data : list json) :
  Forall (well_formed fromisoformat) data →
  moderate_log fromisoformat (t_stability clk) data →
  Forall (timed fromisoformat) data →
  returns (update_log fromisoformat isoformat clk p_now p_prev T_now L_now
             data).
Proof. apply update_log_total. Qed.

(** The score an update logs is never above 92.5: the stability fraction
    it is computed from is at most 3/4. *)
Theorem logged_score_at_most_925 (clk : clock)
    (p_now p_prev T_now L_now : Q) (data data' : list json) :
  update_log fromisoformat isoformat clk p_now p_prev T_now L_now data
  = Ok data' →
  ∃ pct,
    last data' = Some (make_entry (timestamp isoformat (t_entry clk))
                         p_now T_now L_now pct)
    ∧ (0 <= pct <= 925 # 10)%Q.
Proof.
  intros H. apply update_log_shape in H as (D & body & HD & -> & _).
  eexists. split; [apply last_snoc|].
  apply score_below_925. by apply (stability_bounds fromisoformat _ _ _ HD).
Qed.

Lemma prune_raises_at (cutoff : datetime) (good rest : list json)
    (bad : json) (c : Z) (err : exn) :
  utcoffset cutoff = Some c →
  Forall (timed fromisoformat) good →
  (dt ← record_time fromisoformat bad; dt_ge dt cutoff) = Raise err →
  prune fromisoformat cutoff (good ++ bad :: rest) = Raise err.
Proof.
  intros Hc Hgood Hbad. unfold prune.
  induction Hgood as [|e good He _ IH]; cbn [app comprehension].
  - by rewrite Hbad.
  - rewrite (keep_test_timed fromisoformat cutoff e c Hc He).
    cbn [mbind result_bind]. by rewrite IH.
Qed.

(** What line 157 raises at the first record it cannot date: [TypeError]
    for an item that is not a dict, [KeyError] for a dict without [time],
    [AttributeError] for a [time] that is not a string, [ValueError] for a
    string that is not a timestamp, and [TypeError] again for a timestamp
    without a UTC offset, which cannot be compared with the cutoff. *)
Theorem prune_error_by_record (t : Z) (good rest : list json) (bad : json) :
  Forall (timed fromisoformat) good →
  (¬ is_dict bad →
     prune fromisoformat (cutoff_at t) (good ++ bad :: rest)
     = Raise TypeError)
  ∧ (∀ kv, bad = JObj kv → lookup_key kv "time" = None →
       prune fromisoformat (cutoff_at t) (good ++ bad :: rest)
       = Raise KeyError)
  ∧ (∀ kv v, bad = JObj kv → lookup_key kv "time" = Some v →
       (∀ s, v ≠ JStr s) →
       prune fromisoformat (cutoff_at t) (good ++ bad :: rest)
       = Raise AttributeError)
  ∧ (∀ kv s, bad = JObj kv → lookup_key kv "time" = Some (JStr s) →
       fromisoformat (str_replace "Z" "+00:00" s) = None →
       prune fromisoformat (cutoff_at t) (good ++ bad :: rest)
       = Raise ValueError)
  ∧ (∀ kv s dt, bad = JObj kv → lookup_key kv "time" = Some (JStr s) →
       fromisoformat (str_replace "Z" "+00:00" s) = Some dt →
       utcoffset dt = None →
       prune fromisoformat (cutoff_at t) (good ++ bad :: rest)
       = Raise TypeError).
Proof.
  intros Hgood.
  split; [|split; [|split; [|split]]].
  - intros Hbad. apply (prune_raises_at _ _ _ _ 0); [done..|].
    destruct bad; try reflexivity. destruct Hbad. by eexists.
  - intros kv -> Hk. apply (prune_raises_at _ _ _ _ 0); [done..|].
    unfold record_time, getitem. by rewrite Hk.
  - intros kv v -> Hk Hv. apply (prune_raises_at _ _ _ _ 0); [done..|].
    unfold record_time, getitem. rewrite Hk. cbn [mbind result_bind].
    destruct v; try reflexivity. by destruct (Hv s).
  - intros kv s -> Hk Hs. apply (prune_raises_at _ _ _ _ 0); [done..|].
    unfold record_time, getitem. rewrite Hk. cbn [mbind result_bind].
    unfold parse_time, replace_method, parse. cbn [mbind result_bind].
    by rewrite Hs.
  - intros kv s dt -> Hk Hs Hoff.
    apply (prune_raises_at _ _ _ _ 0); [done..|].
    unfold record_time, getitem. rewrite Hk. cbn [mbind result_bind].
    unfold parse_time, replace_method, parse. cbn [mbind result_bind].
    rewrite Hs. cbn [mbind result_bind]. unfold dt_ge. by rewrite Hoff.
Qed.

End UpdateMore.

(** Pruning twice at a sample log. *)
Lemma prune_idempotent_witness :
  prune iso_parse (cutoff_at noon)
    [observation "2024-02-09T12:00:00Z" 1011;
     observation "2024-03-01T00:00:00Z" 1012]
  = Ok [observation "2024-02-09T12:00:00Z" 1011;
        observation "2024-03-01T00:00:00Z" 1012].
Proof.
  apply (prune_idempotent iso_parse (cutoff_at noon)
           [observation "2024-02-09T11:59:59Z" 1010;
            observation "2024-02-09T12:00:00Z" 1011;
            observation "2024-03-01T00:00:00Z" 1012]).
  by vm_compute.
Defined.

(** The merge after the pruning of a sample log. *)
Lemma merge_after_prune_witness :
  ∃ merged,
    merge_or_append iso_parse noon (observation "2024-03-10T12:00:00Z" 1013)
      [observation "2024-03-01T00:00:00Z" 1012] = Ok merged
    ∧ last merged = Some (observation "2024-03-10T12:00:00Z" 1013)
    ∧ (merged = [observation "2024-03-01T00:00:00Z" 1012]
                ++ [observation "2024-03-10T12:00:00Z" 1013]
       ∨ ∃ init x, [observation "2024-03-01T00:00:00Z" 1012] = init ++ [x]
                   ∧ merged
                     = init ++ [observation "2024-03-10T12:00:00Z" 1013]).
Proof.
  apply (merge_after_prune iso_parse (cutoff_at noon) noon
           (observation "2024-03-10T12:00:00Z" 1013)
           [observation "2024-02-09T11:59:59Z" 1010;
            observation "2024-03-01T00:00:00Z" 1012]).
  by vm_compute.
Defined.

(** The update of the sample log [even_days] at noon of 10 March. *)
Lemma update_log_returns_witness :
  returns (update_log iso_parse iso_format
             (steady "2024-03-10T12:00:00+00:00") 1013 1012 70 6 even_days).
Proof.
  apply (update_log_returns iso_parse iso_format).
  - repeat constructor; apply observation_well_formed.
  - exact even_days_moderate.
  - repeat constructor; eexists _, _; by vm_compute.
Defined.

(** A log whose second item is a dict without [time]. *)
Lemma prune_error_by_record_witness :
  prune iso_parse (cutoff_at noon)
    ([observation "2024-03-01T00:00:00Z" 1012] ++ JObj [] :: [])
  = Raise KeyError.
Proof.
  destruct (prune_error_by_record iso_parse noon
              [observation "2024-03-01T00:00:00Z" 1012] [] (JObj []))
    as (_ & Hkey & _).
  - repeat constructor; eexists _, _; by vm_compute.
  - by apply (Hkey []).
Defined.

(** The update of a log of one record, of the day before. *)
Lemma update_log_result_witness :
  ∃ D body,
    compute_barometric_stability_local iso_parse
      (t_stability (steady "2024-03-10T12:00:00+00:00"))
      [observation "2024-03-09T06:00:00Z" 1011] = Ok D
    ∧ [observation "2024-03-09T06:00:00Z" 1011;
       make_entry "2024-03-10T12:00:00Z" 1013 70 6
         (compute_score 1013 1012 70 6 0)]
      = body ++ [make_entry
                   (timestamp iso_format
                      (t_entry (steady "2024-03-10T12:00:00+00:00")))
                   1013 70 6 (compute_score 1013 1012 70 6 D)]
    ∧ sublist body [observation "2024-03-09T06:00:00Z" 1011]
    ∧ Forall (λ e, ∃ dt, record_time iso_parse e = Ok dt
                ∧ t_cutoff (steady "2024-03-10T12:00:00+00:00")
                  - KEEP_HOURS * us_per_hour ≤ instant dt) body
    ∧ (length [observation "2024-03-09T06:00:00Z" 1011;
               make_entry "2024-03-10T12:00:00Z" 1013 70 6
                 (compute_score 1013 1012 70 6 0)]
       ≤ length [observation "2024-03-09T06:00:00Z" 1011] + 1)%nat.
Proof.
  apply (update_log_result iso_parse iso_format
           (steady "2024-03-10T12:00:00+00:00") 1013 1012 70 6
           [observation "2024-03-09T06:00:00Z" 1011]).
  by vm_compute.
Defined.

(** The score logged by the same update. *)
Lemma logged_score_at_most_925_witness :
  ∃ pct,
    last [observation "2024-03-09T06:00:00Z" 1011;
          make_entry "2024-03-10T12:00:00Z" 1013 70 6
            (compute_score 1013 1012 70 6 0)]
    = Some (make_entry
              (timestamp iso_format
                 (t_entry (steady "2024-03-10T12:00:00+00:00")))
              1013 70 6 pct)
    ∧ (0 <= pct <= 925 # 10)%Q.
Proof.
  apply (logged_score_at_most_925 iso_parse iso_format
           (steady "2024-03-10T12:00:00+00:00") 1013 1012 70 6
           [observation "2024-03-09T06:00:00Z" 1011]).
  by vm_compute.
Defined.

(** ** More on saving *)

Section SavingMore.

Variable iterencode : list json → list string.

(** A run of [save_data] either raises, having touched no file but the
    temporary one, or ends with the replace of the log by the complete
    text, no file but the temporary one having been touched before. *)
Lemma save_data_run (flt : fault) (path : string) (data : list json)
    (fs : filesystem) (r : result ()) (w' : world) :
  save_data iterencode flt path data (mk_world fs []) = (r, w') →
  (∃ e, r = Raise e
        ∧ ∀ q, q ≠ path +:+ ".tmp" → untouched q (files fs !! q) w')
  ∨ (∃ mode w3,
       r = Ok ()
       ∧ (∀ q, q ≠ path +:+ ".tmp" → untouched q (files fs !! q) w3)
       ∧ mode = default true (readable <$> files fs !! (path +:+ ".tmp"))
       ∧ w' = mk_world
                (mk_fs (<[path := mk_file (whole_text (iterencode data))
                                    mode]>
                          (delete (path +:+ ".tmp") (files (fs_now w3))))
                       (dirs (fs_now w3)))
                (observed w3)).
Proof.
  set (tmp := path +:+ ".tmp").
  assert (∀ q, untouched q (files fs !! q) (mk_world fs [])) as H0.
  { intros q σ Hσ. apply list_elem_of_singleton in Hσ. by subst. }
  unfold save_data. fold tmp. rewrite io_bind_run.
  pose proof (λ q, preserves_makedirs q flt (dirname path) _ _ (H0 q)) as H1.
  destruct (os_makedirs flt (dirname path) (mk_world fs [])) as [[[]|e] w1];
    [|intros [= <- <-]; left; eauto].
  cbn [snd] in H1. rewrite io_bind_run.
  assert (files (fs_now w1) !! tmp = files fs !! tmp) as Htmp1.
  { apply (H1 tmp), list_elem_of_here. }
  pose proof (λ q (Hq : q ≠ tmp),
    preserves_open_w q flt tmp (not_eq_sym Hq) _ _ (H1 q)) as H2.
  destruct (open_w flt tmp w1) as [[[]|e] w2] eqn:Hopen;
    [|intros [= <- <-]; left; eauto].
  cbn [snd] in H2.
  assert (files (fs_now w2) !! tmp
          = Some (mk_file EmptyString
                    (default true (readable <$> files fs !! tmp)))) as Hfile.
  { revert Hopen. unfold open_w.
    assert ((is_dir ← io_read (λ fs0, bool_decide (tmp ∈ dirs fs0));
             if is_dir : bool then io_raise OSError
             else io_update (λ fs0,
               let mode := default true (readable <$> files fs0 !! tmp) in
               mk_fs (<[tmp := mk_file EmptyString mode]> (files fs0))
                     (dirs fs0))) w1 = (Ok (), w2) →
            files (fs_now w2) !! tmp
            = Some (mk_file EmptyString
                      (default true (readable <$> files fs !! tmp))))
      as Hbody.
    { unfold mbind, io_bind, io_read, io_update, io_raise.
      destruct (bool_decide (tmp ∈ dirs (fs_now w1))); [done|].
      intros [= <-]. cbn. by rewrite lookup_insert_eq, Htmp1. }
    destruct flt; try exact Hbody. done. }
  rewrite io_bind_run.
  pose proof (λ q (Hq : q ≠ tmp),
    preserves_for_each q (write_chunk flt tmp) (iterencode data) O
      (λ i c, preserves_write_chunk q flt tmp i c (not_eq_sym Hq)) _ _
      (H2 q Hq)) as H3.
  destruct (io_for_each (write_chunk flt tmp) 0 (iterencode data) w2)
    as [[[]|e] w3] eqn:Hloop;
    [|intros [= <- <-]; left; eauto].
  cbn [snd] in H3.
  pose proof (write_loop_appends _ _ _ _ _ _ _ Hfile Hloop) as Hwhole.
  cbn [text readable] in Hwhole.
  rewrite io_bind_run.
  destruct (close_file flt w3) as [[[]|e] w4] eqn:Hclose;
    pose proof (close_file_keeps _ _ _ _ Hclose) as ->;
    [|intros [= <- <-]; left; eauto].
  intros Hreplace.
  destruct (os_replace_effect _ _ _ _ _ _ Hreplace)
    as [(e & -> & ->)|(f & -> & Hf & ->)]; [left; eauto|].
  rewrite Hwhole in Hf. injection Hf as <-.
  right. eexists _, w3. repeat split; done.
Qed.

(** [save_data] touches no file but the log and its temporary file, and a
    run that returns leaves no temporary file behind. *)
Theorem save_data_frame (flt : fault) (path : string) (data : list json)
    (fs : filesystem) (r : result ()) (w' : world) :
  save_data iterencode flt path data (mk_world fs []) = (r, w') →
  (∀ σ q, σ ∈ observed w' → q ≠ path → q ≠ path +:+ ".tmp" →
          files σ !! q = files fs !! q)
  ∧ (r = Ok () → files (fs_now w') !! (path +:+ ".tmp") = None).
Proof.
  intros Hrun.
  destruct (save_data_run _ _ _ _ _ _ Hrun)
    as [(e & -> & Hkeep)|(mode & w3 & -> & Hkeep & _ & ->)].
  - split; [|done]. intros σ q Hσ _ Hq. by apply Hkeep.
  - split.
    + intros σ q Hσ Hq1 Hq2. unfold observed at 1 in Hσ.
      cbn [fs_now fs_before] in Hσ.
      apply elem_of_cons in Hσ as [->|Hσ]; [|by apply Hkeep].
      cbn. rewrite lookup_insert_ne, lookup_delete_ne by done.
      apply (Hkeep q Hq2), list_elem_of_here.
    + intros _. cbn.
      rewrite lookup_insert_ne by (apply not_eq_sym, tmp_is_another_path).
      apply lookup_delete_eq.
Qed.

Lemma dirname_without_slash (p : string) :
  Forall (λ c, c ≠ slash) (list_ascii_of_string p) →
  dirname p = EmptyString.
Proof.
  intros H. unfold dirname.
  assert (∀ l, Forall (λ c, c ≠ slash) l → drop_while_not_slash l = [])
    as Hdrop.
  { induction 1 as [|c l Hc _ IH]; [done|]. cbn.
    destruct (Ascii.eqb_spec c slash); [done|exact IH]. }
  rewrite Hdrop; [done|]. by apply Forall_rev.
Qed.

(** A log path without a directory part makes every [save_data] raise
    before it writes anything: [os.makedirs] is called on the empty
    string. *)
Theorem save_data_without_directory (flt : fault) (path : string)
    (data : list json) (w : world) :
  Forall (λ c, c ≠ slash) (list_ascii_of_string path) →
  save_data iterencode flt path data w = (Raise OSError, w).
Proof.
  intros H. unfold save_data, os_makedirs.
  by rewrite (dirname_without_slash path H).
Qed.

Section Codec.

Variable json_loads : string → option json.

(** What was saved is what is loaded next: after a [save_data] that
    returns, [load_existing_data] gives back the list, provided json.load
    reads the text json.dump wrote as that list. *)
Theorem save_then_load (flt : fault) (path : string) (data : list json)
    (fs : filesystem) (w' : world) :
  save_data iterencode flt path data (mk_world fs []) = (Ok (), w') →
  json_loads (whole_text (iterencode data)) = Some (JArr data) →
  (∀ f, files fs !! (path +:+ ".tmp") = Some f → readable f = true) →
  load_existing_data json_loads (fs_now w') path = Ok data.
Proof.
  intros Hrun Hcodec Hmode.
  destruct (save_data_run _ _ _ _ _ _ Hrun)
    as [(e & He & _)|(mode & w3 & _ & _ & Hm & ->)]; [done|].
  rewrite load_existing_data_eq. cbn. rewrite lookup_insert_eq. cbn.
  assert (mode = true) as ->.
  { rewrite Hm. destruct (files fs !! (path +:+ ".tmp")) as [f|] eqn:Hf;
      [|done]. cbn. by apply Hmode. }
  by rewrite Hcodec.
Qed.

End Codec.

Lemma makedirs_existing (flt : fault) (name : string) (w : world) :
  name ≠ EmptyString →
  (∀ d, d ∈ ancestors (S (String.length name)) name →
        files (fs_now w) !! d = None ∧ d ∈ dirs (fs_now w)) →
  os_makedirs flt name w = (Ok (), w).
Proof.
  intros Hname Hdirs. unfold os_makedirs.
  destruct (String.eqb_spec name EmptyString); [done|].
  revert Hdirs. generalize (ancestors (S (String.length name)) name).
  generalize O.
  intros i l. revert i. induction l as [|d l IH]; intros i Hdirs; [done|].
  cbn [io_for_each]. rewrite io_bind_run.
  destruct (Hdirs d (list_elem_of_here _ _)) as [Hfile Hdir].
  unfold mbind at 1, io_bind at 1, io_read at 1.
  rewrite bool_decide_eq_false_2 by (rewrite Hfile; by intros [? ?]).
  unfold mbind at 1, io_bind at 1, io_read at 1.
  rewrite bool_decide_eq_true_2 by done.
  cbn. apply IH. intros d' Hd'. by apply Hdirs, list_elem_of_further.
Qed.

Lemma write_loop_returns (p : string) (chunks : list string) (i : nat)
    (w : world) :
  ∃ w', io_for_each (write_chunk NoFault p) i chunks w = (Ok (), w')
        ∧ dirs (fs_now w') = dirs (fs_now w).
Proof.
  revert i w. induction chunks as [|c chunks IH]; intros i w.
  - by exists w.
  - cbn [io_for_each]. rewrite io_bind_run. cbn [write_chunk io_update].
    destruct (IH (S i) (mk_world
      (mk_fs (alter (λ f, mk_file (text f +:+ c) (readable f)) p
                (files (fs_now w))) (dirs (fs_now w)))
      (fs_now w :: fs_before w))) as (w' & -> & Hd).
    by exists w'.
Qed.

Lemma save_data_completes (path : string) (data : list json)
    (fs : filesystem) :
  dirname path ≠ EmptyString →
  (∀ d, d ∈ ancestors (S (String.length (dirname path))) (dirname path) →
        files fs !! d = None ∧ d ∈ dirs fs) →
  path ∉ dirs fs → path +:+ ".tmp" ∉ dirs fs →
  ∃ w', save_data iterencode NoFault path data (mk_world fs [])
        = (Ok (), w')
        ∧ text <$> files (fs_now w') !! path
          = Some (whole_text (iterencode data)).
Proof.
  intros Hname Hdirs Hpath Htmp.
  set (tmp := path +:+ ".tmp") in *.
  set (fs1 := mk_fs (<[tmp := mk_file EmptyString
                       (default true (readable <$> files fs !! tmp))]>
                       (files fs)) (dirs fs)).
  assert (open_w NoFault tmp (mk_world fs []) = (Ok (), mk_world fs1 [fs]))
    as Hopen.
  { unfold open_w, mbind, io_bind, io_read, io_update. cbn [fs_now].
    by rewrite bool_decide_eq_false_2 by done. }
  destruct (write_loop_returns tmp (iterencode data) O (mk_world fs1 [fs]))
    as (w3 & Hloop & Hd).
  assert (files (fs_now w3) !! tmp
          = Some (mk_file (whole_text (iterencode data))
                    (default true (readable <$> files fs !! tmp)))) as Hf.
  { assert (files (fs_now (mk_world fs1 [fs])) !! tmp
            = Some (mk_file EmptyString
                      (default true (readable <$> files fs !! tmp))))
      as Hstart by apply lookup_insert_eq.
    by rewrite (write_loop_appends _ _ _ _ _ _ _ Hstart Hloop). }
  eexists. split.
  - unfold save_data. fold tmp. rewrite io_bind_run.
    rewrite (makedirs_existing NoFault _ (mk_world fs []) Hname Hdirs).
    rewrite io_bind_run, Hopen, io_bind_run, Hloop, io_bind_run.
    cbn [close_file mret io_ret].
    unfold os_replace, mbind, io_bind, io_read, io_update.
    rewrite Hf, Hd. cbn [fs_now dirs fs1].
    rewrite bool_decide_eq_false_2 by done. reflexivity.
  - cbn. by rewrite lookup_insert_eq.
Qed.

(** When nothing fails, the directory of the log exists and neither the
    log nor its temporary file is a directory, [save_data] returns and
    the log holds the complete text. *)
Theorem save_data_returns (path : string) (data : list json)
    (fs : filesystem) :
  dirname path ≠ EmptyString →
  (∀ d, d ∈ ancestors (S (String.length (dirname path))) (dirname path) →
        files fs !! d = None ∧ d ∈ dirs fs) →
  path ∉ dirs fs → path +:+ ".tmp" ∉ dirs fs →
  ∃ w', save_data iterencode NoFault path data (mk_world fs [])
        = (Ok (), w')
        ∧ text <$> files (fs_now w') !! path
          = Some (whole_text (iterencode data)).
Proof. apply save_data_completes. Qed.

End SavingMore.

(** ** The run on the log as a whole (lines 151-162) *)

Section Transaction.

Variable fromisoformat : string → option datetime.
Variable isoformat : datetime → string.
Variable json_loads : string → option json.
Variable iterencode : list json → list string.

(** Load, update and save act on the log file as one step.  A run that
    raises, whether in the estimate, in the pruning or in a system call of
    the saving, leaves the file as it found it in every state; a run that
    returns has replaced it, in its last step, by the text of the updated
    log. *)
Theorem log_management_outcome (clk : clock) (flt : fault) (path : string)
    (p_now p_prev T_now L_now : Q) (fs : filesystem) (r : result ())
    (w' : world) :
  log_management fromisoformat isoformat json_loads iterencode clk flt path
    p_now p_prev T_now L_now (mk_world fs []) = (r, w') →
  (∀ e, r = Raise e →
        ∀ σ, σ ∈ observed w' → files σ !! path = files fs !! path)
  ∧ (r = Ok () →
     ∃ data data',
       load_existing_data json_loads fs path = Ok data
       ∧ update_log fromisoformat isoformat clk p_now p_prev T_now L_now data
         = Ok data'
       ∧ text <$> files (fs_now w') !! path
         = Some (whole_text (iterencode data'))
       ∧ ∀ σ, σ ∈ fs_before w' → files σ !! path = files fs !! path).
Proof.
  unfold log_management. cbn [fs_now].
  rewrite load_existing_data_eq. cbn [mbind result_bind].
  match goal with |- context [update_log _ _ _ _ _ _ _ ?d] =>
    set (data := d)
  end.
  destruct (update_log fromisoformat isoformat clk p_now p_prev T_now L_now
              data) as [data'|e] eqn:Hupdate.
  - intros Hrun.
    destruct (save_data_run _ _ _ _ _ _ _ Hrun)
      as [(e & -> & Hkeep)|(mode & w3 & -> & Hkeep & _ & ->)].
    + split; [|done]. intros _ _ σ Hσ.
      by apply (Hkeep path (not_eq_sym (tmp_is_another_path path))).
    + split; [done|]. intros _. exists data, data'.
      split; [reflexivity|]. split; [done|]. split.
      * cbn. by rewrite lookup_insert_eq.
      * intros σ Hσ.
        by apply (Hkeep path (not_eq_sym (tmp_is_another_path path))).
  - intros [= <- <-]. split; [|done].
    intros _ _ σ Hσ. apply list_elem_of_singleton in Hσ. by subst.
Qed.

End Transaction.

(** A run is named by its result. *)
Lemma run_with_result {A B} (run : A * B) (a : A) :
  run.1 = a → run = (a, run.2).
Proof. intros <-. by destruct run. Qed.

(** A run of [save_data] beside another file. *)
Lemma save_data_frame_witness :
  (∀ σ q,
     σ ∈ observed (save_data mini_iterencode NoFault log_path [JNum 1]
                     (mk_world (disk "[]") [])).2 →
     q ≠ log_path → q ≠ log_path +:+ ".tmp" →
     files σ !! q = files (disk "[]") !! q)
  ∧ (Ok () = Ok () →
     files (fs_now (save_data mini_iterencode NoFault log_path [JNum 1]
                      (mk_world (disk "[]") [])).2)
       !! (log_path +:+ ".tmp") = None).
Proof.
  apply (save_data_frame mini_iterencode NoFault log_path [JNum 1]
           (disk "[]")).
  apply run_with_result. by vm_compute.
Defined.

(** A log named by a bare file name. *)
Lemma save_data_without_directory_witness :
  save_data mini_iterencode NoFault "odds_log.json" [JNum 1]
    (mk_world (disk "[]") [])
  = (Raise OSError, mk_world (disk "[]") []).
Proof.
  apply (save_data_without_directory mini_iterencode NoFault "odds_log.json").
  repeat constructor; discriminate.
Defined.

(** Saving a log of one record and loading it again. *)
Lemma save_then_load_witness :
  load_existing_data mini_loads
    (fs_now (save_data mini_iterencode NoFault log_path
               [observation "2024-03-09T06:00:00Z" 1011]
               (mk_world (disk "[]") [])).2) log_path
  = Ok [observation "2024-03-09T06:00:00Z" 1011].
Proof.
  apply (save_then_load mini_iterencode mini_loads NoFault log_path
           [observation "2024-03-09T06:00:00Z" 1011] (disk "[]")).
  - apply run_with_result. by vm_compute.
  - by vm_compute.
  - intros f Hf. vm_compute in Hf. discriminate.
Defined.

(** Saving where the directory [data] exists. *)
Lemma save_data_returns_witness :
  ∃ w', save_data mini_iterencode NoFault log_path [JNum 1]
          (mk_world (disk "[]") []) = (Ok (), w')
        ∧ text <$> files (fs_now w') !! log_path
          = Some (whole_text (mini_iterencode [JNum 1])).
Proof.
  apply (save_data_returns mini_iterencode log_path [JNum 1] (disk "[]")).
  - by vm_compute.
  - intros d Hd. vm_compute in Hd.
    apply list_elem_of_singleton in Hd as ->.
    split; by vm_compute.
  - unfold disk. cbn [dirs]. rewrite elem_of_singleton. discriminate.
  - unfold disk. cbn [dirs]. rewrite elem_of_singleton. discriminate.
Defined.

(** A run on the log of one record, at noon of 10 March. *)
Lemma log_management_outcome_witness :
  (∀ e, Ok () = Raise e →
        ∀ σ, σ ∈ observed
               (log_management iso_parse iso_format mini_loads
                  mini_iterencode (steady "2024-03-10T12:00:00+00:00")
                  NoFault log_path 1013 1012 70 6
                  (mk_world (disk "[]") [])).2 →
             files σ !! log_path = files (disk "[]") !! log_path)
  ∧ (Ok () = Ok () →
     ∃ data data',
       load_existing_data mini_loads (disk "[]") log_path = Ok data
       ∧ update_log iso_parse iso_format
           (steady "2024-03-10T12:00:00+00:00") 1013 1012 70 6 data
         = Ok data'
       ∧ text <$> files (fs_now
           (log_management iso_parse iso_format mini_loads
              mini_iterencode (steady "2024-03-10T12:00:00+00:00")
              NoFault log_path 1013 1012 70 6
              (mk_world (disk "[]") [])).2) !! log_path
         = Some (whole_text (mini_iterencode data'))
       ∧ ∀ σ, σ ∈ fs_before
                (log_management iso_parse iso_format mini_loads
                   mini_iterencode (steady "2024-03-10T12:00:00+00:00")
                   NoFault log_path 1013 1012 70 6
                   (mk_world (disk "[]") [])).2 →
              files σ !! log_path = files (disk "[]") !! log_path).
Proof.
  apply (log_management_outcome iso_parse iso_format mini_loads
           mini_iterencode (steady "2024-03-10T12:00:00+00:00") NoFault
           log_path 1013 1012 70 6 (disk "[]")).
  apply run_with_result. by vm_compute.
Defined.

(** ** The two replacements of the UTC suffix (lines 154 and 157) *)

Lemma prefix_split (a s : string) :
  String.prefix a s = true → ∃ rest, s = a +:+ rest.
Proof.
  revert s. induction a as [|x a IH]; intros s; [by exists s|].
  destruct s as [|y s]; [done|]. cbn.
  destruct (ascii_dec x y) as [->|]; [|done].
  intros H. destruct (IH s H) as [rest ->]. by exists rest.
Qed.

Lemma replace_from_skip (a old new rest : string) :
  replace_from (String.length a) old new (a +:+ rest)
  = replace_from O old new rest.
Proof. induction a as [|x a IH]; [reflexivity|exact IH]. Qed.

Lemma free_of_append (c : ascii) (a rest : string) :
  free_of c (a +:+ rest) → free_of c rest.
Proof. induction a as [|x a IH]; [done|]. intros [_ H]. by apply IH. Qed.

Lemma replace_z_cons (c : ascii) (s : string) :
  c ≠ "Z"%char →
  str_replace "Z" "+00:00" (String c s)
  = String c (str_replace "Z" "+00:00" s).
Proof.
  intros Hc. unfold str_replace. cbn [replace_from].
  assert (String.prefix "Z" (String c s) = false) as ->; [|reflexivity].
  cbn [String.prefix]. by destruct (ascii_dec "Z" c) as [<-|].
Qed.

Lemma replace_z_z (s : string) :
  str_replace "Z" "+00:00" (String "Z" s)
  = "+00:00" +:+ str_replace "Z" "+00:00" s.
Proof. by destruct s. Qed.

Lemma suffix_round_trip_upto (n : nat) (s : string) :
  (String.length s ≤ n)%nat → free_of "Z" s →
  str_replace "Z" "+00:00" (str_replace "+00:00" "Z" s) = s.
Proof.
  revert s. induction n as [|n IH]; intros s Hn Hfree.
  { destruct s; [done|]. cbn in Hn. lia. }
  destruct s as [|c s]; [done|].
  unfold str_replace at 2. cbn [replace_from].
  destruct (String.prefix "+00:00" (String c s)) eqn:Hp.
  - apply prefix_split in Hp as [rest Hrest].
    injection Hrest as -> ->.
    change (Nat.pred (String.length "+00:00"))
      with (String.length "00:00").
    rewrite replace_from_skip. fold (str_replace "+00:00" "Z" rest).
    change ("Z" +:+ str_replace "+00:00" "Z" rest)
      with (String "Z" (str_replace "+00:00" "Z" rest)).
    rewrite replace_z_z, IH; [done| |].
    + cbn in Hn. rewrite length_append in Hn. cbn in Hn. lia.
    + by apply (free_of_append _ "+00:00").
  - destruct Hfree as [Hc Hfree].
    fold (str_replace "+00:00" "Z" s).
    rewrite replace_z_cons by done. rewrite IH; [done| |done].
    cbn in Hn. lia.
Qed.

(** Writing [Z] for the UTC offset and putting the offset back for [Z]
    gives the text one started from, when it has no [Z] of its own. *)
Theorem utc_suffix_round_trip (s : string) :
  free_of "Z" s →
  str_replace "Z" "+00:00" (str_replace "+00:00" "Z" s) = s.
Proof. by apply (suffix_round_trip_upto (String.length s)). Qed.

Section ReadBack.

Variable fromisoformat : string → option datetime.
Variable isoformat : datetime → string.

(** The entry a run writes is dated, by the next run, as the library
    reads the text it printed for the clock of line 154 cut to the
    second. *)
Theorem entry_reads_back (t : Z) (p_now T_now L_now pct : Q) :
  free_of "Z" (isoformat (replace_microsecond_0 (now_utc t))) →
  record_time fromisoformat
    (make_entry (timestamp isoformat t) p_now T_now L_now pct)
  = parse fromisoformat (isoformat (replace_microsecond_0 (now_utc t))).
Proof.
  intros H. rewrite entry_time. unfold timestamp.
  by rewrite (suffix_round_trip_upto (String.length
                (isoformat (replace_microsecond_0 (now_utc t))))).
Qed.

End ReadBack.

(** The text of a UTC timestamp. *)
Lemma utc_suffix_round_trip_witness :
  str_replace "Z" "+00:00"
    (str_replace "+00:00" "Z" "2024-03-10T12:00:00+00:00")
  = "2024-03-10T12:00:00+00:00".
Proof.
  apply (utc_suffix_round_trip "2024-03-10T12:00:00+00:00").
  cbn. repeat split; discriminate.
Defined.

(** The entry of noon, 10 March 2024. *)
Lemma entry_reads_back_witness :
  record_time iso_parse (make_entry (timestamp iso_format noon) 1013 70 6 50)
  = parse iso_parse (iso_format (replace_microsecond_0 (now_utc noon))).
Proof.
  apply (entry_reads_back iso_parse iso_format noon).
  vm_compute. repeat split; discriminate.
Defined.

(** ** The readings (lines 35-81) *)

Lemma net_bind_run {A B} (m : net A) (f : A → net B) (n : nat) :
  (m ≫= f) n
  = match m n with
    | (Done a, n') => f a n'
    | (Failed e, n') => (Failed e, n')
    end.
Proof. reflexivity. Qed.

Section Readings.

Variable http_get : nat → request → attempt json.
Variable float_of_string : string → option Q.
Variable str_of_float : Q → string.
Variable py_str : json → string.
Variable USER_AGENT : string.

(** An answer without results, be it an empty list, an empty object, an
    empty text, null, zero or false, makes [geocode_zip] raise
    [RuntimeError], after its one request. *)
Theorem geocode_without_result (zip_code : string) (n : nat) (data : json) :
  http_get n (mk_request "https://nominatim.openstreetmap.org/search"
                (Some [("User-Agent", USER_AGENT)])
                (Some [("postalcode", JStr zip_code); ("country", JStr "USA");
                       ("format", JStr "json"); ("limit", JNum 1)]) 10)
  = Done data →
  truthy data = false →
  geocode_zip http_get float_of_string USER_AGENT zip_code n
  = (Failed RuntimeError, S n).
Proof.
  intros Hget Hfalse. unfold geocode_zip. rewrite net_bind_run.
  unfold get_json. rewrite Hget, Hfalse. reflexivity.
Qed.

(** [geocode_zip] returns coordinates only for a list whose first element
    is an object with [lat] and [lon] that [float] accepts; what follows
    the first element is not read. *)
Theorem geocode_reads_first_result (zip_code : string) (n n' : nat)
    (lat lon : Q) :
  geocode_zip http_get float_of_string USER_AGENT zip_code n
  = (Done (lat, lon), n') →
  n' = S n
  ∧ ∃ first rest vlat vlon,
      http_get n (mk_request "https://nominatim.openstreetmap.org/search"
                    (Some [("User-Agent", USER_AGENT)])
                    (Some [("postalcode", JStr zip_code);
                           ("country", JStr "USA");
                           ("format", JStr "json"); ("limit", JNum 1)]) 10)
      = Done (JArr (JObj first :: rest))
      ∧ lookup_key first "lat" = Some vlat
      ∧ lookup_key first "lon" = Some vlon
      ∧ py_float float_of_string vlat = Done lat
      ∧ py_float float_of_string vlon = Done lon.
Proof.
  unfold geocode_zip. rewrite net_bind_run. unfold get_json.
  destruct (http_get n _) as [data|e]; [|done].
  destruct (truthy data); cbn [negb]; [|done].
  unfold local.
  destruct data as [|b|q|s|[|first rest]|kv]; try done.
  - cbn [getitem_index]. destruct (String.get 0 s); [|done].
    cbn. done.
  - cbn [getitem_index lookup list_lookup mbind attempt_bind].
    destruct first as [| | | | |kv]; try done.
    unfold subscript. cbn [getitem].
    destruct (lookup_key kv "lat") as [vlat|] eqn:Hvlat; [|done].
    cbn [lift mbind attempt_bind].
    destruct (py_float float_of_string vlat) as [x|] eqn:Hlat; [|done].
    destruct (lookup_key kv "lon") as [vlon|] eqn:Hvlon; [|done].
    cbn [lift mbind attempt_bind].
    destruct (py_float float_of_string vlon) as [y|] eqn:Hlon; [|done].
    cbn [mbind attempt_bind mret attempt_ret].
    intros [= <- <- <-]. split; [done|].
    by exists kv, rest, vlat, vlon.
Qed.


(** The null of a station that did not report makes [fetch_latest_obs]
    raise [TypeError]: a null pressure at line 66, and a null temperature
    at line 67 when the pressure before it is a number of moderate
    size. *)
Theorem latest_obs_null_reading (station_id : json) (n : nat)
    (data props bp tp vp vt : json) :
  http_get n (mk_request ("https://api.weather.gov/stations/"
                          +:+ format_value py_str station_id
                          +:+ "/observations/latest")
                (Some [("User-Agent", USER_AGENT)]) None 15) = Done data →
  getitem data "properties" = Ok props →
  getitem props "barometricPressure" = Ok bp →
  getitem bp "value" = Ok vp →
  getitem props "temperature" = Ok tp →
  getitem tp "value" = Ok vt →
  vp = JNull ∨ (vt = JNull ∧ ∃ pa, vp = JNum pa ∧ moderate pa) →
  fetch_latest_obs http_get py_str USER_AGENT station_id n
  = (Failed (Builtin TypeError), S n).
Proof.
  intros Hget Hprops Hbp Hpa Htp Hc Hnull.
  unfold fetch_latest_obs, fetch_json. rewrite net_bind_run.
  unfold get_json. rewrite Hget. unfold local, subscript.
  rewrite Hprops. cbn [lift mbind attempt_bind].
  rewrite Hbp. cbn [lift mbind attempt_bind].
  rewrite Hpa. cbn [lift mbind attempt_bind].
  destruct Hnull as [->|(-> & pa & -> & _)]; [done|].
  cbn [operand as_number lift mbind attempt_bind]. rewrite Htp.
  cbn [lift mbind attempt_bind]. by rewrite Hc.
Qed.

(** The previous pressure is read from the second observation of the
    history: a history of fewer than two makes [fetch_prev_pressure] raise
    [IndexError]. *)
Theorem prev_pressure_needs_two_observations (station_id : json) (n : nat)
    (data : json) (features : list json) :
  http_get n (mk_request ("https://api.weather.gov/stations/"
                          +:+ format_value py_str station_id
                          +:+ "/observations")
                (Some [("User-Agent", USER_AGENT)])
                (Some [("limit", JNum 48)]) 15) = Done data →
  getitem data "features" = Ok (JArr features) →
  (length features < 2)%nat →
  fetch_prev_pressure http_get py_str USER_AGENT station_id n
  = (Failed IndexError, S n).
Proof.
  intros Hget Hfeatures Hlen.
  unfold fetch_prev_pressure, fetch_json. rewrite net_bind_run.
  unfold get_json. rewrite Hget. unfold local, subscript.
  rewrite Hfeatures. cbn [lift mbind attempt_bind getitem_index].
  rewrite lookup_ge_None_2 by lia. reflexivity.
Qed.

(** A gauge without a time series makes [fetch_gauge] raise
    [IndexError]. *)
Theorem gauge_without_series (n : nat) (data value : json) :
  http_get n (mk_request USGS_URL None None 15) = Done data →
  getitem data "value" = Ok value →
  getitem value "timeSeries" = Ok (JArr []) →
  fetch_gauge http_get float_of_string n = (Failed IndexError, S n).
Proof.
  intros Hget Hvalue Hseries.
  unfold fetch_gauge, fetch_json. rewrite net_bind_run.
  unfold get_json. rewrite Hget. unfold local, subscript.
  rewrite Hvalue. cbn [lift mbind attempt_bind].
  rewrite Hseries. reflexivity.
Qed.

(** Without a station near the point, [get_weather_station] raises
    [IndexError] after its second request, which goes to the address the
    first answer gives. *)
Theorem station_without_features (lat lon : Q) (n : nat)
    (data props stations_url stations_data : json) :
  http_get n (mk_request ("https://api.weather.gov/points/"
                          +:+ str_of_float lat +:+ "," +:+ str_of_float lon)
                (Some [("User-Agent", USER_AGENT)]) None 15) = Done data →
  getitem data "properties" = Ok props →
  getitem props "observationStations" = Ok stations_url →
  http_get (S n) (mk_request (format_value py_str stations_url)
                    (Some [("User-Agent", USER_AGENT)]) None 15)
  = Done stations_data →
  getitem stations_data "features" = Ok (JArr []) →
  get_weather_station http_get str_of_float py_str USER_AGENT lat lon n
  = (Failed IndexError, S (S n)).
Proof.
  intros Hget Hprops Hurl Hget2 Hfeatures.
  unfold get_weather_station, fetch_json. rewrite net_bind_run.
  unfold get_json at 1. rewrite Hget. rewrite net_bind_run.
  unfold local at 1, subscript. rewrite Hprops.
  cbn [lift mbind attempt_bind]. rewrite Hurl. cbn [lift].
  rewrite net_bind_run. unfold get_json. rewrite Hget2.
  unfold local. rewrite Hfeatures. reflexivity.
Qed.

(** Each fetching function sends its requests whatever the answers. *)
Lemma get_json_count (req : request) (n : nat) :
  (get_json http_get req n).2 = S n.
Proof. reflexivity. Qed.

Lemma bind_local_count {A B} (m : net A) (r : A → attempt B) (n : nat) :
  ((a ← m; local (r a)) n).2 = (m n).2.
Proof.
  rewrite net_bind_run. by destruct (m n) as [[a|e] k].
Qed.

Lemma latest_obs_count (station_id : json) (n : nat) :
  (fetch_latest_obs http_get py_str USER_AGENT station_id n).2 = S n.
Proof. unfold fetch_latest_obs. by rewrite bind_local_count. Qed.

Lemma prev_pressure_count (station_id : json) (n : nat) :
  (fetch_prev_pressure http_get py_str USER_AGENT station_id n).2 = S n.
Proof. unfold fetch_prev_pressure. by rewrite bind_local_count. Qed.

Lemma gauge_count (n : nat) :
  (fetch_gauge http_get float_of_string n).2 = S n.
Proof. unfold fetch_gauge. by rewrite bind_local_count. Qed.

Lemma geocode_count (zip_code : string) (n : nat) :
  (geocode_zip http_get float_of_string USER_AGENT zip_code n).2 = S n.
Proof.
  unfold geocode_zip. rewrite net_bind_run. unfold get_json.
  destruct (http_get n _) as [data|e]; [|done].
  by destruct (negb (truthy data)).
Qed.

Lemma station_count (lat lon : Q) (n k : nat) (r : attempt json) :
  get_weather_station http_get str_of_float py_str USER_AGENT lat lon n
  = (r, k) →
  (S n ≤ k ≤ S (S n))%nat ∧ (∀ s, r = Done s → k = S (S n)).
Proof.
  unfold get_weather_station, fetch_json.
  rewrite net_bind_run. unfold get_json at 1.
  destruct (http_get n _) as [data|e];
    [|intros [= <- <-]; split; [lia|done]].
  rewrite net_bind_run. unfold local at 1.
  destruct (props ← subscript data "properties";
            subscript props "observationStations") as [u|e];
    [|intros [= <- <-]; split; [lia|done]].
  intros H. apply (f_equal snd) in H. rewrite bind_local_count in H.
  cbn in H. subst k. split; [lia|done].
Qed.

Lemma fetch_readings_count (lat lon : Q) (n k : nat)
    (r : attempt (Q * Q * Q * Q)) :
  fetch_readings http_get float_of_string str_of_float py_str USER_AGENT
    lat lon n = (r, k) →
  (S n ≤ k ≤ n + 5)%nat ∧ (∀ x, r = Done x → k = (n + 5)%nat).
Proof.
  unfold fetch_readings. rewrite net_bind_run.
  destruct (get_weather_station _ _ _ _ _ _ n) as [[s|e] n1] eqn:Hs;
    apply station_count in Hs as [Hn Hdone];
    [|intros [= <- <-]; split; [lia|done]].
  rewrite (Hdone s eq_refl). clear Hn Hdone.
  rewrite net_bind_run.
  pose proof (latest_obs_count s (S (S n))) as H1.
  destruct (fetch_latest_obs _ _ _ s _) as [[[p_now T_now]|e] n2];
    cbn [snd] in H1; subst n2; [|intros [= <- <-]; split; [lia|done]].
  rewrite net_bind_run.
  pose proof (prev_pressure_count s (S (S (S n)))) as H2.
  destruct (fetch_prev_pressure _ _ _ s _) as [[p_prev|e] n3];
    cbn [snd] in H2; subst n3; [|intros [= <- <-]; split; [lia|done]].
  rewrite net_bind_run.
  pose proof (gauge_count (S (S (S (S n))))) as H3.
  destruct (fetch_gauge _ _ _) as [[L_now|e] n4];
    cbn [snd] in H3; subst n4; intros [= <- <-]; (split; [lia|]);
    [|done].
  intros _ _. lia.
Qed.

End Readings.

(** ** The run (lines 132-163) *)

Section Run.

Variable http_get : nat → request → attempt json.
Variable float_of_string : string → option Q.
Variable str_of_float : Q → string.
Variable py_str : json → string.
Variable LOG_FILE_PATH : string.
Variable ZIP_CODE : string.
Variable USER_AGENT : string.
Variable fromisoformat : string → option datetime.
Variable isoformat : datetime → string.
Variable json_loads : string → option json.
Variable iterencode : list json → list string.

(** Lines 151-161 are the update of the loaded log, with the time stamp
    and the score of the new entry kept for line 163. *)
Lemma log_step_update (clk : clock) (p_now p_prev T_now L_now : Q)
    (fs : filesystem) :
  log_step LOG_FILE_PATH fromisoformat isoformat json_loads clk
    p_now p_prev T_now L_now fs
  = (data ← load_existing_data json_loads fs LOG_FILE_PATH;
     D ← compute_barometric_stability_local fromisoformat (t_stability clk)
           data;
     data' ← update_log fromisoformat isoformat clk p_now p_prev T_now L_now
               data;
     Ok (data', timestamp isoformat (t_entry clk),
         compute_score p_now p_prev T_now L_now D)).
Proof.
  unfold log_step, update_log.
  destruct (load_existing_data json_loads fs LOG_FILE_PATH) as [data|];
    [|done].
  cbn [mbind result_bind].
  destruct (compute_barometric_stability_local _ _ data) as [D|]; [|done].
  cbn [mbind result_bind].
  destruct (prune _ _ data) as [kept|]; [|done].
  cbn [mbind result_bind].
  by destruct (merge_or_append _ _ _ kept).
Qed.

(** A call of [main] ends in one of four ways.  It prints that the
    geocoding failed, or that the fetching failed, and has touched
    nothing; or it ends with an exception of the log management, the log
    file being in every state what it was; or it prints the time and the
    score of the entry it added, the log file holding the text of a list
    that ends with this entry, made of the readings fetched and of a score
    between 0 and 92.5, and having been replaced in the last step only. *)
Theorem main_outcome (clk : clock) (flt : fault) (fs : filesystem)
    (out : outcome) :
  main http_get float_of_string str_of_float py_str LOG_FILE_PATH ZIP_CODE
    USER_AGENT fromisoformat isoformat json_loads iterencode clk flt
    (mk_world fs []) = out →
  (∃ e, printed out = [GeocodeFailed e] ∧ raised out = None
        ∧ after out = mk_world fs [])
  ∨ (∃ e, printed out = [FetchFailed e] ∧ raised out = None
          ∧ after out = mk_world fs [])
  ∨ (∃ e, printed out = [] ∧ raised out = Some e
          ∧ untouched LOG_FILE_PATH (files fs !! LOG_FILE_PATH) (after out))
  ∨ (∃ lat lon n p_now T_now p_prev L_now pct data',
       geocode_zip http_get float_of_string USER_AGENT ZIP_CODE 0%nat
       = (Done (lat, lon), n)
       ∧ fetch_readings http_get float_of_string str_of_float py_str
           USER_AGENT lat lon n
         = (Done (p_now, T_now, p_prev, L_now), sent out)
       ∧ printed out = [Logged (timestamp isoformat (t_entry clk)) pct]
       ∧ raised out = None
       ∧ (0 <= pct <= 925 # 10)%Q
       ∧ last data' = Some (make_entry (timestamp isoformat (t_entry clk))
                              p_now T_now L_now pct)
       ∧ text <$> files (fs_now (after out)) !! LOG_FILE_PATH
         = Some (whole_text (iterencode data'))
       ∧ ∀ σ, σ ∈ fs_before (after out) →
              files σ !! LOG_FILE_PATH = files fs !! LOG_FILE_PATH).
Proof.
  intros <-. unfold main.
  destruct (geocode_zip _ _ _ ZIP_CODE 0%nat) as [[[lat lon]|e] n] eqn:Hgeo;
    [|left; by exists e].
  destruct (fetch_readings _ _ _ _ _ lat lon n)
    as [[[[[p_now T_now] p_prev] L_now]|e] n'] eqn:Hfetch;
    [|right; left; by exists e].
  right; right. cbn [fs_now]. rewrite log_step_update.
  destruct (load_existing_data json_loads fs LOG_FILE_PATH) as [data|e];
    cbn [mbind result_bind];
    [|left; exists e; repeat split; intros σ Hσ;
      apply list_elem_of_singleton in Hσ; by subst].
  destruct (compute_barometric_stability_local fromisoformat
              (t_stability clk) data) as [D|e] eqn:HD;
    cbn [mbind result_bind];
    [|left; exists e; repeat split; intros σ Hσ;
      apply list_elem_of_singleton in Hσ; by subst].
  destruct (update_log fromisoformat isoformat clk p_now p_prev T_now L_now
              data) as [data'|e] eqn:Hupdate;
    cbn [mbind result_bind];
    [|left; exists e; repeat split; intros σ Hσ;
      apply list_elem_of_singleton in Hσ; by subst].
  destruct (save_data iterencode flt LOG_FILE_PATH data' (mk_world fs []))
    as [r w'] eqn:Hsave.
  pose proof (not_eq_sym (tmp_is_another_path LOG_FILE_PATH)) as Hne.
  destruct (save_data_run _ _ _ _ _ _ _ Hsave)
    as [(e & -> & Hkeep)|(mode & w3 & -> & Hkeep & _ & ->)].
  - left. exists e. repeat split. by apply Hkeep.
  - right.
    apply update_log_shape in Hupdate as (D' & body & HD' & -> & _).
    assert (D' = D) as -> by congruence.
    exists lat, lon, n, p_now, T_now, p_prev, L_now,
      (compute_score p_now p_prev T_now L_now D),
      (body ++ [make_entry (timestamp isoformat (t_entry clk))
                  p_now T_now L_now
                  (compute_score p_now p_prev T_now L_now D)]).
    split; [done|]. split; [done|]. split; [done|]. split; [done|].
    split; [apply score_below_925;
            by apply (stability_bounds fromisoformat _ _ _ HD)|].
    split; [apply last_snoc|]. split.
    + cbn. by rewrite lookup_insert_eq.
    + intros σ Hσ. by apply (Hkeep LOG_FILE_PATH Hne).
Qed.

(** A call sends one request when the geocoding fails, between two and
    six when the fetching fails, and six when it reaches the log. *)
Theorem main_requests (clk : clock) (flt : fault) (w : world)
    (out : outcome) :
  main http_get float_of_string str_of_float py_str LOG_FILE_PATH ZIP_CODE
    USER_AGENT fromisoformat isoformat json_loads iterencode clk flt w
  = out →
  match printed out with
  | [GeocodeFailed _] => sent out = 1%nat
  | [FetchFailed _] => (2 ≤ sent out ≤ 6)%nat
  | _ => sent out = 6%nat
  end.
Proof.
  intros <-. unfold main.
  pose proof (geocode_count http_get float_of_string USER_AGENT ZIP_CODE 0%nat)
    as Hgeo.
  destruct (geocode_zip _ _ _ ZIP_CODE 0%nat) as [[[lat lon]|e] n];
    cbn [snd] in Hgeo; subst n; [|done].
  destruct (fetch_readings _ _ _ _ _ lat lon 1%nat)
    as [[[[[p_now T_now] p_prev] L_now]|e] n'] eqn:Hfetch;
    apply fetch_readings_count in Hfetch as [Hn Hdone];
    [|cbn; lia].
  specialize (Hdone _ eq_refl). subst n'.
  destruct (log_step _ _ _ _ _ _ _ _ _ _) as [[[data now] pct]|e]; [|done].
  by destruct (save_data _ _ _ _ _) as [[[]|e] w'].
Qed.

(** When the services answer with readings, the numbers fetched and the
    readings of the log are of moderate size, the log holds well-formed
    records with timezone-aware times and its directory exists, a call
    without a failing system call prints the confirmation line and leaves
    the log with the new entry at its end. *)
Theorem main_logs (clk : clock) (fs : filesystem) (lat lon : Q) (n n' : nat)
    (p_now T_now p_prev L_now : Q) (data : list json) :
  geocode_zip http_get float_of_string USER_AGENT ZIP_CODE 0%nat
  = (Done (lat, lon), n) →
  fetch_readings http_get float_of_string str_of_float py_str USER_AGENT
    lat lon n = (Done (p_now, T_now, p_prev, L_now), n') →
  Forall moderate [lat; lon; p_now; T_now; p_prev; L_now] →
  load_existing_data json_loads fs LOG_FILE_PATH = Ok data →
  Forall (well_formed fromisoformat) data →
  moderate_log fromisoformat (t_stability clk) data →
  Forall (timed fromisoformat) data →
  dirname LOG_FILE_PATH ≠ EmptyString →
  (∀ d, d ∈ ancestors (S (String.length (dirname LOG_FILE_PATH)))
              (dirname LOG_FILE_PATH) →
        files fs !! d = None ∧ d ∈ dirs fs) →
  LOG_FILE_PATH ∉ dirs fs →
  LOG_FILE_PATH +:+ ".tmp" ∉ dirs fs →
  ∃ pct w' data',
    main http_get float_of_string str_of_float py_str LOG_FILE_PATH ZIP_CODE
      USER_AGENT fromisoformat isoformat json_loads iterencode clk NoFault
      (mk_world fs [])
    = mk_outcome [Logged (timestamp isoformat (t_entry clk)) pct] None w' n'
    ∧ text <$> files (fs_now w') !! LOG_FILE_PATH
      = Some (whole_text (iterencode data'))
    ∧ last data' = Some (make_entry (timestamp isoformat (t_entry clk))
                           p_now T_now L_now pct).
Proof.
  intros Hgeo Hfetch _ Hload Hwf Hmod Htimed Hname Hdirs Hpath Htmp.
  unfold main. rewrite Hgeo, Hfetch. cbn [fs_now].
  rewrite log_step_update, Hload. cbn [mbind result_bind].
  destruct (stability_returns fromisoformat (t_stability clk) data Hwf Hmod)
    as [D HD].
  rewrite HD. cbn [mbind result_bind].
  destruct (update_log_total fromisoformat isoformat clk
              p_now p_prev T_now L_now data Hwf Hmod Htimed)
    as [data' Hupdate].
  rewrite Hupdate. cbn [mbind result_bind].
  destruct (save_data_completes iterencode LOG_FILE_PATH data' fs
              Hname Hdirs Hpath Htmp) as (w' & Hsave & Htext).
  rewrite Hsave.
  apply update_log_shape in Hupdate as (D' & body & HD' & -> & _).
  assert (D' = D) as -> by congruence.
  eexists _, w', _. split; [reflexivity|]. split; [exact Htext|].
  apply last_snoc.
Qed.

End Run.

(** A search without result. *)
Lemma geocode_without_result_witness :
  geocode_zip (answers [Done (JArr [])]) float_of_text agent "19130" 0%nat
  = (Failed RuntimeError, 1%nat).
Proof.
  apply (geocode_without_result (answers [Done (JArr [])]) float_of_text
           agent "19130" 0%nat (JArr [])); reflexivity.
Defined.


(** A station that reports a pressure and no temperature. *)
Lemma latest_obs_null_reading_witness :
  fetch_latest_obs (answers [Done (observation_of (JNum 101300) JNull)])
    text_of_value agent (JStr "KPHL") 0%nat
  = (Failed (Builtin TypeError), 1%nat).
Proof.
  apply (latest_obs_null_reading
           (answers [Done (observation_of (JNum 101300) JNull)])
           text_of_value agent (JStr "KPHL") 0%nat
           (observation_of (JNum 101300) JNull)
           (properties_of (JNum 101300) JNull)
           (JObj [("unitCode", JStr "wmoUnit:Pa"); ("value", JNum 101300)])
           (JObj [("unitCode", JStr "wmoUnit:degC"); ("value", JNull)])
           (JNum 101300) JNull); try reflexivity.
  right. split; [reflexivity|]. exists 101300%Q.
  split; [reflexivity|by vm_compute].
Defined.

(** A history of one observation. *)
Lemma prev_pressure_needs_two_observations_witness :
  fetch_prev_pressure
    (answers [Done (history [observation_of (JNum 101300) (JNum 20)])])
    text_of_value agent (JStr "KPHL") 0%nat
  = (Failed IndexError, 1%nat).
Proof.
  apply (prev_pressure_needs_two_observations
           (answers [Done (history [observation_of (JNum 101300) (JNum 20)])])
           text_of_value agent (JStr "KPHL") 0%nat
           (history [observation_of (JNum 101300) (JNum 20)])
           [observation_of (JNum 101300) (JNum 20)]);
    [reflexivity|reflexivity|cbn; lia].
Defined.

(** A gauge that reports nothing. *)
Lemma gauge_without_series_witness :
  fetch_gauge (answers [Done (gauge [])]) float_of_text 0%nat
  = (Failed IndexError, 1%nat).
Proof.
  apply (gauge_without_series (answers [Done (gauge [])]) float_of_text
           0%nat (gauge []) (JObj [("timeSeries", JArr [])])); reflexivity.
Defined.

(** A point without stations. *)
Lemma station_without_features_witness :
  get_weather_station (answers [Done points; Done (stations [])])
    write_number text_of_value agent (3996 # 100) (-7517 # 100) 0%nat
  = (Failed IndexError, 2%nat).
Proof.
  apply (station_without_features
           (answers [Done points; Done (stations [])])
           write_number text_of_value agent (3996 # 100) (-7517 # 100) 0%nat
           points
           (JObj [("observationStations",
                   JStr "https://api.weather.gov/gridpoints/PHI/49,76/stations")])
           (JStr "https://api.weather.gov/gridpoints/PHI/49,76/stations")
           (stations [])); reflexivity.
Defined.

(** The first result of the sample search. *)
Lemma geocode_reads_first_result_witness :
  1%nat = 1%nat
  ∧ ∃ first rest vlat vlon,
      answers fair_day 0%nat
        (mk_request "https://nominatim.openstreetmap.org/search"
           (Some [("User-Agent", agent)])
           (Some [("postalcode", JStr "19130"); ("country", JStr "USA");
                  ("format", JStr "json"); ("limit", JNum 1)]) 10)
      = Done (JArr (JObj first :: rest))
      ∧ lookup_key first "lat" = Some vlat
      ∧ lookup_key first "lon" = Some vlon
      ∧ py_float float_of_text vlat = Done (3996 # 100)%Q
      ∧ py_float float_of_text vlon = Done (-7517 # 100)%Q.
Proof.
  apply (geocode_reads_first_result (answers fair_day) float_of_text agent
           "19130" 0%nat 1%nat (3996 # 100) (-7517 # 100)).
  by vm_compute.
Defined.

(** A run on an empty log with every service answering. *)
Lemma main_outcome_witness :
  ∃ out,
    main (answers fair_day) float_of_text write_number text_of_value
      log_path "19130" agent iso_parse iso_format mini_loads mini_iterencode
      (steady "2024-03-10T12:00:00+00:00") NoFault (mk_world (disk "[]") [])
    = out
    ∧ ((∃ e, printed out = [GeocodeFailed e] ∧ raised out = None
             ∧ after out = mk_world (disk "[]") [])
       ∨ (∃ e, printed out = [FetchFailed e] ∧ raised out = None
               ∧ after out = mk_world (disk "[]") [])
       ∨ (∃ e, printed out = [] ∧ raised out = Some e
               ∧ untouched log_path (files (disk "[]") !! log_path)
                   (after out))
       ∨ (∃ lat lon n p_now T_now p_prev L_now pct data',
            geocode_zip (answers fair_day) float_of_text agent "19130" 0%nat
            = (Done (lat, lon), n)
            ∧ fetch_readings (answers fair_day) float_of_text write_number
                text_of_value agent lat lon n
              = (Done (p_now, T_now, p_prev, L_now), sent out)
            ∧ printed out
              = [Logged (timestamp iso_format
                           (t_entry (steady "2024-03-10T12:00:00+00:00")))
                   pct]
            ∧ raised out = None
            ∧ (0 <= pct <= 925 # 10)%Q
            ∧ last data'
              = Some (make_entry
                        (timestamp iso_format
                           (t_entry (steady "2024-03-10T12:00:00+00:00")))
                        p_now T_now L_now pct)
            ∧ text <$> files (fs_now (after out)) !! log_path
              = Some (whole_text (mini_iterencode data'))
            ∧ ∀ σ, σ ∈ fs_before (after out) →
                   files σ !! log_path = files (disk "[]") !! log_path)).
Proof.
  eexists. split; [reflexivity|].
  apply (main_outcome (answers fair_day) float_of_text write_number
           text_of_value log_path "19130" agent iso_parse iso_format
           mini_loads mini_iterencode (steady "2024-03-10T12:00:00+00:00")
           NoFault (disk "[]")).
  reflexivity.
Defined.

(** A run in which the search gives nothing sends one request. *)
Lemma main_requests_witness :
  sent (main (answers [Done (JArr [])]) float_of_text write_number
          text_of_value log_path "19130" agent iso_parse iso_format
          mini_loads mini_iterencode (steady "2024-03-10T12:00:00+00:00")
          NoFault (mk_world (disk "[]") []))
  = 1%nat.
Proof.
  apply (main_requests (answers [Done (JArr [])]) float_of_text write_number
           text_of_value log_path "19130" agent iso_parse iso_format
           mini_loads mini_iterencode (steady "2024-03-10T12:00:00+00:00")
           NoFault (mk_world (disk "[]") []) _ eq_refl).
Defined.

(** A run on the log of one record, with every service answering. *)
Lemma main_logs_witness :
  ∃ pct w' data',
    main (answers fair_day) float_of_text write_number text_of_value
      log_path "19130" agent iso_parse iso_format mini_loads mini_iterencode
      (steady "2024-03-10T12:00:00+00:00") NoFault
      (mk_world
         (disk (whole_text
                  (mini_iterencode [observation "2024-03-09T06:00:00Z" 1011])))
         [])
    = mk_outcome
        [Logged (timestamp iso_format
                   (t_entry (steady "2024-03-10T12:00:00+00:00"))) pct]
        None w' 6%nat
    ∧ text <$> files (fs_now w') !! log_path
      = Some (whole_text (mini_iterencode data'))
    ∧ last data'
      = Some (make_entry
                (timestamp iso_format
                   (t_entry (steady "2024-03-10T12:00:00+00:00")))
                (101300 # 100) (340 # 5) (65 # 10) pct).
Proof.
  apply (main_logs (answers fair_day) float_of_text write_number
           text_of_value log_path "19130" agent iso_parse iso_format
           mini_loads mini_iterencode (steady "2024-03-10T12:00:00+00:00")
           (disk (whole_text
                    (mini_iterencode
                       [observation "2024-03-09T06:00:00Z" 1011])))
           (3996 # 100) (-7517 # 100) 1%nat 6%nat
           (101300 # 100) (340 # 5) (101200 # 100) (65 # 10)
           [observation "2024-03-09T06:00:00Z" 1011]).
  - by vm_compute.
  - by vm_compute.
  - repeat constructor; by vm_compute.
  - by vm_compute.
  - repeat constructor; apply observation_well_formed.
  - intros d Hd. apply past_dates_elem in Hd.
    destruct Hd as [-> | [-> | [-> | ->]]]; by vm_compute.
  - repeat constructor; eexists _, _; by vm_compute.
  - by vm_compute.
  - intros d Hd. vm_compute in Hd.
    apply list_elem_of_singleton in Hd as ->.
    split; [by vm_compute|].
    unfold disk. cbn [dirs]. by rewrite elem_of_singleton.
  - unfold disk. cbn [dirs]. rewrite elem_of_singleton. discriminate.
  - unfold disk. cbn [dirs]. rewrite elem_of_singleton. discriminate.
Defined.
